(** * SafeHer backend: alert dispatch and matching engine

    A shallow embedding of the alert controller (createAlert, cancelAlert,
    acceptAlert, declineAlert, resolveAlert, submitFeedback,
    updateAlertLocation), of the Alert and Volunteer model methods, of the
    emergency-contact notification services and of the alert sweeper of
    server.js, followed by the properties of the specification.

    Conventions of the embedding.
    - Collections of the document store: alerts are a finite map from
      ObjectId to document (every access of the controller is by _id);
      volunteers and emergency contacts are lists in natural order, because
      the controller queries them by field and relies on the order in which
      the store returns them.
    - Time is the number of milliseconds since the epoch, an integer.  Each
      handler invocation reads the clock once: every [new Date()] and
      [Date.now()] of one invocation is the argument [now].
    - JavaScript numbers that the code only compares, adds, multiplies and
      divides (coordinates, ratings, running averages) are exact rationals;
      [NaN], which arises from arithmetic on [undefined], is a separate
      constructor.  Counters that start at 0 and are only incremented are
      natural numbers (N).
    - A string is the sequence of the bytes of its UTF-8 form.
    - A handler returns the new store and the HTTP response.  Socket
      emissions ([req.io]) do not touch the store and are not recorded; the
      one lookup made for an emission that can throw (in cancelAlert) is
      kept, and references populated for an emission are taken to resolve.
    - The body of a request holds JSON values of the expected kind: a
      coordinate or a rating is absent or a number, a text is absent or a
      string.
    - [await document.save()] writes the in-memory document over the stored
      one after the pre-save hook has set [updatedAt]. *)

From stdpp Require Import base option list gmap strings.
From Stdlib Require Import Ascii ZArith NArith QArith Qabs Qround Lia Btauto Sorted.
Close Scope Q_scope.

Set Default Proof Using "Type".

(* ===================================================================== *)
(** * Definitions *)
(* ===================================================================== *)

(** ** Identifiers, time and numbers *)

(** A MongoDB ObjectId (12 bytes), as the number it encodes. *)
Abbreviation ObjectId := N.

(** Milliseconds since the epoch. *)
Abbreviation Time := Z.

(** [x < y] on rationals, as a boolean. *)
Definition Qltb (x y : Q) : bool := negb (Qle_bool y x).

(** A JavaScript number: a finite value or NaN. *)
Inductive JsNumber : Type :=
| Finite (q : Q)
| NaN.

(** [a < b] of JavaScript: false as soon as an operand is NaN. *)
Definition js_lt (a : JsNumber) (b : Q) : bool :=
  match a with
  | Finite q => Qltb q b
  | NaN => false
  end.

(** Truthiness of an optional number ([undefined], or a number): [undefined]
    and 0 are falsy. *)
Definition truthy (x : option Q) : bool :=
  match x with
  | Some q => negb (Qeq_bool q 0)
  | None => false
  end.

(** [Math.floor (ms / 1000)] on an integer number of milliseconds. *)
Definition floor_seconds (ms : Z) : Z := (ms / 1000)%Z.

(** A GeoJSON point, [coordinates: [longitude, latitude]]. *)
Record Point : Type := mkPoint {
  lng : Q;
  lat : Q
}.

(** ** config/config.js *)

Module config.
Module alert.
(** Radius in kilometers to find nearby volunteers. *)
Definition searchRadius : Z := 5.
(** Maximum volunteers to notify per alert. *)
Definition maxVolunteersToNotify : nat := 10.
(** Alert expiry time in minutes. *)
Definition expiryTime : Z := 30.
End alert.
End config.

(** ** models/Volunteer.js *)

Inductive VolunteerStatus : Type :=
| VPending | VActive | VInactive | VSuspended.

Definition VolunteerStatus_eqb (a b : VolunteerStatus) : bool :=
  match a, b with
  | VPending, VPending | VActive, VActive
  | VInactive, VInactive | VSuspended, VSuspended => true
  | _, _ => false
  end.

Record Badge : Type := mkBadge {
  badge_name : string;
  badge_icon : string;
  badge_earnedAt : Time
}.

Module Stats.
Record t : Type := mk {
  totalResponses : N;
  successfulAssists : N;
  declinedAlerts : N;
  avgResponseTime : JsNumber;   (* in seconds *)
  rating : Q;
  totalRatings : N
}.
End Stats.

Module Volunteer.
Record t : Type := mk {
  _id : ObjectId;
  user : ObjectId;
  isVerified : bool;
  status : VolunteerStatus;
  isOnDuty : bool;
  currentLocation : Point;   (* currentLocation.coordinates, default [0, 0] *)
  stats : Stats.t;
  badges : list Badge;
  updatedAt : Time
}.

Definition with_stats (s : Stats.t) (v : t) : t :=
  mk (_id v) (user v) (isVerified v) (status v) (isOnDuty v)
     (currentLocation v) s (badges v) (updatedAt v).

Definition with_badges (bs : list Badge) (v : t) : t :=
  mk (_id v) (user v) (isVerified v) (status v) (isOnDuty v)
     (currentLocation v) (stats v) bs (updatedAt v).

(** [volunteerSchema.pre('save')]: [this.updatedAt = Date.now()]. *)
Definition pre_save (now : Time) (v : t) : t :=
  mk (_id v) (user v) (isVerified v) (status v) (isOnDuty v)
     (currentLocation v) (stats v) (badges v) now.
End Volunteer.

Definition N2Q (n : N) : Q := inject_Z (Z.of_N n).

(** The running average of [updateStats]:
    [(avgResponseTime * (totalResponses - 1) + responseTime) / totalResponses],
    with [totalResponses] already incremented.  An [undefined] response time
    or a NaN average gives NaN.  The arithmetic is that of the rationals:
    the rounding of the doubles of JavaScript is not modelled, and what is
    said of this value holds of the stored number up to that rounding.  A
    NaN does not pass the cast of the [Number] path when the profile is
    saved, and that rejection is not modelled either: acceptAlert sets the
    response time together with the responding volunteer, so that the
    handlers, run from a store without such a value, do not produce one. *)
Definition next_avgResponseTime (avg : JsNumber) (n : N) (responseTime : option Z)
  : JsNumber :=
  match avg, responseTime with
  | Finite a, Some t =>
      let totalTime := (a * (N2Q n - 1) + inject_Z t)%Q in
      Finite (totalTime / N2Q n)%Q
  | _, _ => NaN
  end.

(** [volunteerSchema.methods.updateStats (responseTime, wasSuccessful, rating)] *)
Definition updateStats (now : Time) (responseTime : option Z)
    (wasSuccessful : bool) (rating : option Q) (v : Volunteer.t) : Volunteer.t :=
  let s := Volunteer.stats v in
  let totalResponses := (Stats.totalResponses s + 1)%N in
  let successfulAssists :=
    if wasSuccessful then (Stats.successfulAssists s + 1)%N
    else Stats.successfulAssists s in
  let avgResponseTime :=
    next_avgResponseTime (Stats.avgResponseTime s) totalResponses responseTime in
  let '(rating', totalRatings) :=
    match rating with
    | Some r =>
        if truthy (Some r) then
          let totalRating := (Stats.rating s * N2Q (Stats.totalRatings s) + r)%Q in
          let n := (Stats.totalRatings s + 1)%N in
          ((totalRating / N2Q n)%Q, n)
        else (Stats.rating s, Stats.totalRatings s)
    | None => (Stats.rating s, Stats.totalRatings s)
    end in
  Volunteer.pre_save now
    (Volunteer.with_stats
       (Stats.mk totalResponses successfulAssists (Stats.declinedAlerts s)
                 avgResponseTime rating' totalRatings) v).

(** [this.badges.find(b => b.name === name)] is truthy. *)
Definition has_badge (name : string) (bs : list Badge) : bool :=
  existsb (fun b => String.eqb (badge_name b) name) bs.

(** One [if (...) badgesToAward.push(...)] of [checkBadges]: [held] are the
    badges of the volunteer when the method starts. *)
Definition award_if (cond : bool) (name icon : string) (now : Time)
    (held : list Badge) (badgesToAward : list Badge) : list Badge :=
  if cond && negb (has_badge name held)
  then badgesToAward ++ [mkBadge name icon now]
  else badgesToAward.

(** The list [badgesToAward] that [checkBadges] builds. *)
Definition badgesToAward (now : Time) (v : Volunteer.t) : list Badge :=
  let s := Volunteer.stats v in
  let held := Volunteer.badges v in
  let l := [] in
  let l := award_if (1 <=? Stats.totalResponses s)%N
                    "First Responder" "🏅" now held l in
  let l := award_if (10 <=? Stats.successfulAssists s)%N
                    "10 Assists" "⭐" now held l in
  let l := award_if (25 <=? Stats.successfulAssists s)%N
                    "25 Assists" "🌟" now held l in
  let l := award_if (50 <=? Stats.successfulAssists s)%N
                    "50 Assists" "🏆" now held l in
  let l := award_if (js_lt (Stats.avgResponseTime s) 180
                     && (5 <=? Stats.totalResponses s)%N)
                    "Quick Responder" "⚡" now held l in
  l.

(** [volunteerSchema.methods.checkBadges ()]: the saved document and the
    returned [badgesToAward]. *)
Definition checkBadges (now : Time) (v : Volunteer.t) : Volunteer.t * list Badge :=
  let l := badgesToAward now v in
  if (0 <? length l)%nat
  then (Volunteer.pre_save now
          (Volunteer.with_badges (Volunteer.badges v ++ l) v), l)
  else (v, l).

(** The badge catalogue of [getBadges] (volunteerController.js):
    [(name, required, field)]. *)
Inductive StatField : Type := FTotalResponses | FSuccessfulAssists | FAvgResponseTime.

Definition allBadges : list (string * N * StatField) :=
  [ ("First Responder", 1%N, FTotalResponses);
    ("10 Assists", 10%N, FSuccessfulAssists);
    ("25 Assists", 25%N, FSuccessfulAssists);
    ("50 Assists", 50%N, FSuccessfulAssists);
    ("Quick Responder", 180%N, FAvgResponseTime);
    ("Community Hero", 100%N, FSuccessfulAssists) ].

(** ** models/Alert.js *)

Inductive AlertStatus : Type :=
| Pending | Active | Responding | Resolved | Cancelled | Expired.

Definition AlertStatus_eqb (a b : AlertStatus) : bool :=
  match a, b with
  | Pending, Pending | Active, Active | Responding, Responding
  | Resolved, Resolved | Cancelled, Cancelled | Expired, Expired => true
  | _, _ => false
  end.

Inductive Priority : Type := Low | Medium | High | Critical.

Inductive AlertType : Type := Sos | Medical | Accident | Harassment | Other.

(** The strings of the [type] enum of the schema. *)
Definition parse_AlertType (s : string) : option AlertType :=
  if String.eqb s "sos" then Some Sos
  else if String.eqb s "medical" then Some Medical
  else if String.eqb s "accident" then Some Accident
  else if String.eqb s "harassment" then Some Harassment
  else if String.eqb s "other" then Some Other
  else None.

Inductive NotifyStatus : Type := Notified | Accepted | Declined | NoResponse.

Inductive Method : Type := Sms | Call | Push | Email.

(** The [status] strings the code writes on a notified contact.  The enum
    of the schema is [sent | delivered | failed]; ['pending'] is written by
    createAlert but is not in the enum. *)
Inductive ContactStatus : Type := CSent | CDelivered | CFailed | CPending.

Definition in_contact_status_enum (s : ContactStatus) : bool :=
  match s with
  | CSent | CDelivered | CFailed => true
  | CPending => false
  end.

Module Location.
Record t : Type := mk {
  coordinates : Point;
  address : option string;
  updatedAt : option Time
}.
End Location.

Module NotifiedVolunteer.
Record t : Type := mk {
  volunteer : ObjectId;
  notifiedAt : Time;
  distance : option Z;     (* in meters; null when the location is unknown *)
  status : NotifyStatus
}.
Definition with_status (s : NotifyStatus) (e : t) : t :=
  mk (volunteer e) (notifiedAt e) (distance e) s.
End NotifiedVolunteer.

Module RespondingVolunteer.
Record t : Type := mk {
  volunteer : option ObjectId;
  acceptedAt : option Time;
  distance : option Z
}.
Definition empty : t := mk None None None.
End RespondingVolunteer.

Module NotifiedContact.
Record t : Type := mk {
  contact : ObjectId;
  notifiedAt : Time;
  method : Method;
  status : ContactStatus
}.
End NotifiedContact.

Module TimelineEntry.
Record t : Type := mk {
  action : string;
  description : string;
  performedBy : ObjectId;
  timestamp : Time
}.
End TimelineEntry.

Module Resolution.
Record t : Type := mk {
  resolvedBy : option ObjectId;
  resolvedAt : option Time;
  notes : option string;
  rating : option Q;
  feedback : option string
}.
Definition empty : t := mk None None None None None.
End Resolution.

(** An alert document.  Its [_id] is the key under which the collection
    holds it. *)
Module Alert.
Record t : Type := mk {
  user : ObjectId;
  location : Location.t;
  locationHistory : list (Point * Time);
  status : AlertStatus;
  priority : Priority;
  type : AlertType;
  message : option string;
  notifiedVolunteers : list NotifiedVolunteer.t;
  respondingVolunteer : RespondingVolunteer.t;
  notifiedContacts : list NotifiedContact.t;
  timeline : list TimelineEntry.t;
  resolution : Resolution.t;
  responseTime : option Z;    (* seconds until the first volunteer accepted *)
  totalDuration : option Z;   (* seconds from creation to resolution *)
  createdAt : Time;
  updatedAt : Time;
  expiresAt : Time
}.

Definition with_location (x : Location.t) (a : t) : t :=
  mk (user a) x (locationHistory a) (status a) (priority a) (type a)
     (message a) (notifiedVolunteers a) (respondingVolunteer a)
     (notifiedContacts a) (timeline a) (resolution a) (responseTime a)
     (totalDuration a) (createdAt a) (updatedAt a) (expiresAt a).

Definition with_locationHistory (x : list (Point * Time)) (a : t) : t :=
  mk (user a) (location a) x (status a) (priority a) (type a)
     (message a) (notifiedVolunteers a) (respondingVolunteer a)
     (notifiedContacts a) (timeline a) (resolution a) (responseTime a)
     (totalDuration a) (createdAt a) (updatedAt a) (expiresAt a).

Definition with_status (x : AlertStatus) (a : t) : t :=
  mk (user a) (location a) (locationHistory a) x (priority a) (type a)
     (message a) (notifiedVolunteers a) (respondingVolunteer a)
     (notifiedContacts a) (timeline a) (resolution a) (responseTime a)
     (totalDuration a) (createdAt a) (updatedAt a) (expiresAt a).

Definition with_notifiedVolunteers (x : list NotifiedVolunteer.t) (a : t) : t :=
  mk (user a) (location a) (locationHistory a) (status a) (priority a)
     (type a) (message a) x (respondingVolunteer a)
     (notifiedContacts a) (timeline a) (resolution a) (responseTime a)
     (totalDuration a) (createdAt a) (updatedAt a) (expiresAt a).

Definition with_respondingVolunteer (x : RespondingVolunteer.t) (a : t) : t :=
  mk (user a) (location a) (locationHistory a) (status a) (priority a)
     (type a) (message a) (notifiedVolunteers a) x
     (notifiedContacts a) (timeline a) (resolution a) (responseTime a)
     (totalDuration a) (createdAt a) (updatedAt a) (expiresAt a).

Definition with_notifiedContacts (x : list NotifiedContact.t) (a : t) : t :=
  mk (user a) (location a) (locationHistory a) (status a) (priority a)
     (type a) (message a) (notifiedVolunteers a) (respondingVolunteer a)
     x (timeline a) (resolution a) (responseTime a)
     (totalDuration a) (createdAt a) (updatedAt a) (expiresAt a).

Definition with_timeline (x : list TimelineEntry.t) (a : t) : t :=
  mk (user a) (location a) (locationHistory a) (status a) (priority a)
     (type a) (message a) (notifiedVolunteers a) (respondingVolunteer a)
     (notifiedContacts a) x (resolution a) (responseTime a)
     (totalDuration a) (createdAt a) (updatedAt a) (expiresAt a).

Definition with_resolution (x : Resolution.t) (a : t) : t :=
  mk (user a) (location a) (locationHistory a) (status a) (priority a)
     (type a) (message a) (notifiedVolunteers a) (respondingVolunteer a)
     (notifiedContacts a) (timeline a) x (responseTime a)
     (totalDuration a) (createdAt a) (updatedAt a) (expiresAt a).

Definition with_responseTime (x : option Z) (a : t) : t :=
  mk (user a) (location a) (locationHistory a) (status a) (priority a)
     (type a) (message a) (notifiedVolunteers a) (respondingVolunteer a)
     (notifiedContacts a) (timeline a) (resolution a) x
     (totalDuration a) (createdAt a) (updatedAt a) (expiresAt a).

Definition with_totalDuration (x : option Z) (a : t) : t :=
  mk (user a) (location a) (locationHistory a) (status a) (priority a)
     (type a) (message a) (notifiedVolunteers a) (respondingVolunteer a)
     (notifiedContacts a) (timeline a) (resolution a) (responseTime a)
     x (createdAt a) (updatedAt a) (expiresAt a).

(** [alertSchema.pre('save')]: [this.updatedAt = Date.now()]. *)
Definition pre_save (now : Time) (a : t) : t :=
  mk (user a) (location a) (locationHistory a) (status a) (priority a)
     (type a) (message a) (notifiedVolunteers a) (respondingVolunteer a)
     (notifiedContacts a) (timeline a) (resolution a) (responseTime a)
     (totalDuration a) (createdAt a) now (expiresAt a).

(** Schema validation run by [save]: every enum-typed path holds a member
    of its enum.  The only path the controller can fill with a string
    outside its enum is [notifiedContacts.status]. *)
Definition validate (a : t) : bool :=
  forallb (fun c => in_contact_status_enum (NotifiedContact.status c))
          (notifiedContacts a).
End Alert.

(** [alertSchema.methods.addTimelineEntry (action, description, performedBy)],
    up to its [await this.save()]: the entry is pushed on the in-memory
    document. *)
Definition push_timeline (action description : string) (performedBy : ObjectId)
    (now : Time) (a : Alert.t) : Alert.t :=
  Alert.with_timeline
    (Alert.timeline a ++ [TimelineEntry.mk action description performedBy now]) a.

(** [alertSchema.methods.calculateResponseTime ()] *)
Definition calculateResponseTime (a : Alert.t) : Alert.t :=
  match RespondingVolunteer.acceptedAt (Alert.respondingVolunteer a) with
  | Some acceptedAt =>
      Alert.with_responseTime
        (Some (floor_seconds (acceptedAt - Alert.createdAt a))) a
  | None => a
  end.

(** [alertSchema.methods.calculateTotalDuration ()] *)
Definition calculateTotalDuration (a : Alert.t) : Alert.t :=
  match Resolution.resolvedAt (Alert.resolution a) with
  | Some resolvedAt =>
      Alert.with_totalDuration
        (Some (floor_seconds (resolvedAt - Alert.createdAt a))) a
  | None => a
  end.

(** ** models/EmergencyContact.js *)

Module EmergencyContact.
Record t : Type := mk {
  _id : ObjectId;
  user : ObjectId;
  name : string;
  phone : string;
  isPrimary : bool;
  isActive : bool
}.
End EmergencyContact.

(** ** The document store, requests and responses *)

Record Store : Type := mkStore {
  alerts : gmap ObjectId Alert.t;
  volunteers : list Volunteer.t;
  contacts : list EmergencyContact.t
}.

Definition with_alerts (m : gmap ObjectId Alert.t) (st : Store) : Store :=
  mkStore m (volunteers st) (contacts st).

Definition with_volunteers (l : list Volunteer.t) (st : Store) : Store :=
  mkStore (alerts st) l (contacts st).

(** [await alert.save()] on the document read under [id]. *)
Definition save_alert (now : Time) (id : ObjectId) (a : Alert.t) (st : Store) : Store :=
  with_alerts (<[id := Alert.pre_save now a]> (alerts st)) st.

(** [Volunteer.findOne({ user })]: the first profile of that account. *)
Definition findOne_by_user (uid : ObjectId) (vs : list Volunteer.t)
  : option Volunteer.t :=
  List.find (fun v => (Volunteer.user v =? uid)%N) vs.

(** [Volunteer.findById(id)] *)
Definition Volunteer_findById (vid : ObjectId) (vs : list Volunteer.t)
  : option Volunteer.t :=
  List.find (fun v => (Volunteer._id v =? vid)%N) vs.

(** [await volunteer.save()]: the stored profile with that [_id] is
    replaced by the in-memory one (the methods of the model have already
    run the pre-save hook). *)
Definition save_volunteer (v : Volunteer.t) (st : Store) : Store :=
  with_volunteers
    (List.map (fun w => if (Volunteer._id w =? Volunteer._id v)%N then v else w)
              (volunteers st)) st.

Inductive Role : Type := RUser | RVolunteer | RAdmin.

Definition Role_eqb (a b : Role) : bool :=
  match a, b with
  | RUser, RUser | RVolunteer, RVolunteer | RAdmin, RAdmin => true
  | _, _ => false
  end.

(** [req.user], set by the [protect] middleware. *)
Module ReqUser.
Record t : Type := mk {
  id : ObjectId;
  name : string;
  role : Role
}.
End ReqUser.

Inductive Payload : Type :=
| NoData
| CreatedData (alertId : ObjectId) (volunteersNotified contactsNotified : nat)
| AcceptedData (alertId : ObjectId) (userLocation : Location.t).

(** What the client receives: [res.status(code).json({success, message,
    data})], the answer of the [validate] middleware to a request that
    fails a rule of the route, or an exception that [asyncHandler] hands to
    the error handler. *)
Inductive Response : Type :=
| Json (code : nat) (success : bool) (message : string) (data : Payload)
| ValidationFailed (errors : list string)
| Thrown (error : string).

(** ** The collaborators of the controller *)

(** The answer of the Fast2SMS HTTP API to one request. *)
Inductive Fast2SmsReply : Type :=
| ReturnTrue (request_id : string)     (* data.return === true *)
| ReturnFalse (message : string)       (* any other body *)
| FetchThrows (error : string).        (* fetch or response.json() rejects *)

Record Env : Type := mkEnv {
  (** [String(x)] of JavaScript on a number, as template literals apply it. *)
  number_toString : Q -> string;
  (** The helper [calculateDistance (lat1, lon1, lat2, lon2)] of the
      controller: the Haversine formula in floating point, rounded to
      meters.  Its arithmetic is not part of this development. *)
  calculateDistance : Q -> Q -> Q -> Q -> Z;
  (** The 2dsphere index on [Volunteer.currentLocation]: whether a [$near]
      query succeeds, and the distance in meters by which the store
      orders and bounds its results. *)
  geo_available : bool;
  geo_distance : Point -> Point -> Q;
  (** The [sms] section of the configuration, which the Fast2SMS service
      reads ([config.sms.fast2smsApiKey]): [None] when the configuration
      has no such section, as config.js among the sources; otherwise the
      key, which may be undefined.  Then the Fast2SMS service itself. *)
  config_sms : option (option string);
  fast2sms : string -> string -> Fast2SmsReply;
  (** The [_id] the driver gives to a new document. *)
  new_ObjectId : ObjectId
}.

(** What a notification service does to the outside world. *)
Inductive Effect : Type :=
| SmsStub (phone message : string)       (* console.log of the stub *)
| SmsRequest (numbers message : string)  (* POST to the SMS provider *)
| CallStub (phone message : string)
| CallRequest (to message : string).     (* voice call through the provider *)

(** ** services/notificationService.js (Fast2SMS) *)

Module notificationService.

(** A string is held as the bytes of its UTF-8 form, as the literals of
    this file are (a surrogate on its own as the three bytes of its code
    point).  A byte below 128 is an ASCII character, a byte from 128 to 191
    continues a character, a byte from 192 starts one of two, three (from
    224) or four (from 240) bytes. *)
Definition ascii7 (c : ascii) : bool := (nat_of_ascii c <? 128)%nat.
Definition cont (c : ascii) : bool :=
  (128 <=? nat_of_ascii c)%nat && (nat_of_ascii c <? 192)%nat.
Definition lead2 (c : ascii) : bool :=
  (192 <=? nat_of_ascii c)%nat && (nat_of_ascii c <? 224)%nat.
Definition lead3 (c : ascii) : bool :=
  (224 <=? nat_of_ascii c)%nat && (nat_of_ascii c <? 240)%nat.
Definition lead4 (c : ascii) : bool := (240 <=? nat_of_ascii c)%nat.

(** [s.length]: the number of UTF-16 code units, one for a character of
    one, two or three bytes and two for a character of four bytes. *)
Definition units (c : ascii) : nat :=
  if ascii7 c then 1 else if cont c then 0 else if lead4 c then 2 else 1.

Fixpoint js_length (s : string) : nat :=
  match s with
  | EmptyString => 0
  | String c r => units c + js_length r
  end.

(** The characters of the class [[\s\-()]] among the ASCII characters:
    white space, dash and parentheses. *)
Definition stripped (c : ascii) : bool :=
  let n := nat_of_ascii c in
  ((9 <=? n) && (n <=? 13))%nat || (n =? 32)%nat      (* \t \n \v \f \r, space *)
  || (n =? 45)%nat || (n =? 40)%nat || (n =? 41)%nat.  (* - ( ) *)

(** The other characters of [\s]: U+00A0, which takes two bytes (C2 A0), *)
Definition space2 (c1 c2 : ascii) : bool :=
  (nat_of_ascii c1 =? 194)%nat && (nat_of_ascii c2 =? 160)%nat.

(** and those of three bytes: U+1680 (E1 9A 80), U+2000 to U+200A (E2 80 80
    to E2 80 8A), U+2028 and U+2029 (E2 80 A8, E2 80 A9), U+202F
    (E2 80 AF), U+205F (E2 81 9F), U+3000 (E3 80 80) and U+FEFF
    (EF BB BF). *)
Definition space3 (c1 c2 c3 : ascii) : bool :=
  let a := nat_of_ascii c1 in
  let b := nat_of_ascii c2 in
  let d := nat_of_ascii c3 in
  ((a =? 225) && (b =? 154) && (d =? 128))%nat
  || ((a =? 226) && (b =? 128)
      && ((128 <=? d) && (d <=? 138) || (d =? 168) || (d =? 169) || (d =? 175)))%nat
  || ((a =? 226) && (b =? 129) && (d =? 159))%nat
  || ((a =? 227) && (b =? 128) && (d =? 128))%nat
  || ((a =? 239) && (b =? 187) && (d =? 191))%nat.

(** [s.replace(/[\s\-()]/g, '')] *)
Fixpoint strip (s : string) : string :=
  match s with
  | EmptyString => EmptyString
  | String c r =>
      if stripped c then strip r
      else
        match r with
        | String c2 r2 =>
            if space2 c c2 then strip r2
            else
              match r2 with
              | String c3 r3 =>
                  if space3 c c2 c3 then strip r3 else String c (strip r)
              | EmptyString => String c (strip r)
              end
        | EmptyString => String c (strip r)
        end
  end.

(** [s.slice(n)], for [n] ASCII characters at the head of [s]. *)
Definition slice (n : nat) (s : string) : string :=
  String.substring n (String.length s - n) s.

(** [cleanPhone (phone)]: the 10-digit Indian mobile number. *)
Definition cleanPhone (phone : string) : string :=
  let cleaned := strip phone in
  let cleaned := if String.prefix "+91" cleaned then slice 3 cleaned else cleaned in
  let cleaned :=
    if String.prefix "91" cleaned && (js_length cleaned =? 12)%nat
    then slice 2 cleaned else cleaned in
  let cleaned := if String.prefix "0" cleaned then slice 1 cleaned else cleaned in
  cleaned.

(** [!apiKey] *)
Definition no_key (k : option string) : bool :=
  match k with
  | None => true
  | Some s => String.eqb s ""
  end.

(** [sendSMS (to, message)]: the [success] field of the result, or [None]
    when the function throws, and what was done.  The request is inside a
    [try/catch]; the only statement that can throw is the first one, which
    reads the key from [config.sms]. *)
Definition sendSMS (env : Env) (to message : string) : option bool * list Effect :=
  match config_sms env with
  | None => (None, [])
  | Some apiKey =>
      let phone := cleanPhone to in
      if no_key apiKey then (Some true, [SmsStub phone message])
      else
        match fast2sms env phone message with
        | ReturnTrue _ => (Some true, [SmsRequest phone message])
        | ReturnFalse _ => (Some false, [SmsRequest phone message])
        | FetchThrows _ => (Some false, [SmsRequest phone message])
        end
  end.

(** One result of [notifyEmergencyContacts]: [{contactId, method, status}]. *)
Record Result : Type := mkResult {
  contactId : ObjectId;
  method : Method;
  status : ContactStatus
}.

Definition locationLink (env : Env) (p : Point) : string :=
  "https://www.google.com/maps?q=" +:+ number_toString env (lat p)
    +:+ "," +:+ number_toString env (lng p).

Definition smsMessage (env : Env) (userName : string) (p : Point) : string :=
  "EMERGENCY! " +:+ userName +:+ " triggered SOS on SafeHer and needs help. "
    +:+ "Location: " +:+ locationLink env p.

(** The body of the [for (const contact of contacts)] loop, from the
    results and effects accumulated so far. *)
Definition notify_one (env : Env) (message : string)
    (acc : list Result * list Effect) (contact : EmergencyContact.t)
  : list Result * list Effect :=
  let '(results, effects) := acc in
  let '(smsResult, done) := sendSMS env (EmergencyContact.phone contact) message in
  (results ++ [mkResult (EmergencyContact._id contact) Sms
                        (match smsResult with
                         | Some true => CSent
                         | Some false => CFailed
                         | None => CFailed      (* catch (err) *)
                         end)],
   effects ++ done).

(** [notifyEmergencyContacts (contacts, user, alert)] *)
Definition notifyEmergencyContacts (env : Env)
    (contacts : list EmergencyContact.t) (user : ReqUser.t) (alert : Alert.t)
  : list Result * list Effect :=
  let message :=
    smsMessage env (ReqUser.name user)
               (Location.coordinates (Alert.location alert)) in
  fold_left (notify_one env message) contacts ([], []).

End notificationService.

(** ** The Twilio notification service (the second service module of the
    repository: SMS to every contact, voice call to the primary one) *)

Module twilioService.

(** [config.twilio] and the Twilio client: whether credentials are
    configured, the default country code, and whether a request to the
    service resolves ([true]) or rejects ([false]). *)
Record Client : Type := mkClient {
  configured : bool;
  defaultCountryCode : option string;
  messages_create : string -> string -> bool;
  calls_create : string -> string -> bool
}.

(** [normalizePhone (phone)]: E.164 form. *)
Definition normalizePhone (c : Client) (phone : string) : string :=
  let cleaned := notificationService.strip phone in
  if String.prefix "+" cleaned then cleaned
  else
    let defaultCode :=
      match defaultCountryCode c with
      | Some code => if String.eqb code "" then "+91" else code
      | None => "+91"
      end in
    defaultCode +:+ cleaned.

(** [sendSMS (to, message)]: [None] when the awaited request rejects. *)
Definition sendSMS (c : Client) (to message : string) : option unit * list Effect :=
  let normalized := normalizePhone c to in
  if negb (configured c) then (Some tt, [SmsStub normalized message])
  else if messages_create c normalized message
       then (Some tt, [SmsRequest normalized message])
       else (None, [SmsRequest normalized message]).

(** [makeCall (to, message)] *)
Definition makeCall (c : Client) (to message : string) : option unit * list Effect :=
  let normalized := normalizePhone c to in
  if negb (configured c) then (Some tt, [CallStub normalized message])
  else if calls_create c normalized message
       then (Some tt, [CallRequest normalized message])
       else (None, [CallRequest normalized message]).

Definition smsMessage (env : Env) (userName : string) (p : Point) : string :=
  "EMERGENCY ALERT! " +:+ userName +:+ " has triggered an SOS alert. "
    +:+ "They need help. Live location: "
    +:+ notificationService.locationLink env p.

Definition callMessage (userName : string) : string :=
  "Emergency alert. " +:+ userName
    +:+ " has triggered an SOS emergency alert and needs immediate help. "
    +:+ "Please check your text messages for their live location. "
    +:+ "This is an automated call from SafeHer.".

Definition outcome (r : option unit) : ContactStatus :=
  match r with Some _ => CSent | None => CFailed end.

(** The body of the loop over the contacts. *)
Definition notify_one (c : Client) (sms call : string)
    (acc : list notificationService.Result * list Effect)
    (contact : EmergencyContact.t)
  : list notificationService.Result * list Effect :=
  let '(results, effects) := acc in
  (* Send SMS to every contact *)
  let '(r, done) := sendSMS c (EmergencyContact.phone contact) sms in
  let results :=
    results ++ [notificationService.mkResult
                  (EmergencyContact._id contact) Sms (outcome r)] in
  let effects := effects ++ done in
  (* Make call to primary contact only *)
  if EmergencyContact.isPrimary contact then
    let '(r, done) := makeCall c (EmergencyContact.phone contact) call in
    (results ++ [notificationService.mkResult
                   (EmergencyContact._id contact) Call (outcome r)],
     effects ++ done)
  else (results, effects).

(** [notifyEmergencyContacts (contacts, user, alert)] *)
Definition notifyEmergencyContacts (env : Env) (c : Client)
    (contacts : list EmergencyContact.t) (user : ReqUser.t) (alert : Alert.t)
  : list notificationService.Result * list Effect :=
  let sms := smsMessage env (ReqUser.name user)
                        (Location.coordinates (Alert.location alert)) in
  let call := callMessage (ReqUser.name user) in
  fold_left (notify_one c sms call) contacts ([], []).

End twilioService.

(** ** Queries on the Volunteer collection *)

(** [{ isVerified: true, status: 'active', isOnDuty: true }] *)
Definition eligible (v : Volunteer.t) : bool :=
  Volunteer.isVerified v
  && VolunteerStatus_eqb (Volunteer.status v) VActive
  && Volunteer.isOnDuty v.

(** The distance of the store from [center] to the location of a
    volunteer.  Every profile has one: the schema gives [currentLocation]
    the default coordinates [[0, 0]]. *)
Definition dist_to (env : Env) (center : Point) (v : Volunteer.t) : Q :=
  geo_distance env center (Volunteer.currentLocation v).

(** [currentLocation: { $near: { $geometry: center, $maxDistance } }]: the
    location of the volunteer is within [maxDistance] meters. *)
Definition near (env : Env) (center : Point) (maxDistance : Q) (v : Volunteer.t)
  : bool :=
  Qle_bool (geo_distance env center (Volunteer.currentLocation v)) maxDistance.

(** Insertion in a list ordered by [key]. *)
Fixpoint insert_by {A : Type} (key : A -> Q) (x : A) (l : list A) : list A :=
  match l with
  | [] => [x]
  | y :: r => if Qle_bool (key x) (key y) then x :: y :: r
              else y :: insert_by key x r
  end.

(** The order in which the store returns the result of a [$near] query:
    nearest first. *)
Definition sort_by {A : Type} (key : A -> Q) (l : list A) : list A :=
  fold_right (insert_by key) [] l.

(** [Volunteer.find({ eligible, currentLocation: { $near } }).limit(n)]:
    [None] when the query throws. *)
Definition Volunteer_find_near (env : Env) (center : Point) (maxDistance : Q)
    (n : nat) (vs : list Volunteer.t) : option (list Volunteer.t) :=
  if geo_available env
  then Some (firstn n (sort_by (dist_to env center)
                         (List.filter (fun v => eligible v && near env center maxDistance v)
                                      vs)))
  else None.

(** [Volunteer.find({ eligible }).limit(n)]: natural order. *)
Definition Volunteer_find_eligible (n : nat) (vs : list Volunteer.t)
  : list Volunteer.t :=
  firstn n (List.filter eligible vs).

(** ** The alert controller *)

Module CreateBody.
Record t : Type := mk {
  latitude : option Q;
  longitude : option Q;
  address : option string;
  message : option string;
  type : option string
}.
End CreateBody.

(** The matcher of createAlert: the [$near] query, and the fallback on
    every on-duty volunteer when it throws or finds nobody. *)
Definition nearbyVolunteers (env : Env) (center : Point) (vs : list Volunteer.t)
  : list Volunteer.t :=
  let nearbyVolunteers :=
    match Volunteer_find_near env center
            (inject_Z (config.alert.searchRadius * 1000))
            config.alert.maxVolunteersToNotify vs with
    | Some l => l
    | None => []       (* catch: 'Geospatial query failed, falling back ...' *)
    end in
  if (List.length nearbyVolunteers =? 0)%nat
  then Volunteer_find_eligible config.alert.maxVolunteersToNotify vs
  else nearbyVolunteers.

(** The entry of [alert.notifiedVolunteers] for one matched volunteer.
    [volunteer.currentLocation?.coordinates] is an array for every profile
    (the default of the schema is [[0, 0]]), so the [null] branch of the
    conditional is never taken and a distance is always computed. *)
Definition notified_entry (env : Env) (latitude longitude : Q) (now : Time)
    (volunteer : Volunteer.t) : NotifiedVolunteer.t :=
  NotifiedVolunteer.mk
    (Volunteer._id volunteer)
    now
    (Some (calculateDistance env latitude longitude
             (lat (Volunteer.currentLocation volunteer))
             (lng (Volunteer.currentLocation volunteer))))
    Notified.

(** [EmergencyContact.find({ user, isActive: true })] *)
Definition active_contacts (uid : ObjectId) (cs : list EmergencyContact.t)
  : list EmergencyContact.t :=
  List.filter (fun c => (EmergencyContact.user c =? uid)%N
                        && EmergencyContact.isActive c) cs.

(** [type || 'sos'] *)
Definition type_or_sos (t : option string) : string :=
  match t with
  | Some s => if String.eqb s "" then "sos" else s
  | None => "sos"
  end.

(** [exports.createAlert]: POST /api/alerts. *)
Definition createAlert (env : Env) (caller : ReqUser.t) (body : CreateBody.t)
    (now : Time) (st : Store) : Store * Response * list Effect :=
  if negb (truthy (CreateBody.latitude body))
     || negb (truthy (CreateBody.longitude body))
  then (st, Json 400 false "Location is required" NoData, [])
  else
    match CreateBody.latitude body, CreateBody.longitude body with
    | Some latitude, Some longitude =>
      (* Create alert *)
      match parse_AlertType (type_or_sos (CreateBody.type body)) with
      | None => (st, Thrown "ValidationError", [])
      | Some type =>
        let id := new_ObjectId env in
        let alert :=
          Alert.mk (ReqUser.id caller)
            (Location.mk (mkPoint longitude latitude) (CreateBody.address body) None)
            [] Active High type (CreateBody.message body)
            [] RespondingVolunteer.empty []
            [TimelineEntry.mk "created" "Emergency alert created"
                              (ReqUser.id caller) now]
            Resolution.empty None None
            now now (now + 30 * 60 * 1000)%Z in
        let st := save_alert now id alert st in
        (* Find nearby volunteers (within 5km radius), or fall back *)
        let nearbyVolunteers :=
          nearbyVolunteers env (mkPoint longitude latitude) (volunteers st) in
        (* Add notified volunteers to alert *)
        let notifiedVolunteers :=
          List.map (notified_entry env latitude longitude now) nearbyVolunteers in
        let alert := Alert.with_notifiedVolunteers notifiedVolunteers alert in
        (* Get emergency contacts and mark as notified *)
        let emergencyContacts := active_contacts (ReqUser.id caller) (contacts st) in
        let '(notificationResults, effects) :=
          if (0 <? List.length emergencyContacts)%nat
          then notificationService.notifyEmergencyContacts
                 env emergencyContacts caller alert
          else ([], []) in
        (* Build notifiedContacts from actual send results *)
        let alert :=
          if (0 <? List.length notificationResults)%nat
          then Alert.with_notifiedContacts
                 (List.map (fun result =>
                    NotifiedContact.mk (notificationService.contactId result) now
                                       (notificationService.method result)
                                       (notificationService.status result))
                    notificationResults) alert
          else Alert.with_notifiedContacts
                 (List.map (fun contact =>
                    NotifiedContact.mk (EmergencyContact._id contact) now Sms CPending)
                    emergencyContacts) alert in
        if Alert.validate alert
        then (save_alert now id alert st,
              Json 201 true "Emergency alert created successfully"
                   (CreatedData id (List.length nearbyVolunteers)
                                (List.length emergencyContacts)),
              effects)
        else (st, Thrown "ValidationError", effects)
      end
    | _, _ => (st, Json 400 false "Location is required" NoData, [])
    end.

(** *** routes/alertRoutes.js: POST /api/alerts *)

Definition Role_name (r : Role) : string :=
  match r with
  | RUser => "user"
  | RVolunteer => "volunteer"
  | RAdmin => "admin"
  end.

(** [authorize (...roles)] of the auth middleware: the response to a caller
    whose role is not listed. *)
Definition authorize (roles : list Role) (caller : ReqUser.t) : option Response :=
  if existsb (Role_eqb (ReqUser.role caller)) roles then None
  else Some (Json 403 false
               ("User role '" +:+ Role_name (ReqUser.role caller)
                  +:+ "' is not authorized to access this route") NoData).

(** [body(field).isFloat({ min, max })] on a field that is absent or a number. *)
Definition isFloat (min max : Q) (x : option Q) : bool :=
  match x with
  | Some q => Qle_bool min q && Qle_bool q max
  | None => false
  end.

(** [createAlertValidation]: the messages of the rules that fail. *)
Definition createAlertValidation (body : CreateBody.t) : list string :=
  (if isFloat (-90) 90 (CreateBody.latitude body) then [] else ["Invalid latitude"])
  ++ (if isFloat (-180) 180 (CreateBody.longitude body) then [] else ["Invalid longitude"]).

(** Modelled from the spec: the [validate] middleware (middleware/validate.js
    is not among the sources).  Malformed or missing coordinates are
    rejected before any state mutation; otherwise the request goes on to the
    controller. *)
Definition validate (errors : list string) : option Response :=
  match errors with
  | [] => None
  | _ :: _ => Some (ValidationFailed errors)
  end.

(** [router.post('/', authorize('user'), createAlertValidation, validate,
    alertController.createAlert)] *)
Definition post_alert (env : Env) (caller : ReqUser.t) (body : CreateBody.t)
    (now : Time) (st : Store) : Store * Response * list Effect :=
  match authorize [RUser] caller with
  | Some r => (st, r, [])
  | None =>
    match validate (createAlertValidation body) with
    | Some r => (st, r, [])
    | None => createAlert env caller body now st
    end
  end.

(** *** The other handlers *)

Definition not_found : Response := Json 404 false "Alert not found" NoData.

(** [exports.cancelAlert]: PUT /api/alerts/:id/cancel.  After the save the
    handler looks the responding volunteer up to notify them; the lookup of
    a profile that no longer exists makes [volunteer.user] throw. *)
Definition cancelAlert (caller : ReqUser.t) (id : ObjectId) (now : Time)
    (st : Store) : Store * Response :=
  match alerts st !! id with
  | None => (st, not_found)
  | Some alert =>
    if negb (Alert.user alert =? ReqUser.id caller)%N
    then (st, Json 403 false "Not authorized to cancel this alert" NoData)
    else if AlertStatus_eqb (Alert.status alert) Resolved
            || AlertStatus_eqb (Alert.status alert) Cancelled
    then (st, Json 400 false "Alert is already closed" NoData)
    else
      let alert := Alert.with_status Cancelled alert in
      let alert := push_timeline "cancelled" "Alert cancelled by user"
                                 (ReqUser.id caller) now alert in
      let st := save_alert now id alert st in
      match RespondingVolunteer.volunteer (Alert.respondingVolunteer alert) with
      | Some vid =>
          match Volunteer_findById vid (volunteers st) with
          | Some _ => (st, Json 200 true "Alert cancelled successfully" NoData)
          | None => (st, Thrown "TypeError")
          end
      | None => (st, Json 200 true "Alert cancelled successfully" NoData)
      end
  end.

(** [alert.notifiedVolunteers.find(v => v.volunteer.equals(volunteer._id))]:
    the first entry of that volunteer, with its position. *)
Definition find_notified (vid : ObjectId) (l : list NotifiedVolunteer.t)
  : option (nat * NotifiedVolunteer.t) :=
  list_find (fun v => NotifiedVolunteer.volunteer v = vid) l.

(** The in-memory update of the alert by acceptAlert, lines 274-290: status,
    responding volunteer, response time, entry marked accepted, timeline
    entry pushed. *)
Definition accept_update (caller : ReqUser.t) (volunteer : Volunteer.t)
    (i : nat) (notifiedEntry : NotifiedVolunteer.t) (now : Time)
    (alert : Alert.t) : Alert.t :=
  let alert := Alert.with_status Responding alert in
  let alert :=
    Alert.with_respondingVolunteer
      (RespondingVolunteer.mk (Some (Volunteer._id volunteer)) (Some now)
                              (NotifiedVolunteer.distance notifiedEntry)) alert in
  let alert := calculateResponseTime alert in
  let alert :=
    Alert.with_notifiedVolunteers
      (<[i := NotifiedVolunteer.with_status Accepted notifiedEntry]>
         (Alert.notifiedVolunteers alert)) alert in
  push_timeline "accepted"
    ("Volunteer " +:+ ReqUser.name caller +:+ " accepted the alert")
    (ReqUser.id caller) now alert.

(** [exports.acceptAlert]: PUT /api/alerts/:id/accept. *)
Definition acceptAlert (caller : ReqUser.t) (id : ObjectId) (now : Time)
    (st : Store) : Store * Response :=
  match alerts st !! id with
  | None => (st, not_found)
  | Some alert =>
    if negb (AlertStatus_eqb (Alert.status alert) Active)
    then (st, Json 400 false "Alert is no longer active" NoData)
    else
      (* Get volunteer profile *)
      match findOne_by_user (ReqUser.id caller) (volunteers st) with
      | None => (st, Json 403 false "Volunteer profile not found" NoData)
      | Some volunteer =>
        (* Check if volunteer was notified *)
        match find_notified (Volunteer._id volunteer) (Alert.notifiedVolunteers alert) with
        | None => (st, Json 403 false "You were not notified for this alert" NoData)
        | Some (i, notifiedEntry) =>
          let alert := accept_update caller volunteer i notifiedEntry now alert in
          (save_alert now id alert st,
           Json 200 true "Alert accepted successfully"
                (AcceptedData id (Alert.location alert)))
        end
      end
  end.

Definition with_declined (v : Volunteer.t) : Volunteer.t :=
  let s := Volunteer.stats v in
  Volunteer.with_stats
    (Stats.mk (Stats.totalResponses s) (Stats.successfulAssists s)
              (Stats.declinedAlerts s + 1)%N (Stats.avgResponseTime s)
              (Stats.rating s) (Stats.totalRatings s)) v.

(** [exports.declineAlert]: PUT /api/alerts/:id/decline. *)
Definition declineAlert (caller : ReqUser.t) (id : ObjectId) (now : Time)
    (st : Store) : Store * Response :=
  match alerts st !! id with
  | None => (st, not_found)
  | Some alert =>
    match findOne_by_user (ReqUser.id caller) (volunteers st) with
    | None => (st, Json 403 false "Volunteer profile not found" NoData)
    | Some volunteer =>
      (* Update notified volunteer status *)
      let st :=
        match find_notified (Volunteer._id volunteer) (Alert.notifiedVolunteers alert) with
        | Some (i, notifiedEntry) =>
            save_alert now id
              (Alert.with_notifiedVolunteers
                 (<[i := NotifiedVolunteer.with_status Declined notifiedEntry]>
                    (Alert.notifiedVolunteers alert)) alert) st
        | None => st
        end in
      (* Update volunteer stats *)
      let st := save_volunteer (Volunteer.pre_save now (with_declined volunteer)) st in
      (st, Json 200 true "Alert declined" NoData)
    end
  end.

(** [await volunteer.checkBadges()] on a profile that has just been saved:
    the document is saved again only when a badge is awarded. *)
Definition run_checkBadges (now : Time) (v : Volunteer.t) (st : Store) : Store :=
  let '(v', awarded) := checkBadges now v in
  if (0 <? List.length awarded)%nat then save_volunteer v' st else st.

(** [exports.resolveAlert]: PUT /api/alerts/:id/resolve. *)
Definition resolveAlert (caller : ReqUser.t) (id : ObjectId)
    (notes : option string) (rating : option Q) (feedback : option string)
    (now : Time) (st : Store) : Store * Response :=
  match alerts st !! id with
  | None => (st, not_found)
  | Some alert =>
    let isOwner := (Alert.user alert =? ReqUser.id caller)%N in
    let volunteer := findOne_by_user (ReqUser.id caller) (volunteers st) in
    let isRespondingVolunteer :=
      match volunteer, RespondingVolunteer.volunteer (Alert.respondingVolunteer alert) with
      | Some v, Some rv => (rv =? Volunteer._id v)%N
      | _, _ => false
      end in
    if negb isOwner && negb isRespondingVolunteer
       && negb (Role_eqb (ReqUser.role caller) RAdmin)
    then (st, Json 403 false "Not authorized to resolve this alert" NoData)
    else
      let alert := Alert.with_status Resolved alert in
      let alert :=
        Alert.with_resolution
          (Resolution.mk (Some (ReqUser.id caller)) (Some now) notes rating feedback)
          alert in
      let alert := calculateTotalDuration alert in
      let alert := push_timeline "resolved" "Alert resolved" (ReqUser.id caller) now alert in
      let st := save_alert now id alert st in
      (* Update volunteer stats if resolved by volunteer *)
      let st :=
        match volunteer with
        | Some v =>
            if isRespondingVolunteer then
              let v := updateStats now (Alert.responseTime alert) true rating v in
              run_checkBadges now v (save_volunteer v st)
            else st
        | None => st
        end in
      (st, Json 200 true "Alert resolved successfully" NoData)
  end.

(** [rating < 1 || rating > 5] on a number. *)
Definition out_of_1_5 (r : Q) : bool := Qltb r 1 || Qltb 5 r.

(** The rating update of submitFeedback, lines 450-453. *)
Definition add_rating (now : Time) (r : Q) (v : Volunteer.t) : Volunteer.t :=
  let s := Volunteer.stats v in
  let totalRating := (Stats.rating s * N2Q (Stats.totalRatings s) + r)%Q in
  let totalRatings := (Stats.totalRatings s + 1)%N in
  Volunteer.pre_save now
    (Volunteer.with_stats
       (Stats.mk (Stats.totalResponses s) (Stats.successfulAssists s)
                 (Stats.declinedAlerts s) (Stats.avgResponseTime s)
                 (totalRating / N2Q totalRatings)%Q totalRatings) v).

(** [feedback || ''] *)
Definition feedback_or_empty (f : option string) : string :=
  match f with
  | Some s => s
  | None => ""
  end.

(** [exports.submitFeedback]: PUT /api/alerts/:id/feedback. *)
Definition submitFeedback (caller : ReqUser.t) (id : ObjectId)
    (rating : option Q) (feedback : option string)
    (now : Time) (st : Store) : Store * Response :=
  match alerts st !! id with
  | None => (st, not_found)
  | Some alert =>
    if negb (Alert.user alert =? ReqUser.id caller)%N
    then (st, Json 403 false "Only the alert creator can submit feedback" NoData)
    else if negb (AlertStatus_eqb (Alert.status alert) Resolved)
    then (st, Json 400 false "Feedback can only be submitted for resolved alerts" NoData)
    else
      match rating with
      | Some r =>
        if negb (truthy (Some r)) || out_of_1_5 r
        then (st, Json 400 false "Rating must be between 1 and 5" NoData)
        else
          (* Update resolution with feedback *)
          let res := Alert.resolution alert in
          let alert :=
            Alert.with_resolution
              (Resolution.mk (Resolution.resolvedBy res) (Resolution.resolvedAt res)
                             (Resolution.notes res) (Some r)
                             (Some (feedback_or_empty feedback))) alert in
          let st := save_alert now id alert st in
          (* Update the responding volunteer's rating stats *)
          let st :=
            match RespondingVolunteer.volunteer (Alert.respondingVolunteer alert) with
            | Some vid =>
                match Volunteer_findById vid (volunteers st) with
                | Some volunteer =>
                    let volunteer := add_rating now r volunteer in
                    run_checkBadges now volunteer (save_volunteer volunteer st)
                | None => st
                end
            | None => st
            end in
          (st, Json 200 true "Thank you for your feedback!" NoData)
      | None => (st, Json 400 false "Rating must be between 1 and 5" NoData)
      end
  end.

(** [exports.updateAlertLocation]: PUT /api/alerts/:id/location.  The route
    has validated [latitude] and [longitude] as numbers in range. *)
Definition updateAlertLocation (caller : ReqUser.t) (id : ObjectId)
    (latitude longitude : Q) (now : Time) (st : Store) : Store * Response :=
  match alerts st !! id with
  | None => (st, not_found)
  | Some alert =>
    if negb (Alert.user alert =? ReqUser.id caller)%N
    then (st, Json 403 false "Not authorized" NoData)
    else if AlertStatus_eqb (Alert.status alert) Resolved
            || AlertStatus_eqb (Alert.status alert) Cancelled
    then (st, Json 400 false "Alert is already closed" NoData)
    else
      (* Update location *)
      let alert :=
        Alert.with_location
          (Location.mk (mkPoint longitude latitude)
                       (Location.address (Alert.location alert)) (Some now)) alert in
      (* Add to location history for tracking *)
      let alert :=
        Alert.with_locationHistory
          (Alert.locationHistory alert ++ [(mkPoint longitude latitude, now)]) alert in
      (save_alert now id alert st, Json 200 true "Location updated" NoData)
  end.

(** ** server.js: the alert sweeper *)

(** Which operation of the store fails during one run, if any. *)
Inductive Fault : Type :=
| NoFault
| UpdateManyFails (err : string)
| DeleteManyFails (err : string).

Inductive LogLine : Type :=
| LogExpired (modifiedCount : nat)    (* [Cleanup] Expired n stale alert(s) *)
| LogDeleted (deletedCount : nat)     (* [Cleanup] Deleted n alert(s) older than 7 days *)
| LogError (message : string).        (* [Cleanup] Error cleaning up alerts: ... *)

(** The process as the sweeper sees it: the store and the console. *)
Record World : Type := mkWorld {
  db : Store;
  console : list LogLine
}.

(** An asynchronous computation on the world: it settles with a value
    ([inr]) or rejects with an error ([inl]); the world keeps what was done
    before a rejection. *)
Definition Async (A : Type) : Type := World -> World * (string + A).

Definition ret {A : Type} (x : A) : Async A := fun w => (w, inr x).

Definition bind {A B : Type} (m : Async A) (k : A -> Async B) : Async B :=
  fun w =>
    match m w with
    | (w', inr x) => k x w'
    | (w', inl e) => (w', inl e)
    end.

Notation "'let*' x ':=' m 'in' k" := (bind m (fun x => k))
  (at level 10, x name, m at level 100, k at level 200).

(** [try { body } catch (err) { handler (err) }] *)
Definition try_catch {A : Type} (body : Async A) (handler : string -> Async A)
  : Async A :=
  fun w =>
    match body w with
    | (w', inr x) => (w', inr x)
    | (w', inl e) => handler e w'
    end.

Definition log (l : LogLine) : Async unit :=
  fun w => (mkWorld (db w) (console w ++ [l]), inr tt).

Definition when (b : bool) (m : Async unit) : Async unit :=
  if b then m else ret tt.

(** [status: { $in: ['active', 'pending', 'responding'] }] *)
Definition is_open (s : AlertStatus) : bool :=
  match s with
  | Active | Pending | Responding => true
  | _ => false
  end.

(** The filter of the first sweep. *)
Definition stale (oneDayAgo : Time) (a : Alert.t) : bool :=
  is_open (Alert.status a) && (Alert.createdAt a <? oneDayAgo)%Z.

(** [Alert.updateMany (filter, { $set: { status: 'expired' } })]: the number
    of modified documents.  No save hook runs. *)
Definition Alert_updateMany_expired (f : Fault) (oneDayAgo : Time) : Async nat :=
  fun w =>
    match f with
    | UpdateManyFails e => (w, inl e)
    | _ =>
        let m := alerts (db w) in
        let m' := (fun a => if stale oneDayAgo a then Alert.with_status Expired a else a)
                    <$> m in
        (mkWorld (with_alerts m' (db w)) (console w),
         inr (size (filter (fun p => stale oneDayAgo p.2 = true) m)))
    end.

(** [Alert.deleteMany ({ createdAt: { $lt: sevenDaysAgo } })]: the number of
    deleted documents. *)
Definition Alert_deleteMany_older (f : Fault) (sevenDaysAgo : Time) : Async nat :=
  fun w =>
    match f with
    | DeleteManyFails e => (w, inl e)
    | _ =>
        let m := alerts (db w) in
        let m' := filter (fun p => ¬ (Alert.createdAt p.2 < sevenDaysAgo)%Z) m in
        (mkWorld (with_alerts m' (db w)) (console w),
         inr (size (filter (fun p => (Alert.createdAt p.2 < sevenDaysAgo)%Z) m)))
    end.

Definition ms_per_hour : Z := 60 * 60 * 1000.

(** [const cleanupAlerts = async () => { try { ... } catch (err) { ... } }] *)
Definition cleanupAlerts (f : Fault) (now : Time) : Async unit :=
  try_catch
    (let sevenDaysAgo := (now - 7 * 24 * ms_per_hour)%Z in
     (* Mark active/responding alerts older than 24 hours as expired *)
     let oneDayAgo := (now - 24 * ms_per_hour)%Z in
     let* modifiedCount := Alert_updateMany_expired f oneDayAgo in
     let* _ := when (0 <? modifiedCount)%nat (log (LogExpired modifiedCount)) in
     (* Delete all alerts older than 7 days *)
     let* deletedCount := Alert_deleteMany_older f sevenDaysAgo in
     when (0 <? deletedCount)%nat (log (LogDeleted deletedCount)))
    (fun err => log (LogError err)).





(** ** Two accept requests in flight

    acceptAlert gives the control back at each [await]: after
    [Alert.findById], after [Volunteer.findOne] and at the [save] of
    [addTimelineEntry].  Between two awaits a request runs alone.  The
    program counter of a request records which await it is suspended at and
    the document it holds in memory. *)
Inductive AcceptPc : Type :=
| AwaitFindAlert                       (* await Alert.findById (req.params.id) *)
| AwaitFindVolunteer (alert : Alert.t) (* await Volunteer.findOne ({ user }) *)
| AwaitSave (alert : Alert.t)          (* await this.save () *)
| Responded (r : Response).

(** What [save] does to the store with the in-memory document, or [None]
    when it rejects. *)
Definition SaveSemantics : Type := Time -> ObjectId -> Alert.t -> Store -> option Store.

(** [save] as the sequential handlers use it: the document is written. *)
Definition save_writes : SaveSemantics :=
  fun now id a st => Some (save_alert now id a st).

(** One resumption of a request: the store operation it was waiting for
    completes and the handler runs up to its next await. *)
Definition accept_step (save : SaveSemantics) (caller : ReqUser.t) (id : ObjectId)
    (now : Time) (pc : AcceptPc) (st : Store) : Store * AcceptPc :=
  match pc with
  | AwaitFindAlert =>
      match alerts st !! id with
      | None => (st, Responded not_found)
      | Some alert =>
          if negb (AlertStatus_eqb (Alert.status alert) Active)
          then (st, Responded (Json 400 false "Alert is no longer active" NoData))
          else (st, AwaitFindVolunteer alert)
      end
  | AwaitFindVolunteer alert =>
      match findOne_by_user (ReqUser.id caller) (volunteers st) with
      | None => (st, Responded (Json 403 false "Volunteer profile not found" NoData))
      | Some volunteer =>
          match find_notified (Volunteer._id volunteer) (Alert.notifiedVolunteers alert) with
          | None => (st, Responded (Json 403 false "You were not notified for this alert" NoData))
          | Some (i, notifiedEntry) =>
              (st, AwaitSave (accept_update caller volunteer i notifiedEntry now alert))
          end
      end
  | AwaitSave alert =>
      match save now id alert st with
      | Some st' =>
          (st', Responded (Json 200 true "Alert accepted successfully"
                                (AcceptedData id (Alert.location alert))))
      | None => (st, Responded (Thrown "save rejected"))
      end
  | Responded r => (st, Responded r)
  end.

(** Two requests on the same alert. *)
Inductive Who : Type := First | Second.

Record Race : Type := mkRace {
  store : Store;
  pc1 : AcceptPc;
  pc2 : AcceptPc
}.

(** A schedule resumes one request after the other. *)
Fixpoint run_race (save : SaveSemantics) (c1 c2 : ReqUser.t) (id : ObjectId)
    (now1 now2 : Time) (schedule : list Who) (r : Race) : Race :=
  match schedule with
  | [] => r
  | First :: rest =>
      let '(st, pc) := accept_step save c1 id now1 (pc1 r) (store r) in
      run_race save c1 c2 id now1 now2 rest (mkRace st pc (pc2 r))
  | Second :: rest =>
      let '(st, pc) := accept_step save c2 id now2 (pc2 r) (store r) in
      run_race save c1 c2 id now1 now2 rest (mkRace st (pc1 r) pc)
  end.

(** ** The contact controller and the hooks of models/EmergencyContact.js *)

Module contactController.

(** What the handlers answer: [res.status(code).json({ success, message,
    data })], or the error that leaves the handler. *)
Inductive Reply : Type :=
| Json (code : nat) (success : bool) (message : option string)
       (data : option EmergencyContact.t)
| Thrown (error : string).

(** The fields of the request body that the model of the contact keeps.
    [isPrimary] is absent or a boolean; [name] and [phone] are the values
    after the route's sanitizers. *)
Record Body : Type := mkBody {
  body_name : string;
  body_phone : string;
  body_isPrimary : option bool
}.

Definition with_isActive (b : bool) (c : EmergencyContact.t) : EmergencyContact.t :=
  EmergencyContact.mk (EmergencyContact._id c) (EmergencyContact.user c)
    (EmergencyContact.name c) (EmergencyContact.phone c)
    (EmergencyContact.isPrimary c) b.

Definition with_isPrimary (b : bool) (c : EmergencyContact.t) : EmergencyContact.t :=
  EmergencyContact.mk (EmergencyContact._id c) (EmergencyContact.user c)
    (EmergencyContact.name c) (EmergencyContact.phone c)
    b (EmergencyContact.isActive c).

Definition with_contacts (l : list EmergencyContact.t) (st : Store) : Store :=
  mkStore (alerts st) (volunteers st) l.

(** [updateMany({ user, _id: { $ne: id } }, { isPrimary: false })] *)
Definition clear_primary (uid id : ObjectId) (cs : list EmergencyContact.t)
  : list EmergencyContact.t :=
  List.map (fun c => if (EmergencyContact.user c =? uid)%N
                        && negb (EmergencyContact._id c =? id)%N
                     then with_isPrimary false c else c) cs.

(** [countDocuments({ user })] *)
Definition count_of (uid : ObjectId) (cs : list EmergencyContact.t) : nat :=
  List.length (List.filter (fun c => (EmergencyContact.user c =? uid)%N) cs).

(** [contact.save()]: the two [pre('save')] hooks in the order of their
    registration, then the write.  The first hook refuses a new document
    when the user already has 5 documents, active or not ([None]: the save
    throws and nothing is written); the second one takes the primary flag
    from the other documents of the user when this one carries it.  The
    timestamps of the contacts are not part of the model. *)
Definition save (isNew : bool) (c : EmergencyContact.t) (st : Store) : option Store :=
  if isNew && (5 <=? count_of (EmergencyContact.user c) (contacts st))%nat
  then None
  else
    let cs :=
      if EmergencyContact.isPrimary c
      then clear_primary (EmergencyContact.user c) (EmergencyContact._id c) (contacts st)
      else contacts st in
    Some (with_contacts
            (if isNew then cs ++ [c]
             else List.map (fun d => if (EmergencyContact._id d =? EmergencyContact._id c)%N
                                     then c else d) cs) st).

(** [exports.getContact]: GET /api/contacts/:id. *)
Definition getContact (caller : ReqUser.t) (id : ObjectId) (st : Store) : Reply :=
  match List.find (fun c => (EmergencyContact._id c =? id)%N
                            && (EmergencyContact.user c =? ReqUser.id caller)%N)
                  (contacts st) with
  | None => Json 404 false (Some "Contact not found") None
  | Some contact => Json 200 true None (Some contact)
  end.

(** [exports.createContact]: POST /api/contacts.  [newId] is the [_id] that
    [EmergencyContact.create] gives the document, [schemaValid] whether the
    document passes the validators of the schema (they run before the
    hooks). *)
Definition createContact (caller : ReqUser.t) (body : Body) (newId : ObjectId)
    (schemaValid : bool) (st : Store) : Store * Reply :=
  (* Check contact limit *)
  let count := List.length (active_contacts (ReqUser.id caller) (contacts st)) in
  if (5 <=? count)%nat
  then (st, Json 400 false (Some "Maximum 5 emergency contacts allowed") None)
  else
    (* Check for duplicate phone *)
    match List.find (fun c => (EmergencyContact.user c =? ReqUser.id caller)%N
                              && String.eqb (EmergencyContact.phone c) (body_phone body)
                              && EmergencyContact.isActive c)
                    (contacts st) with
    | Some _ =>
        (st, Json 400 false (Some "Contact with this phone number already exists") None)
    | None =>
        (* If this is the first contact or marked as primary, set isPrimary *)
        let shouldBePrimary :=
          match body_isPrimary body with Some b => b | None => false end
          || (count =? 0)%nat in
        let contact :=
          EmergencyContact.mk newId (ReqUser.id caller) (body_name body)
                              (body_phone body) shouldBePrimary true in
        if negb schemaValid then (st, Thrown "ValidationError")
        else
          match save true contact st with
          | None => (st, Thrown "Maximum 5 emergency contacts allowed")
          | Some st =>
              (st, Json 201 true (Some "Emergency contact added successfully")
                        (Some contact))
          end
    end.

(** [exports.deleteContact]: DELETE /api/contacts/:id.  The saves are of
    stored documents, which are not new and pass the validators. *)
Definition deleteContact (caller : ReqUser.t) (id : ObjectId) (st : Store)
  : Store * Reply :=
  match List.find (fun c => (EmergencyContact._id c =? id)%N
                            && (EmergencyContact.user c =? ReqUser.id caller)%N)
                  (contacts st) with
  | None => (st, Json 404 false (Some "Contact not found") None)
  | Some contact =>
      (* Soft delete *)
      let contact := with_isActive false contact in
      match save false contact st with
      | None => (st, Thrown "Error")
      | Some st =>
          (* If deleted contact was primary, set another contact as primary *)
          let st :=
            if EmergencyContact.isPrimary contact then
              match List.find (fun c => (EmergencyContact.user c =? ReqUser.id caller)%N
                                        && EmergencyContact.isActive c)
                              (contacts st) with
              | Some nextContact =>
                  match save false (with_isPrimary true nextContact) st with
                  | Some st => st
                  | None => st
                  end
              | None => st
              end
            else st in
          (st, Json 200 true (Some "Contact deleted successfully") None)
      end
  end.

(** [exports.setPrimaryContact]: PUT /api/contacts/:id/primary. *)
Definition setPrimaryContact (caller : ReqUser.t) (id : ObjectId) (st : Store)
  : Store * Reply :=
  match List.find (fun c => (EmergencyContact._id c =? id)%N
                            && (EmergencyContact.user c =? ReqUser.id caller)%N
                            && EmergencyContact.isActive c)
                  (contacts st) with
  | None => (st, Json 404 false (Some "Contact not found") None)
  | Some contact =>
      (* Remove primary from all other contacts *)
      let st := with_contacts (clear_primary (ReqUser.id caller) id (contacts st)) st in
      (* Set this contact as primary *)
      let contact := with_isPrimary true contact in
      match save false contact st with
      | None => (st, Thrown "Error")
      | Some st => (st, Json 200 true (Some "Primary contact updated") (Some contact))
      end
  end.

End contactController.


(** ** controllers/volunteerController.js *)

Module volunteerController.

(** [res.status(code).json({ success, message, data: { isOnDuty } })], or
    the error that leaves the handler. *)
Inductive Reply : Type :=
| Json (code : nat) (success : bool) (message : string) (isOnDuty : option bool)
| Thrown (error : string).

Definition with_isOnDuty (b : bool) (v : Volunteer.t) : Volunteer.t :=
  Volunteer.mk (Volunteer._id v) (Volunteer.user v) (Volunteer.isVerified v)
    (Volunteer.status v) b (Volunteer.currentLocation v) (Volunteer.stats v)
    (Volunteer.badges v) (Volunteer.updatedAt v).

Definition with_currentLocation (p : Point) (v : Volunteer.t) : Volunteer.t :=
  Volunteer.mk (Volunteer._id v) (Volunteer.user v) (Volunteer.isVerified v)
    (Volunteer.status v) (Volunteer.isOnDuty v) p (Volunteer.stats v)
    (Volunteer.badges v) (Volunteer.updatedAt v).

(** [exports.toggleDuty]: PUT /api/volunteers/duty.  The broadcast on the
    socket does not touch the store. *)
Definition toggleDuty (caller : ReqUser.t) (now : Time) (st : Store)
  : Store * Reply :=
  match findOne_by_user (ReqUser.id caller) (volunteers st) with
  | None => (st, Json 404 false "Volunteer profile not found" None)
  | Some volunteer =>
    if negb (Volunteer.isVerified volunteer)
    then (st, Json 403 false "Your account is pending verification" None)
    else
      let volunteer :=
        Volunteer.pre_save now
          (with_isOnDuty (negb (Volunteer.isOnDuty volunteer)) volunteer) in
      (save_volunteer volunteer st,
       Json 200 true
            ("You are now " +:+ (if Volunteer.isOnDuty volunteer
                                 then "on duty" else "off duty"))
            (Some (Volunteer.isOnDuty volunteer)))
  end.

(** [Volunteer.findOneAndUpdate({ user }, update)]: the first profile of
    the account is updated in place; the hooks of [save] do not run. *)
Fixpoint findOneAndUpdate_by_user (uid : ObjectId) (f : Volunteer.t -> Volunteer.t)
    (vs : list Volunteer.t) : list Volunteer.t :=
  match vs with
  | [] => []
  | v :: r => if (Volunteer.user v =? uid)%N then f v :: r
              else v :: findOneAndUpdate_by_user uid f r
  end.

(** What the 2dsphere index on [currentLocation] admits: a longitude from
    -180 to 180 and a latitude from -90 to 90.  The store refuses a write
    of any other point to an indexed field. *)
Definition geo_valid (p : Point) : bool :=
  Qle_bool (-180) (lng p) && Qle_bool (lng p) 180
  && Qle_bool (-90) (lat p) && Qle_bool (lat p) 90.

(** [exports.updateLocation]: PUT /api/volunteers/location.  [latitude] and
    [longitude] are absent or numbers; the route has no validator.  When no
    profile matches, [findOneAndUpdate] writes nothing and returns [null];
    when one matches and the point is out of bounds, the store rejects the
    update and the handler throws. *)
Definition updateLocation (caller : ReqUser.t) (latitude longitude : option Q)
    (st : Store) : Store * Reply :=
  if negb (truthy latitude) || negb (truthy longitude)
  then (st, Json 400 false "Please provide latitude and longitude" None)
  else
    match latitude, longitude with
    | Some latitude, Some longitude =>
        match findOne_by_user (ReqUser.id caller) (volunteers st) with
        | None => (st, Json 404 false "Volunteer profile not found" None)
        | Some _ =>
            if geo_valid (mkPoint longitude latitude)
            then
              (with_volunteers
                 (findOneAndUpdate_by_user (ReqUser.id caller)
                    (with_currentLocation (mkPoint longitude latitude))
                    (volunteers st)) st,
               Json 200 true "Location updated" None)
            else (st, Thrown "MongoServerError")
        end
    | _, _ => (st, Json 400 false "Please provide latitude and longitude" None)
    end.

(** One entry of [badgesWithStatus]. *)
Record BadgeStatus : Type := mkBadgeStatus {
  bs_name : string;
  bs_required : N;
  bs_field : StatField;
  bs_earned : bool;
  bs_earnedAt : option Time;
  bs_progress : JsNumber
}.

(** [volunteer.stats[badge.field]] *)
Definition stat (f : StatField) (s : Stats.t) : JsNumber :=
  match f with
  | FTotalResponses => Finite (N2Q (Stats.totalResponses s))
  | FSuccessfulAssists => Finite (N2Q (Stats.successfulAssists s))
  | FAvgResponseTime => Stats.avgResponseTime s
  end.

(** [Math.min(volunteer.stats[badge.field] / badge.required * 100, 100)] *)
Definition progress (s : Stats.t) (required : N) (f : StatField) : JsNumber :=
  match stat f s with
  | Finite q =>
      let p := (q / N2Q required * 100)%Q in
      Finite (if Qle_bool p 100 then p else 100%Q)
  | NaN => NaN
  end.

Definition badgesWithStatus (v : Volunteer.t) : list BadgeStatus :=
  List.map (fun badge : string * N * StatField =>
              let '(name, required, field) := badge in
              let earned :=
                List.find (fun b => String.eqb (badge_name b) name)
                          (Volunteer.badges v) in
              mkBadgeStatus name required field
                (match earned with Some _ => true | None => false end)
                (match earned with Some b => Some (badge_earnedAt b) | None => None end)
                (progress (Volunteer.stats v) required field))
           allBadges.

(** [exports.getBadges]: GET /api/volunteers/badges; the [earned] and the
    [locked] list of the answer, or [None] for the 404. *)
Definition getBadges (caller : ReqUser.t) (st : Store)
  : option (list BadgeStatus * list BadgeStatus) :=
  match findOne_by_user (ReqUser.id caller) (volunteers st) with
  | None => None
  | Some volunteer =>
      let l := badgesWithStatus volunteer in
      Some (List.filter bs_earned l, List.filter (fun b => negb (bs_earned b)) l)
  end.

End volunteerController.

(** ** The alert controller: reading *)

(** What getAlert answers. *)
Inductive AlertReply : Type :=
| AlertNotFound                 (* 404 'Alert not found' *)
| AlertForbidden                (* 403 'Not authorized to view this alert' *)
| AlertData (alert : Alert.t).  (* 200, [data: alert] *)

(** [exports.getAlert]: GET /api/alerts/:id.  The accounts that the alert
    and the profiles refer to exist. *)
Definition getAlert (caller : ReqUser.t) (id : ObjectId) (st : Store) : AlertReply :=
  match alerts st !! id with
  | None => AlertNotFound
  | Some alert =>
    (* Check authorization *)
    let isOwner := (Alert.user alert =? ReqUser.id caller)%N in
    let isAdmin := Role_eqb (ReqUser.role caller) RAdmin in
    let isRespondingVolunteer :=
      match RespondingVolunteer.volunteer (Alert.respondingVolunteer alert) with
      | Some vid =>
          match Volunteer_findById vid (volunteers st) with
          | Some v => (Volunteer.user v =? ReqUser.id caller)%N
          | None => false
          end
      | None => false
      end in
    if negb isOwner && negb isAdmin && negb isRespondingVolunteer
    then AlertForbidden
    else AlertData alert
  end.

(** The filter of [exports.getPendingFeedback]: the caller's resolved
    alerts that had a responding volunteer and carry no rating, or the
    rating 0. *)
Definition pendingFeedbackQuery (caller : ReqUser.t) (a : Alert.t) : bool :=
  (Alert.user a =? ReqUser.id caller)%N
  && AlertStatus_eqb (Alert.status a) Resolved
  && match RespondingVolunteer.volunteer (Alert.respondingVolunteer a) with
     | Some _ => true
     | None => false
     end
  && match Resolution.rating (Alert.resolution a) with
     | None => true
     | Some r => Qeq_bool r 0
     end.

(** The filter of [exports.getNearbyAlerts] (both of its queries) on the
    status and the age: active alerts of the last 24 hours. *)
Definition nearbyAlertsQuery (now : Time) (a : Alert.t) : bool :=
  AlertStatus_eqb (Alert.status a) Active
  && (now - 24 * 60 * 60 * 1000 <=? Alert.createdAt a)%Z.

(** The filter of [exports.getActiveAlert]: the caller's alerts of the
    last 24 hours that are active or responding. *)
Definition activeAlertQuery (caller : ReqUser.t) (now : Time) (a : Alert.t) : bool :=
  (Alert.user a =? ReqUser.id caller)%N
  && (AlertStatus_eqb (Alert.status a) Active
      || AlertStatus_eqb (Alert.status a) Responding)
  && (now - 24 * 60 * 60 * 1000 <=? Alert.createdAt a)%Z.


(** ** The admin controller: volunteers *)

Module adminController.

Inductive Reply : Type :=
| Json (code : nat) (success : bool) (message : string) (data : option Volunteer.t).

(** [Volunteer.findByIdAndUpdate(id, update)]: the first profile with that
    [_id] is updated in place; the hooks of [save] do not run. *)
Fixpoint findByIdAndUpdate (id : ObjectId) (f : Volunteer.t -> Volunteer.t)
    (vs : list Volunteer.t) : list Volunteer.t :=
  match vs with
  | [] => []
  | v :: r => if (Volunteer._id v =? id)%N then f v :: r
              else v :: findByIdAndUpdate id f r
  end.

Definition with_verified (v : Volunteer.t) : Volunteer.t :=
  Volunteer.mk (Volunteer._id v) (Volunteer.user v) true VActive
    (Volunteer.isOnDuty v) (Volunteer.currentLocation v) (Volunteer.stats v)
    (Volunteer.badges v) (Volunteer.updatedAt v).

Definition with_status (s : VolunteerStatus) (v : Volunteer.t) : Volunteer.t :=
  Volunteer.mk (Volunteer._id v) (Volunteer.user v) (Volunteer.isVerified v) s
    (Volunteer.isOnDuty v) (Volunteer.currentLocation v) (Volunteer.stats v)
    (Volunteer.badges v) (Volunteer.updatedAt v).

(** [exports.verifyVolunteer]: PUT /api/admin/volunteers/:id/verify.  The
    account of the profile exists; its own verification flag is not part of
    the store modelled here. *)
Definition verifyVolunteer (id : ObjectId) (st : Store) : Store * Reply :=
  match Volunteer_findById id (volunteers st) with
  | None => (st, Json 404 false "Volunteer not found" None)
  | Some v =>
      (with_volunteers (findByIdAndUpdate id with_verified (volunteers st)) st,
       Json 200 true "Volunteer verified successfully" (Some (with_verified v)))
  end.

(** The strings of the [status] enum of the volunteer schema. *)
Definition parse_status (s : string) : option VolunteerStatus :=
  if String.eqb s "active" then Some VActive
  else if String.eqb s "inactive" then Some VInactive
  else if String.eqb s "suspended" then Some VSuspended
  else if String.eqb s "pending" then Some VPending
  else None.

(** [exports.updateVolunteerStatus]: PUT /api/admin/volunteers/:id/status. *)
Definition updateVolunteerStatus (id : ObjectId) (status : string) (st : Store)
  : Store * Reply :=
  match parse_status status with
  | None => (st, Json 400 false "Invalid status" None)
  | Some s =>
      match Volunteer_findById id (volunteers st) with
      | None => (st, Json 404 false "Volunteer not found" None)
      | Some v =>
          (with_volunteers (findByIdAndUpdate id (with_status s) (volunteers st)) st,
           Json 200 true ("Volunteer status updated to " +:+ status)
                (Some (with_status s v)))
      end
  end.

End adminController.


(* ===================================================================== *)
(** * Vocabulary of the properties and scenarios *)
(* ===================================================================== *)

Definition badge_names : list string :=
  ["First Responder"; "10 Assists"; "25 Assists"; "50 Assists"; "Quick Responder"].

(** The condition under which [checkBadges] considers the badge [name]. *)
Definition qualifies (name : string) (s : Stats.t) : bool :=
  if String.eqb name "First Responder" then (1 <=? Stats.totalResponses s)%N
  else if String.eqb name "10 Assists" then (10 <=? Stats.successfulAssists s)%N
  else if String.eqb name "25 Assists" then (25 <=? Stats.successfulAssists s)%N
  else if String.eqb name "50 Assists" then (50 <=? Stats.successfulAssists s)%N
  else if String.eqb name "Quick Responder"
       then js_lt (Stats.avgResponseTime s) 180 && (5 <=? Stats.totalResponses s)%N
  else false.

(** How many badges of a list carry [name]. *)
Definition count_badge (name : string) (bs : list Badge) : nat :=
  List.length (List.filter (fun b => String.eqb (badge_name b) name) bs).

(** A volunteer with 5 responses and the given average response time, who
    holds no badge. *)
Definition responder_5 (avg : Q) : Volunteer.t :=
  Volunteer.mk 1 1 true VActive true (mkPoint 0 0)
    (Stats.mk 5 5 0 (Finite avg) 0 0) [] 0.

(** A volunteer with [n] successful assists who holds the badges of the
    thresholds 1, 10, 25 and 50. *)
Definition veteran (n : N) : Volunteer.t :=
  Volunteer.mk 1 1 true VActive true (mkPoint 0 0)
    (Stats.mk n n 0 (Finite 200) 0 0)
    [mkBadge "First Responder" "🏅" 0; mkBadge "10 Assists" "⭐" 0;
     mkBadge "25 Assists" "🌟" 0; mkBadge "50 Assists" "🏆" 0] 0.

(** The outcomes of the specification, as the responses of the controller:
    Conflict is the 400 of acceptAlert on an alert that is not active,
    Forbidden a 403, success a 200. *)
Definition conflict : Response := Json 400 false "Alert is no longer active" NoData.

Definition is_forbidden (r : Response) : Prop :=
  exists m, r = Json 403 false m NoData.

Definition is_success (r : Response) : Prop :=
  exists m d, r = Json 200 true m d.

(** The caller has a volunteer profile and the alert has a notified-volunteers
    entry for it. *)
Definition was_notified (caller : ReqUser.t) (st : Store) (alert : Alert.t) : Prop :=
  exists v,
    findOne_by_user (ReqUser.id caller) (volunteers st) = Some v
    /\ Exists (fun e => NotifiedVolunteer.volunteer e = Volunteer._id v)
              (Alert.notifiedVolunteers alert).

Definition alice : ReqUser.t := ReqUser.mk 1 "Alice" RUser.
Definition bob : ReqUser.t := ReqUser.mk 2 "Bob" RVolunteer.
Definition carol : ReqUser.t := ReqUser.mk 3 "Carol" RVolunteer.

Definition profile (id uid : ObjectId) : Volunteer.t :=
  Volunteer.mk id uid true VActive true (mkPoint 0 0)
    (Stats.mk 0 0 0 (Finite 0) 0 0) [] 0.

Definition bob_profile : Volunteer.t := profile 20 2.
Definition carol_profile : Volunteer.t := profile 30 3.

(** Alice's alert, created at instant 1000, with the given status. *)
Definition alert_of_alice (s : AlertStatus) : Alert.t :=
  Alert.mk 1
    (Location.mk (mkPoint (775946 # 10000) (129716 # 10000)) None None)
    [] s High Sos None
    [NotifiedVolunteer.mk 20 1000 (Some 120%Z) Notified;
     NotifiedVolunteer.mk 30 1000 (Some 300%Z) Notified]
    RespondingVolunteer.empty []
    [TimelineEntry.mk "created" "Emergency alert created" 1 1000]
    Resolution.empty None None 1000 1000 1801000.

Definition scenario (s : AlertStatus) : Store :=
  mkStore {[ 100%N := alert_of_alice s ]} [bob_profile; carol_profile] [].

Definition is_terminal (s : AlertStatus) : bool :=
  match s with
  | Resolved | Cancelled | Expired => true
  | _ => false
  end.

(** The lifecycle operations on an existing alert. *)
Inductive LifecycleOp : Type :=
| OpAccept
| OpCancel
| OpResolve (notes : option string) (rating : option Q) (feedback : option string)
| OpUpdateLocation (latitude longitude : Q).

Definition apply_op (op : LifecycleOp) (caller : ReqUser.t) (id : ObjectId)
    (now : Time) (st : Store) : Store * Response :=
  match op with
  | OpAccept => acceptAlert caller id now st
  | OpCancel => cancelAlert caller id now st
  | OpResolve notes rating feedback => resolveAlert caller id notes rating feedback now st
  | OpUpdateLocation latitude longitude =>
      updateAlertLocation caller id latitude longitude now st
  end.

(** Who may resolve an alert: its owner, its responding volunteer, an admin. *)
Definition may_resolve (caller : ReqUser.t) (st : Store) (a : Alert.t) : bool :=
  (Alert.user a =? ReqUser.id caller)%N
  || match findOne_by_user (ReqUser.id caller) (volunteers st),
           RespondingVolunteer.volunteer (Alert.respondingVolunteer a) with
     | Some v, Some rv => (rv =? Volunteer._id v)%N
     | _, _ => false
     end
  || Role_eqb (ReqUser.role caller) RAdmin.

Definition accepted_store : Store := (acceptAlert bob 100 61000 (scenario Active)).1.

Definition accepted_alert : Alert.t :=
  Alert.pre_save 61000
    (accept_update bob bob_profile 0
       (NotifiedVolunteer.mk 20 1000 (Some 120%Z) Notified) 61000
       (alert_of_alice Active)).

Definition seven_days : Z := 7 * 24 * ms_per_hour.
Definition one_day : Z := 24 * ms_per_hour.

(** The alerts after a run in which the store does not fail. *)
Definition swept (now : Time) (m : gmap ObjectId Alert.t) : gmap ObjectId Alert.t :=
  filter (fun p => ¬ (Alert.createdAt p.2 < now - seven_days)%Z)
         ((fun a => if stale (now - one_day) a then Alert.with_status Expired a else a)
            <$> m).

(** The sweep scenario of the specification, ten days after the epoch: an
    active alert created 25 hours ago, a resolved one created 8 days ago,
    an active one created 2 hours ago. *)
Definition ten_days : Time := 10 * 24 * ms_per_hour.

Definition aged (s : AlertStatus) (age : Z) : Alert.t :=
  Alert.mk 1 (Location.mk (mkPoint 0 0) None None) [] s High Sos None
    [] RespondingVolunteer.empty [] [] Resolution.empty None None
    (ten_days - age) (ten_days - age) (ten_days - age + 1800000).

Definition sweep_world : World :=
  mkWorld
    (mkStore (<[3%N := aged Active (2 * ms_per_hour)]>
               (<[2%N := aged Resolved (8 * 24 * ms_per_hour)]>
                  {[ 1%N := aged Active (25 * ms_per_hour) ]}))
             [] [])
    [].

(** The outcome recorded for a contact: [sent] when [sendSMS] reports
    success, [failed] otherwise. *)
Definition sms_outcome (env : Env) (message : string) (c : EmergencyContact.t)
  : ContactStatus :=
  match (notificationService.sendSMS env (EmergencyContact.phone c) message).1 with
  | Some true => CSent
  | _ => CFailed
  end.

Definition sms_effects (env : Env) (message : string) (c : EmergencyContact.t)
  : list Effect :=
  (notificationService.sendSMS env (EmergencyContact.phone c) message).2.

(** The document that createAlert saves when it succeeds. *)
Definition created_alert (env : Env) (caller : ReqUser.t) (body : CreateBody.t)
    (latitude longitude : Q) (type : AlertType) (now : Time) (st : Store) : Alert.t :=
  let center := mkPoint longitude latitude in
  let message := notificationService.smsMessage env (ReqUser.name caller) center in
  Alert.mk (ReqUser.id caller)
    (Location.mk center (CreateBody.address body) None)
    [] Active High type (CreateBody.message body)
    (List.map (notified_entry env latitude longitude now)
              (nearbyVolunteers env center (volunteers st)))
    RespondingVolunteer.empty
    (List.map (fun c => NotifiedContact.mk (EmergencyContact._id c) now Sms
                                           (sms_outcome env message c))
              (active_contacts (ReqUser.id caller) (contacts st)))
    [TimelineEntry.mk "created" "Emergency alert created" (ReqUser.id caller) now]
    Resolution.empty None None now now (now + 30 * 60 * 1000)%Z.

Definition is_call (e : Effect) : bool :=
  match e with
  | CallStub _ _ | CallRequest _ _ => true
  | _ => false
  end.

(** [s] ends with [suffix]. *)
Definition ends_with (suffix s : string) : Prop := exists p, s = p +:+ suffix.

(** A store in which Alice has a primary and a secondary contact, and an
    environment whose configuration has an [sms] section without key (the
    service logs a stub instead of posting) and that prints the two
    coordinates of the request below as JavaScript does. *)
Definition mum : EmergencyContact.t :=
  EmergencyContact.mk 51 1 "Mum" "+91 98765-43210" true true.
Definition friend : EmergencyContact.t :=
  EmergencyContact.mk 52 1 "Asha" "09876543211" false true.

Definition demo_env : Env :=
  mkEnv (fun q => if Qeq_bool q (129716 # 10000)%Q then "12.9716"
                  else if Qeq_bool q (775946 # 10000)%Q then "77.5946"
                  else "0")
        (fun _ _ _ _ => 0%Z) true (fun _ _ => 0%Q) (Some None)
        (fun _ _ => ReturnTrue "") 100.

(** The same environment with the configuration file of the sources, which
    has no [sms] section. *)
Definition bare_env : Env :=
  mkEnv (number_toString demo_env) (calculateDistance demo_env)
        (geo_available demo_env) (geo_distance demo_env) None
        (fast2sms demo_env) (new_ObjectId demo_env).

Definition demo_store : Store := mkStore ∅ [bob_profile; carol_profile] [mum; friend].

Definition sos_body : CreateBody.t :=
  CreateBody.mk (Some (129716 # 10000)%Q) (Some (775946 # 10000)%Q) None None None.

(** The Twilio service, for comparison: it does call, and only the
    primary contacts. *)
Definition is_call_result (r : notificationService.Result) : bool :=
  match notificationService.method r with Call => true | _ => false end.

(** [a] comes before [b] in the order of [key]. *)
Definition key_le {A : Type} (key : A -> Q) (a b : A) : Prop := (key a <= key b)%Q.

Definition nearer (env : Env) (center : Point) : Volunteer.t -> Volunteer.t -> Prop :=
  key_le (dist_to env center).

(** An environment whose store measures distances on a grid, 100 km for a
    degree of latitude or of longitude, and whose [calculateDistance]
    agrees with it; and volunteers on duty around Alice's position
    (12.9716, 77.5946): Dora about 2.4 km away, Eve about 400 m away, and
    Frank, who has never sent a location and so has the coordinates
    [[0, 0]] of the schema. *)
Definition grid_distance (c p : Point) : Q :=
  ((Qabs (lat p - lat c) + Qabs (lng p - lng c)) * 100000)%Q.

Definition grid_env : Env :=
  mkEnv (number_toString demo_env)
        (fun lat1 lon1 lat2 lon2 =>
           Qfloor (grid_distance (mkPoint lon1 lat1) (mkPoint lon2 lat2)))
        true grid_distance (Some None) (fast2sms demo_env) 100.

Definition located (id uid : ObjectId) (latitude longitude : Q) : Volunteer.t :=
  Volunteer.mk id uid true VActive true (mkPoint longitude latitude)
    (Stats.mk 0 0 0 (Finite 0) 0 0) [] 0.

Definition dora : Volunteer.t := located 40 4 (129900 # 10000) (776000 # 10000).
Definition eve : Volunteer.t := located 50 5 (129750 # 10000) (775950 # 10000).
Definition frank : Volunteer.t := profile 60 6.

Definition grid_store : Store := mkStore ∅ [dora; eve; frank] [].

(** A request from the equator. *)
Definition equator_body : CreateBody.t :=
  CreateBody.mk (Some 0%Q) (Some (775946 # 10000)%Q) None None None.

(** Both requests read the alert, then both look their profile up, then
    both save. *)
Definition both_read_first : list Who := [First; Second; First; Second; First; Second].

(** The first request runs to its end before the second starts. *)
Definition in_turn : list Who := [First; First; First; Second; Second; Second].

Definition start (st : Store) : Race := mkRace st AwaitFindAlert AwaitFindAlert.

(** The requests of the alert routes that name an alert. *)
Inductive Request : Type :=
| ReqCancel
| ReqAccept
| ReqDecline
| ReqResolve (notes : option string) (rating : option Q) (feedback : option string)
| ReqFeedback (rating : option Q) (feedback : option string)
| ReqLocation (latitude longitude : Q).

Definition handle (r : Request) (caller : ReqUser.t) (id : ObjectId)
    (now : Time) (st : Store) : Store * Response :=
  match r with
  | ReqCancel => cancelAlert caller id now st
  | ReqAccept => acceptAlert caller id now st
  | ReqDecline => declineAlert caller id now st
  | ReqResolve notes rating feedback => resolveAlert caller id notes rating feedback now st
  | ReqFeedback rating feedback => submitFeedback caller id rating feedback now st
  | ReqLocation latitude longitude =>
      updateAlertLocation caller id latitude longitude now st
  end.

(** The store after a handler is the store before, with at most the
    addressed alert written and at most profiles saved in place. *)
Definition same_but (id : ObjectId) (st st' : Store) : Prop :=
  (forall j, j <> id -> alerts st' !! j = alerts st !! j)
  /\ contacts st' = contacts st
  /\ List.map Volunteer._id (volunteers st') = List.map Volunteer._id (volunteers st).

(** A run of location updates by the same caller on the same alert, each
    [(latitude, longitude, instant)]. *)
Definition track (caller : ReqUser.t) (id : ObjectId)
    (ps : list (Q * Q * Time)) (st : Store) : Store :=
  fold_left (fun st p => (updateAlertLocation caller id p.1.1 p.1.2 p.2 st).1) ps st.

(** The entry of the location history that an update leaves. *)
Definition history_entry (p : Q * Q * Time) : Point * Time :=
  (mkPoint p.1.2 p.1.1, p.2).

(** The same caller resolving the same alert at each instant of [ts]. *)
Definition resolve_all (caller : ReqUser.t) (id : ObjectId)
    (notes : option string) (rating : option Q) (feedback : option string)
    (ts : list Time) (st : Store) : Store :=
  fold_left (fun st t => (resolveAlert caller id notes rating feedback t st).1) ts st.

Definition is_sms_result (r : notificationService.Result) : bool :=
  match notificationService.method r with Sms => true | _ => false end.


(** The operations of the contact controller that write. *)
Inductive ContactOp : Type :=
| OpCreateContact (body : contactController.Body) (newId : ObjectId) (schemaValid : bool)
| OpDeleteContact (id : ObjectId)
| OpSetPrimaryContact (id : ObjectId).

Definition run_contact_op (op : ContactOp) (caller : ReqUser.t) (st : Store)
  : Store * contactController.Reply :=
  match op with
  | OpCreateContact body newId schemaValid =>
      contactController.createContact caller body newId schemaValid st
  | OpDeleteContact id => contactController.deleteContact caller id st
  | OpSetPrimaryContact id => contactController.setPrimaryContact caller id st
  end.

(** The store gives a new document an [_id] that no stored document has. *)
Definition fresh_for (op : ContactOp) (cs : list EmergencyContact.t) : Prop :=
  match op with
  | OpCreateContact _ newId _ => ~ In newId (List.map EmergencyContact._id cs)
  | _ => True
  end.

(** The documents of one user, active or not. *)
Definition docs_of (uid : ObjectId) (cs : list EmergencyContact.t)
  : list EmergencyContact.t :=
  List.filter (fun c => (EmergencyContact.user c =? uid)%N) cs.

(** The contacts of a user are in order: at most one document carries the
    primary flag, and when the user has an active contact, the primary one
    is active. *)
Definition ok_user (uid : ObjectId) (cs : list EmergencyContact.t) : Prop :=
  (forall c1 c2, In c1 (docs_of uid cs) -> In c2 (docs_of uid cs) ->
     EmergencyContact.isPrimary c1 = true -> EmergencyContact.isPrimary c2 = true ->
     EmergencyContact._id c1 = EmergencyContact._id c2)
  /\ (forall c, In c (docs_of uid cs) -> EmergencyContact.isActive c = true ->
        exists p, In p (docs_of uid cs)
                  /\ EmergencyContact.isPrimary p = true
                  /\ EmergencyContact.isActive p = true).

Definition contacts_ok (cs : list EmergencyContact.t) : Prop :=
  List.NoDup (List.map EmergencyContact._id cs) /\ forall uid, ok_user uid cs.


(** A store in which Alice has deleted the five contacts she had. *)
Definition five_deleted : Store :=
  mkStore ∅ []
    (List.map (fun i => EmergencyContact.mk i 1 "Asha" "09876543211" false false)
              [61; 62; 63; 64; 65]%N).


(** The phone numbers of the active contacts of a user, as stored. *)
Definition phones_of (uid : ObjectId) (cs : list EmergencyContact.t) : list string :=
  List.map EmergencyContact.phone (active_contacts uid cs).


(** Whether a sequence of bytes is made of whole characters: every byte
    that starts a character is followed by the continuation bytes it
    announces.  The UTF-8 form of a string is. *)
Fixpoint well_formed (s : string) : bool :=
  match s with
  | EmptyString => true
  | String c r =>
      if notificationService.ascii7 c then well_formed r
      else
        match r with
        | String c2 r2 =>
            if notificationService.cont c2 then
              if notificationService.lead2 c then well_formed r2
              else
                match r2 with
                | String c3 r3 =>
                    if notificationService.cont c3 then
                      if notificationService.lead3 c then well_formed r3
                      else
                        match r3 with
                        | String c4 r4 =>
                            notificationService.cont c4
                            && notificationService.lead4 c && well_formed r4
                        | EmptyString => false
                        end
                    else false
                | EmptyString => false
                end
            else false
        | EmptyString => false
        end
  end.

(** U+00A0, the no-break space, and U+2009, the thin space. *)
Definition nbsp : string := String "194" (String "160" EmptyString).
Definition thin_space : string :=
  String "226" (String "128" (String "137" EmptyString)).

(* ===================================================================== *)
(** * Properties *)
(* ===================================================================== *)

(** ** Numbers *)

Lemma Qltb_lt (x y : Q) : Qltb x y = true <-> (x < y)%Q.
Proof.
  unfold Qltb. rewrite negb_true_iff.
  split.
  - intros H. apply Qnot_le_lt. intros Hle.
    apply Qle_bool_iff in Hle. congruence.
  - intros H. destruct (Qle_bool y x) eqn:E; [|reflexivity].
    apply Qle_bool_iff in E. exfalso. exact (Qlt_not_le _ _ H E).
Qed.

Lemma js_lt_spec (a : JsNumber) (b : Q) :
  js_lt a b = true <-> exists q, a = Finite q /\ (q < b)%Q.
Proof.
  destruct a as [q|]; simpl.
  - rewrite Qltb_lt. split; [eauto|]. intros (q' & [= <-] & H). exact H.
  - split; [discriminate|]. intros (q & [=] & _).
Qed.

(** ** The reputation engine: badges *)

Lemma has_badge_app name l1 l2 :
  has_badge name (l1 ++ l2) = has_badge name l1 || has_badge name l2.
Proof. apply existsb_app. Qed.

Lemma count_badge_app name l1 l2 :
  count_badge name (l1 ++ l2) = count_badge name l1 + count_badge name l2.
Proof. unfold count_badge. by rewrite List.filter_app, length_app. Qed.

Lemma has_badge_award_if name cond n icon now held l :
  has_badge name (award_if cond n icon now held l)
  = has_badge name l || (cond && negb (has_badge n held) && String.eqb n name).
Proof.
  unfold award_if. destruct (cond && negb (has_badge n held)); simpl.
  - rewrite has_badge_app. simpl. by rewrite orb_false_r.
  - by rewrite orb_false_r.
Qed.

Lemma count_badge_award_if name cond n icon now held l :
  count_badge name (award_if cond n icon now held l)
  = count_badge name l
    + (if cond && negb (has_badge n held) && String.eqb n name then 1 else 0).
Proof.
  unfold award_if. destruct (cond && negb (has_badge n held)); simpl.
  - rewrite count_badge_app. unfold count_badge at 2. simpl.
    by destruct (String.eqb n name).
  - lia.
Qed.

(** A badge is in the list [checkBadges] returns exactly when its condition
    holds and the volunteer does not hold it yet. *)
Lemma badgesToAward_has now v name :
  has_badge name (badgesToAward now v)
  = qualifies name (Volunteer.stats v) && negb (has_badge name (Volunteer.badges v))
    && existsb (String.eqb name) badge_names.
Proof.
  unfold badgesToAward. cbv zeta.
  rewrite !has_badge_award_if. simpl has_badge. unfold qualifies, badge_names.
  simpl existsb.
  destruct (String.eqb_spec "First Responder" name) as [<-|n1]; [simpl; btauto|].
  destruct (String.eqb_spec "10 Assists" name) as [<-|n2]; [simpl; btauto|].
  destruct (String.eqb_spec "25 Assists" name) as [<-|n3]; [simpl; btauto|].
  destruct (String.eqb_spec "50 Assists" name) as [<-|n4]; [simpl; btauto|].
  destruct (String.eqb_spec "Quick Responder" name) as [<-|n5]; [simpl; btauto|].
  rewrite !(proj2 (String.eqb_neq _ _)) by congruence. simpl.
  btauto.
Qed.

Lemma count_badge_not_held name bs :
  has_badge name bs = false -> count_badge name bs = 0.
Proof.
  unfold has_badge, count_badge. induction bs as [|b bs IH]; simpl; [done|].
  destruct (String.eqb (badge_name b) name); simpl; [discriminate|exact IH].
Qed.

(** No name occurs twice in the list [checkBadges] returns. *)
Lemma badgesToAward_count now v name :
  count_badge name (badgesToAward now v)
  = if has_badge name (badgesToAward now v) then 1 else 0.
Proof.
  unfold badgesToAward. cbv zeta.
  rewrite !has_badge_award_if, !count_badge_award_if.
  change (count_badge name []) with 0. change (has_badge name []) with false.
  destruct (String.eqb_spec "First Responder" name) as [<-|n1];
    [simpl; rewrite ?andb_true_r, ?andb_false_r, ?orb_false_r;
     by destruct (_ && negb _)|].
  destruct (String.eqb_spec "10 Assists" name) as [<-|n2];
    [simpl; rewrite ?andb_true_r, ?andb_false_r, ?orb_false_r;
     by destruct (_ && negb _)|].
  destruct (String.eqb_spec "25 Assists" name) as [<-|n3];
    [simpl; rewrite ?andb_true_r, ?andb_false_r, ?orb_false_r;
     by destruct (_ && negb _)|].
  destruct (String.eqb_spec "50 Assists" name) as [<-|n4];
    [simpl; rewrite ?andb_true_r, ?andb_false_r, ?orb_false_r;
     by destruct (_ && negb _)|].
  destruct (String.eqb_spec "Quick Responder" name) as [<-|n5];
    [simpl; rewrite ?andb_true_r, ?andb_false_r, ?orb_false_r;
     by destruct (_ && _ && negb _)|].
  by rewrite ?andb_false_r.
Qed.

Lemma award_if_noop cond n icon now held l :
  (cond = true -> has_badge n held = true) ->
  award_if cond n icon now held l = l.
Proof.
  intros H. unfold award_if. destruct cond; [|done].
  by rewrite H.
Qed.

Lemma checkBadges_awarded now v : (checkBadges now v).2 = badgesToAward now v.
Proof. unfold checkBadges. by destruct (0 <? _)%nat. Qed.

Lemma checkBadges_stats now v :
  Volunteer.stats (checkBadges now v).1 = Volunteer.stats v.
Proof. unfold checkBadges. by destruct (0 <? _)%nat. Qed.

Lemma checkBadges_badges now v :
  Volunteer.badges (checkBadges now v).1 = Volunteer.badges v ++ badgesToAward now v.
Proof.
  unfold checkBadges. destruct (badgesToAward now v) as [|b l]; simpl.
  - by rewrite app_nil_r.
  - done.
Qed.

(** After a check, a badge whose condition holds is held. *)
Lemma checked_holds now v name :
  existsb (String.eqb name) badge_names = true ->
  qualifies name (Volunteer.stats v) = true ->
  has_badge name (Volunteer.badges (checkBadges now v).1) = true.
Proof.
  intros Hn Hq. rewrite checkBadges_badges, has_badge_app, badgesToAward_has, Hn, Hq.
  by destruct (has_badge name (Volunteer.badges v)).
Qed.

(** Running the check on a checked profile awards nothing. *)
Lemma badgesToAward_checked now now' v :
  badgesToAward now' (checkBadges now v).1 = [].
Proof.
  unfold badgesToAward at 1. cbv zeta. rewrite checkBadges_stats.
  rewrite !award_if_noop; [done|..];
    intros Hc; apply checked_holds; try reflexivity; exact Hc.
Qed.

(** The five badges of [checkBadges], one by one, for a volunteer whose
    stats have just been updated: the badge is awarded by this check exactly
    when its threshold is met and it is not held yet. *)
Lemma checkBadges_awards now v :
  let s := Volunteer.stats v in
  let held := Volunteer.badges v in
  let awarded := (checkBadges now v).2 in
  has_badge "First Responder" awarded
    = (1 <=? Stats.totalResponses s)%N && negb (has_badge "First Responder" held)
  /\ has_badge "10 Assists" awarded
    = (10 <=? Stats.successfulAssists s)%N && negb (has_badge "10 Assists" held)
  /\ has_badge "25 Assists" awarded
    = (25 <=? Stats.successfulAssists s)%N && negb (has_badge "25 Assists" held)
  /\ has_badge "50 Assists" awarded
    = (50 <=? Stats.successfulAssists s)%N && negb (has_badge "50 Assists" held)
  /\ has_badge "Quick Responder" awarded
    = js_lt (Stats.avgResponseTime s) 180 && (5 <=? Stats.totalResponses s)%N
      && negb (has_badge "Quick Responder" held).
Proof.
  cbv zeta. rewrite checkBadges_awarded, !badgesToAward_has.
  unfold qualifies, badge_names. simpl.
  by rewrite !andb_true_r.
Qed.

Example quick_responder_170 :
  has_badge "Quick Responder" (checkBadges 1000 (responder_5 170)).2 = true.
Proof. reflexivity. Qed.

Example quick_responder_181 :
  has_badge "Quick Responder" (checkBadges 1000 (responder_5 181)).2 = false.
Proof. reflexivity. Qed.

(** C8 (the code departs from the claim).  [checkBadges] has no branch for
    the threshold of 100 successful assists: whatever the stats, every badge
    it awards is one of First Responder, 10 Assists, 25 Assists, 50 Assists
    and Quick Responder, and the badge that the catalogue of [getBadges]
    lists for 100 successful assists, Community Hero, is never awarded.  A
    volunteer who reaches 100 assists holding the badges of 1, 10, 25 and 50
    gets nothing from the check. *)
Theorem checkBadges_no_badge_at_100 :
  In ("Community Hero", 100%N, FSuccessfulAssists) allBadges
  /\ (forall now v b,
        In b (checkBadges now v).2 -> In (badge_name b) badge_names)
  /\ (forall now v, has_badge "Community Hero" (checkBadges now v).2 = false)
  /\ (forall now, checkBadges now (veteran 100) = (veteran 100, [])).
Proof.
  split; [simpl; tauto|].
  split.
  - intros now v b Hb. rewrite checkBadges_awarded in Hb.
    assert (H : has_badge (badge_name b) (badgesToAward now v) = true).
    { unfold has_badge. apply existsb_exists. exists b. split; [exact Hb|].
      apply String.eqb_refl. }
    rewrite badgesToAward_has in H.
    apply andb_true_iff in H as [_ H].
    apply existsb_exists in H as (n & Hn & He).
    apply String.eqb_eq in He. by subst.
  - split.
    + intros now v. rewrite checkBadges_awarded, badgesToAward_has.
      by rewrite andb_false_r.
    + intros now. reflexivity.
Qed.

(** C9.  The badge check is idempotent and the badges only grow: the badges
    held before a check are kept, in place, and the awarded ones are
    appended; a badge already held keeps its number of occurrences and a
    badge not held is added once when its threshold is met and not at all
    otherwise; a second check, whenever it runs, awards nothing and leaves
    the profile as it is; and the other updates of a profile (updateStats,
    the rating update of submitFeedback, the declined counter, the pre-save
    hook) do not touch the badges. *)
Theorem checkBadges_idempotent_monotone (now now' : Time) (v : Volunteer.t) :
  let v1 := (checkBadges now v).1 in
  let awarded := (checkBadges now v).2 in
  Volunteer.badges v1 = Volunteer.badges v ++ awarded
  /\ (forall name,
        count_badge name (Volunteer.badges v1)
        = if has_badge name (Volunteer.badges v)
          then count_badge name (Volunteer.badges v)
          else if qualifies name (Volunteer.stats v)
                  && existsb (String.eqb name) badge_names
               then 1 else 0)
  /\ checkBadges now' v1 = (v1, [])
  /\ (forall responseTime wasSuccessful rating t,
        Volunteer.badges (updateStats t responseTime wasSuccessful rating v)
        = Volunteer.badges v)
  /\ (forall r t, Volunteer.badges (add_rating t r v) = Volunteer.badges v)
  /\ Volunteer.badges (with_declined v) = Volunteer.badges v
  /\ (forall t, Volunteer.badges (Volunteer.pre_save t v) = Volunteer.badges v).
Proof.
  cbv zeta. rewrite checkBadges_awarded.
  split; [apply checkBadges_badges|].
  split.
  { intros name. rewrite checkBadges_badges, count_badge_app, badgesToAward_count.
    rewrite badgesToAward_has.
    destruct (has_badge name (Volunteer.badges v)) eqn:Hh.
    - rewrite andb_false_r. simpl. lia.
    - rewrite (count_badge_not_held _ _ Hh), andb_true_r. done. }
  split.
  { unfold checkBadges at 1. by rewrite badgesToAward_checked. }
  split.
  { intros rt ok r t. unfold updateStats.
    destruct r as [r|]; [destruct (truthy (Some r))|]; reflexivity. }
  repeat split.
Qed.

(** ** The lifecycle manager: accept *)

Lemma AlertStatus_eqb_eq a b : AlertStatus_eqb a b = true <-> a = b.
Proof. destruct a, b; simpl; split; congruence. Qed.

Lemma find_notified_Some vid l i e :
  find_notified vid l = Some (i, e) ->
  Exists (fun e => NotifiedVolunteer.volunteer e = vid) l.
Proof.
  unfold find_notified. intros H. apply list_find_Some in H as (Hl & Hp & _).
  apply Exists_exists. exists e. split; [|exact Hp].
  apply list_elem_of_lookup. eauto.
Qed.

Lemma find_notified_None vid l :
  find_notified vid l = None ->
  ~ Exists (fun e => NotifiedVolunteer.volunteer e = vid) l.
Proof.
  unfold find_notified. intros H Hex. apply list_find_None in H.
  apply Exists_exists in Hex as (e & He & Hp).
  rewrite Forall_forall in H. exact (H e He Hp).
Qed.

(** C3.  On an existing alert, accept succeeds exactly when the alert is
    active and the caller's volunteer profile is in its notified-volunteers
    list.  A success writes the alert back with status responding, the
    responding volunteer (profile, accepted-at, distance of the entry), the
    response time, which is the whole number of seconds from the creation
    to the acceptance, the first entry of the volunteer with the status
    accepted and its other fields kept, every other entry as it was, and
    one more timeline entry, and touches nothing else.  An alert that is
    not active gives the Conflict response and an active alert whose caller
    was not notified gives a Forbidden response, both with the store
    unchanged. *)
Theorem acceptAlert_outcomes (caller : ReqUser.t) (id : ObjectId) (now : Time)
    (st : Store) (alert : Alert.t) :
  alerts st !! id = Some alert ->
  let st' := (acceptAlert caller id now st).1 in
  let r := (acceptAlert caller id now st).2 in
  (is_success r <-> Alert.status alert = Active /\ was_notified caller st alert)
  /\ (Alert.status alert <> Active -> r = conflict /\ st' = st)
  /\ (Alert.status alert = Active -> ~ was_notified caller st alert ->
      is_forbidden r /\ st' = st)
  /\ (is_success r ->
      exists v i e a',
        findOne_by_user (ReqUser.id caller) (volunteers st) = Some v
        /\ find_notified (Volunteer._id v) (Alert.notifiedVolunteers alert) = Some (i, e)
        /\ Alert.notifiedVolunteers alert !! i = Some e
        /\ NotifiedVolunteer.volunteer e = Volunteer._id v
        /\ (forall j y, j < i -> Alert.notifiedVolunteers alert !! j = Some y ->
            NotifiedVolunteer.volunteer y <> Volunteer._id v)
        /\ alerts st' = <[id := a']> (alerts st)
        /\ volunteers st' = volunteers st
        /\ contacts st' = contacts st
        /\ Alert.status a' = Responding
        /\ Alert.respondingVolunteer a'
           = RespondingVolunteer.mk (Some (Volunteer._id v)) (Some now)
                                    (NotifiedVolunteer.distance e)
        /\ Alert.responseTime a'
           = Some (floor_seconds (now - Alert.createdAt alert))
        /\ Alert.responseTime a' = Some ((now - Alert.createdAt alert) / 1000)%Z
        /\ Alert.notifiedVolunteers a'
           = <[i := NotifiedVolunteer.with_status Accepted e]>
               (Alert.notifiedVolunteers alert)
        /\ Alert.notifiedVolunteers a' !! i
           = Some (NotifiedVolunteer.with_status Accepted e)
        /\ (exists e',
              Alert.notifiedVolunteers a' !! i = Some e'
              /\ NotifiedVolunteer.status e' = Accepted
              /\ NotifiedVolunteer.volunteer e' = Volunteer._id v
              /\ NotifiedVolunteer.notifiedAt e' = NotifiedVolunteer.notifiedAt e
              /\ NotifiedVolunteer.distance e' = NotifiedVolunteer.distance e)
        /\ List.length (Alert.notifiedVolunteers a')
           = List.length (Alert.notifiedVolunteers alert)
        /\ (forall j, j <> i ->
            Alert.notifiedVolunteers a' !! j = Alert.notifiedVolunteers alert !! j)
        /\ Alert.timeline a'
           = Alert.timeline alert
             ++ [TimelineEntry.mk "accepted"
                   ("Volunteer " +:+ ReqUser.name caller +:+ " accepted the alert")
                   (ReqUser.id caller) now]
        /\ Alert.user a' = Alert.user alert
        /\ Alert.location a' = Alert.location alert
        /\ Alert.resolution a' = Alert.resolution alert
        /\ Alert.notifiedContacts a' = Alert.notifiedContacts alert
        /\ Alert.createdAt a' = Alert.createdAt alert).
Proof.
  intros Hget. cbv zeta. unfold acceptAlert. rewrite Hget.
  destruct (AlertStatus_eqb (Alert.status alert) Active) eqn:Hs; simpl.
  - apply AlertStatus_eqb_eq in Hs.
    destruct (findOne_by_user (ReqUser.id caller) (volunteers st)) as [v|] eqn:Hv.
    + destruct (find_notified (Volunteer._id v) (Alert.notifiedVolunteers alert))
        as [[i e]|] eqn:Hf; simpl.
      * assert (Hn : was_notified caller st alert).
        { exists v. split; [exact Hv|]. eapply find_notified_Some, Hf. }
        split; [split; [done|intros _; unfold is_success; eauto]|].
        split; [done|]. split; [done|].
        intros _. exists v, i, e. eexists.
        pose proof Hf as Hf'. unfold find_notified in Hf'.
        apply list_find_Some in Hf' as (Hl & Hp & Hfirst).
        pose proof (lookup_lt_Some _ _ _ Hl) as Hlt.
        split; [reflexivity|]. split; [first [exact Hf|reflexivity]|].
        split; [exact Hl|].
        split; [exact Hp|].
        split; [intros j y Hj Hy; exact (Hfirst j y Hy Hj)|].
        split; [reflexivity|]. split; [reflexivity|]. split; [reflexivity|].
        split; [reflexivity|]. split; [reflexivity|]. split; [reflexivity|].
        split; [reflexivity|]. split; [reflexivity|].
        split; [cbn; by apply list_lookup_insert_eq|].
        split.
        { exists (NotifiedVolunteer.with_status Accepted e).
          split; [cbn; by apply list_lookup_insert_eq|].
          split; [reflexivity|]. split; [exact Hp|]. split; reflexivity. }
        split; [cbn; by rewrite length_insert|].
        split; [intros j Hj; cbn; by apply list_lookup_insert_ne|].
        repeat split; reflexivity.
      * assert (Hn : ~ was_notified caller st alert).
        { intros (v' & Hv' & Hex). assert (v' = v) as -> by congruence.
          exact (find_notified_None _ _ Hf Hex). }
        split; [split; [intros (m & d & [=])|tauto]|].
        split; [done|]. split; [intros _ _; split; [unfold is_forbidden; eauto|done]|].
        intros (m & d & [=]).
    + simpl.
      assert (Hn : ~ was_notified caller st alert).
      { intros (v' & Hv' & _). congruence. }
      split; [split; [intros (m & d & [=])|tauto]|].
      split; [done|]. split; [intros _ _; split; [unfold is_forbidden; eauto|done]|].
      intros (m & d & [=]).
  - assert (Hne : Alert.status alert <> Active).
    { intros E. apply AlertStatus_eqb_eq in E. congruence. }
    split; [split; [intros (m & d & [=])|tauto]|].
    split; [done|]. split; [done|].
    intros (m & d & [=]).
Qed.

(** Alice's alert of instant 1000 is active, Bob and Carol are notified:
    Bob accepts at instant 61000.  The alert is responding, the response
    time is 60 seconds and Bob's entry, the first one, is accepted. *)
Lemma acceptAlert_outcomes_witness :
  is_success (acceptAlert bob 100 61000 (scenario Active)).2
  /\ exists a',
       alerts (acceptAlert bob 100 61000 (scenario Active)).1
       = <[100%N := a']> (alerts (scenario Active))
       /\ Alert.status a' = Responding
       /\ Alert.responseTime a' = Some 60%Z
       /\ exists e',
            Alert.notifiedVolunteers a' !! 0 = Some e'
            /\ NotifiedVolunteer.status e' = Accepted.
Proof.
  destruct (acceptAlert_outcomes bob 100 61000 (scenario Active)
              (alert_of_alice Active) eq_refl) as (H & _ & _ & Hs).
  assert (Hok : is_success (acceptAlert bob 100 61000 (scenario Active)).2).
  { apply H. split; [reflexivity|].
    exists bob_profile. split; [reflexivity|].
    apply Exists_cons_hd. reflexivity. }
  split; [exact Hok|].
  destruct (Hs Hok)
    as (v & i & e & a' & Hv & Hf & _ & _ & _ & Ha & _ & _ & Hst & _ & _ & Hrt
        & _ & _ & He & _).
  change (Some bob_profile = Some v) in Hv.
  injection Hv as <-.
  change (Some (0, NotifiedVolunteer.mk 20 1000 (Some 120%Z) Notified)
          = Some (i, e)) in Hf.
  injection Hf as <- <-.
  exists a'. split; [exact Ha|]. split; [exact Hst|]. split; [exact Hrt|].
  destruct He as (e' & He' & Hacc & _). exists e'. split; [exact He'|exact Hacc].
Defined.

(** ** The lifecycle manager: terminal states *)

Lemma alerts_run_checkBadges now v st :
  alerts (run_checkBadges now v st) = alerts st.
Proof.
  unfold run_checkBadges. destruct (checkBadges now v) as [v' l].
  by destruct (0 <? _)%nat.
Qed.

Lemma lookup_save_alert now id a st :
  alerts (save_alert now id a st) !! id = Some (Alert.pre_save now a).
Proof. unfold save_alert. simpl. apply lookup_insert_eq. Qed.

(** The claim as stated fails: the owner resolves a cancelled alert and the
    status becomes resolved. *)
Lemma resolve_exits_cancelled :
  Alert.status <$> alerts (scenario Cancelled) !! 100%N = Some Cancelled
  /\ Alert.status <$>
       alerts (apply_op (OpResolve None None None) alice 100 90000
                        (scenario Cancelled)).1 !! 100%N
     = Some Resolved.
Proof. split; vm_compute; reflexivity. Qed.

(** C2, amended.  Once the status of an alert is resolved, cancelled or
    expired, every lifecycle operation (accept, cancel, resolve,
    update-live-location), by any caller, leaves the alert in place with a
    status that is again resolved, cancelled or expired: pending, active and
    responding are never re-entered.  Accept leaves the whole store
    unchanged, update-live-location leaves the status unchanged, cancel
    leaves the store unchanged when the status is resolved or cancelled,
    and resolve, which has no precondition on the status, sets it to
    resolved when the caller may resolve and leaves the store unchanged
    otherwise. *)
Theorem terminal_states_closed (op : LifecycleOp) (caller : ReqUser.t)
    (id : ObjectId) (now : Time) (st : Store) (a : Alert.t) :
  alerts st !! id = Some a ->
  is_terminal (Alert.status a) = true ->
  let st' := (apply_op op caller id now st).1 in
  exists a',
    alerts st' !! id = Some a'
    /\ is_terminal (Alert.status a') = true
    /\ match op with
       | OpAccept => st' = st
       | OpUpdateLocation _ _ => Alert.status a' = Alert.status a
       | OpCancel => Alert.status a <> Expired -> st' = st
       | OpResolve _ _ _ =>
           if may_resolve caller st a then Alert.status a' = Resolved
           else st' = st
       end.
Proof.
  intros Hget Ht. cbv zeta. destruct op as [| |notes rating feedback|la lo]; simpl.
  - (* accept *)
    unfold acceptAlert. rewrite Hget.
    replace (AlertStatus_eqb (Alert.status a) Active) with false
      by (by destruct (Alert.status a)).
    simpl. eauto.
  - (* cancel *)
    unfold cancelAlert. rewrite Hget.
    destruct (Alert.user a =? ReqUser.id caller)%N; simpl; [|eauto].
    destruct (Alert.status a) eqn:Hs; try discriminate; simpl;
      try (exists a; rewrite Hs; by auto).
    set (a' := push_timeline _ _ _ _ _).
    exists (Alert.pre_save now a').
    split; [|split; [reflexivity|congruence]].
    destruct (RespondingVolunteer.volunteer _);
      [destruct (Volunteer_findById _ _)|]; apply lookup_save_alert.
  - (* resolve *)
    unfold resolveAlert, may_resolve. rewrite Hget.
    set (own := (Alert.user a =? ReqUser.id caller)%N).
    set (rv := match findOne_by_user _ _ with Some _ => _ | None => _ end).
    set (adm := Role_eqb _ _).
    destruct own, rv, adm; simpl; eauto;
      (eexists; split;
       [ destruct (findOne_by_user _ _);
         rewrite ?alerts_run_checkBadges; apply lookup_save_alert
       | split; reflexivity ]).
  - (* update-live-location *)
    unfold updateAlertLocation. rewrite Hget.
    destruct (Alert.user a =? ReqUser.id caller)%N; simpl; [|eauto].
    destruct (Alert.status a) eqn:Hs; try discriminate; simpl;
      try (exists a; rewrite Hs; by auto).
    eexists. split; [apply lookup_save_alert|]. simpl. by rewrite Hs.
Qed.

Lemma terminal_states_closed_witness :
  exists a',
    alerts (apply_op OpCancel alice 100 90000 (scenario Expired)).1 !! 100%N = Some a'
    /\ is_terminal (Alert.status a') = true.
Proof.
  destruct (terminal_states_closed OpCancel alice 100 90000 (scenario Expired)
              (alert_of_alice Expired) eq_refl eq_refl) as (a' & H1 & H2 & _).
  exists a'. split; [exact H1|exact H2].
Defined.

(** ** The reputation engine: ratings *)

Lemma findById_save_list v vs :
  (exists w, In w vs /\ Volunteer._id w = Volunteer._id v) ->
  Volunteer_findById (Volunteer._id v)
    (List.map (fun w => if (Volunteer._id w =? Volunteer._id v)%N then v else w) vs)
  = Some v.
Proof.
  unfold Volunteer_findById.
  induction vs as [|x vs IH]; intros (w & Hin & Hid); [destruct Hin|].
  simpl. destruct (Volunteer._id x =? Volunteer._id v)%N eqn:E.
  - by rewrite N.eqb_refl.
  - rewrite E. apply IH. destruct Hin as [->|Hin]; [|eauto].
    apply N.eqb_neq in E. congruence.
Qed.

Lemma findById_save v st :
  (exists w, In w (volunteers st) /\ Volunteer._id w = Volunteer._id v) ->
  Volunteer_findById (Volunteer._id v) (volunteers (save_volunteer v st)) = Some v.
Proof. apply findById_save_list. Qed.

Lemma findById_In vid vs w :
  Volunteer_findById vid vs = Some w -> In w vs /\ Volunteer._id w = vid.
Proof.
  unfold Volunteer_findById. intros H. apply find_some in H as [Hin E].
  split; [exact Hin|]. by apply N.eqb_eq.
Qed.

Lemma findOne_In uid vs v :
  findOne_by_user uid vs = Some v -> In v vs /\ Volunteer.user v = uid.
Proof.
  unfold findOne_by_user. intros H. apply find_some in H as [Hin E].
  split; [exact Hin|]. by apply N.eqb_eq.
Qed.

Lemma checkBadges_id now v : Volunteer._id (checkBadges now v).1 = Volunteer._id v.
Proof. unfold checkBadges. by destruct (0 <? _)%nat. Qed.

(** The badge check after a save leaves the stats of the stored profile. *)
Lemma findById_run_checkBadges now v st :
  Volunteer_findById (Volunteer._id v) (volunteers st) = Some v ->
  exists w,
    Volunteer_findById (Volunteer._id v) (volunteers (run_checkBadges now v st)) = Some w
    /\ Volunteer.stats w = Volunteer.stats v
    /\ Volunteer._id w = Volunteer._id v.
Proof.
  intros H. unfold run_checkBadges.
  pose proof (checkBadges_id now v) as Hid.
  pose proof (checkBadges_stats now v) as Hst.
  destruct (checkBadges now v) as [v' l]. simpl in Hid, Hst.
  destruct (0 <? List.length l)%nat.
  - exists v'. split; [|done]. rewrite <- Hid. apply findById_save.
    apply findById_In in H as [Hin _]. exists v. by rewrite Hid.
  - exists v. done.
Qed.

Lemma N2Q_succ n : (N2Q (n + 1) == N2Q n + 1)%Q.
Proof. unfold N2Q. rewrite N2Z.inj_add, inject_Z_plus. reflexivity. Qed.

Lemma N2Q_nonneg n : (0 <= N2Q n)%Q.
Proof.
  unfold N2Q. change 0%Q with (inject_Z 0). rewrite <- Zle_Qle. lia.
Qed.

Lemma in_1_5 (r : Q) :
  (1 <= r)%Q -> (r <= 5)%Q -> truthy (Some r) = true /\ out_of_1_5 r = false.
Proof.
  intros H1 H5. split.
  - simpl. apply negb_true_iff. destruct (Qeq_bool r 0) eqn:E; [|done].
    apply Qeq_bool_iff in E. rewrite E in H1. by apply Qle_bool_iff in H1.
  - unfold out_of_1_5. apply orb_false_iff. split.
    + destruct (Qltb r 1) eqn:E; [|done]. apply Qltb_lt in E.
      exfalso. exact (Qlt_not_le _ _ E H1).
    + destruct (Qltb 5 r) eqn:E; [|done]. apply Qltb_lt in E.
      exfalso. exact (Qlt_not_le _ _ E H5).
Qed.

(** Two samples in a running average of [n] earlier ones. *)
Lemma two_samples (R r1 r2 : Q) (n : N) :
  (((R * N2Q n + r1) / N2Q (n + 1) * N2Q (n + 1) + r2) / N2Q (n + 1 + 1)
   == (R * N2Q n + r1 + r2) / N2Q (n + 2))%Q.
Proof.
  replace (n + 1 + 1)%N with (n + 2)%N by lia.
  assert (H : ~ (N2Q (n + 1) == 0)%Q).
  { rewrite N2Q_succ. pose proof (N2Q_nonneg n) as Hn. intros E.
    assert (Hlt : (0 < N2Q n + 1)%Q).
    { apply Qlt_le_trans with (y := (0 + 1)%Q); [reflexivity|].
      apply Qplus_le_l. exact Hn. }
    rewrite E in Hlt. exact (Qlt_irrefl _ Hlt). }
  rewrite (Qmult_comm (_ / _)), Qmult_div_r by exact H. reflexivity.
Qed.

Lemma resolveAlert_by_responder (c1 : ReqUser.t) (id : ObjectId) notes rating fb
    (now : Time) (st : Store) (a : Alert.t) (v : Volunteer.t) :
  alerts st !! id = Some a ->
  findOne_by_user (ReqUser.id c1) (volunteers st) = Some v ->
  RespondingVolunteer.volunteer (Alert.respondingVolunteer a) = Some (Volunteer._id v) ->
  let res := resolveAlert c1 id notes rating fb now st in
  res.2 = Json 200 true "Alert resolved successfully" NoData
  /\ (exists a1,
        alerts res.1 !! id = Some a1
        /\ Alert.user a1 = Alert.user a
        /\ Alert.status a1 = Resolved
        /\ Alert.respondingVolunteer a1 = Alert.respondingVolunteer a
        /\ Resolution.rating (Alert.resolution a1) = rating)
  /\ (exists w,
        Volunteer_findById (Volunteer._id v) (volunteers res.1) = Some w
        /\ Volunteer.stats w
           = Volunteer.stats (updateStats now (Alert.responseTime a) true rating v)).
Proof.
  intros Hget Hv Hrv. cbv zeta. unfold resolveAlert.
  rewrite Hget, Hv, Hrv, N.eqb_refl, andb_false_r. cbn [negb andb].
  set (a1 := push_timeline _ _ _ _ _).
  set (v1 := updateStats _ _ _ _ _).
  set (st1 := save_volunteer v1 _).
  assert (Hid : Volunteer._id v1 = Volunteer._id v).
  { unfold v1, updateStats. destruct rating as [r|];
      [destruct (truthy (Some r))|]; reflexivity. }
  assert (H1 : Volunteer_findById (Volunteer._id v1) (volunteers st1) = Some v1).
  { apply findById_save. exists v. split; [|done].
    simpl. by apply findOne_In in Hv as [Hin _]. }
  destruct (findById_run_checkBadges now v1 st1 H1) as (w & Hw & Hst & _).
  split; [reflexivity|]. split.
  - exists (Alert.pre_save now a1). split; [|done].
    cbn [fst]. rewrite alerts_run_checkBadges. apply lookup_save_alert.
  - exists w. rewrite <- Hid. cbn [fst]. split; [exact Hw|].
    rewrite Hst. unfold v1, a1, calculateTotalDuration. reflexivity.
Qed.

Lemma submitFeedback_rated (c2 : ReqUser.t) (id : ObjectId) (r : Q) fb
    (now : Time) (st : Store) (a : Alert.t) (vid : ObjectId) (w : Volunteer.t) :
  alerts st !! id = Some a ->
  Alert.user a = ReqUser.id c2 ->
  Alert.status a = Resolved ->
  RespondingVolunteer.volunteer (Alert.respondingVolunteer a) = Some vid ->
  Volunteer_findById vid (volunteers st) = Some w ->
  (1 <= r)%Q -> (r <= 5)%Q ->
  let res := submitFeedback c2 id (Some r) fb now st in
  res.2 = Json 200 true "Thank you for your feedback!" NoData
  /\ (exists a2,
        alerts res.1 !! id = Some a2
        /\ Resolution.rating (Alert.resolution a2) = Some r)
  /\ (exists w',
        Volunteer_findById vid (volunteers res.1) = Some w'
        /\ Volunteer.stats w' = Volunteer.stats (add_rating now r w)).
Proof.
  intros Hget Hu Hs Hrv Hw H1 H5. cbv zeta. unfold submitFeedback.
  destruct (in_1_5 r H1 H5) as [Ht Ho].
  rewrite Hget, Hu, N.eqb_refl, Hs, Ht, Ho. cbn [negb orb AlertStatus_eqb].
  cbn [Alert.respondingVolunteer Alert.with_resolution]. rewrite Hrv.
  cbn [volunteers save_alert with_alerts]. rewrite Hw.
  set (w2 := add_rating now r w).
  set (st1 := save_volunteer w2 _).
  destruct (findById_In _ _ _ Hw) as [Hin Hid].
  assert (Hid2 : Volunteer._id w2 = vid) by (rewrite <- Hid; reflexivity).
  assert (Hf : Volunteer_findById (Volunteer._id w2) (volunteers st1) = Some w2).
  { apply findById_save. exists w. split; [exact Hin|congruence]. }
  destruct (findById_run_checkBadges now w2 st1 Hf) as (w' & Hw' & Hst & _).
  split; [reflexivity|]. split.
  - eexists. cbn [fst].
    split; [rewrite alerts_run_checkBadges; apply lookup_save_alert|].
    reflexivity.
  - exists w'. rewrite <- Hid2. cbn [fst]. done.
Qed.

(** C10.  When the responding volunteer resolves an alert with a rating and
    the owner then submits feedback with a rating on the same alert, both
    requests succeed, the alert keeps the feedback rating only, and the
    profile of the volunteer has its rating count incremented twice and a
    running average that contains both ratings as two samples.
    submitFeedback rejects a request without a rating, while resolveAlert
    accepts one. *)
Theorem rating_counted_twice (c1 c2 : ReqUser.t) (id : ObjectId)
    notes fb1 fb2 (r1 r2 : Q) (now1 now2 : Time)
    (st : Store) (a : Alert.t) (v : Volunteer.t) :
  alerts st !! id = Some a ->
  findOne_by_user (ReqUser.id c1) (volunteers st) = Some v ->
  RespondingVolunteer.volunteer (Alert.respondingVolunteer a) = Some (Volunteer._id v) ->
  Alert.user a = ReqUser.id c2 ->
  truthy (Some r1) = true ->
  (1 <= r2)%Q -> (r2 <= 5)%Q ->
  let res1 := resolveAlert c1 id notes (Some r1) fb1 now1 st in
  let res2 := submitFeedback c2 id (Some r2) fb2 now2 res1.1 in
  let n := Stats.totalRatings (Volunteer.stats v) in
  res1.2 = Json 200 true "Alert resolved successfully" NoData
  /\ res2.2 = Json 200 true "Thank you for your feedback!" NoData
  /\ (exists a2,
        alerts res2.1 !! id = Some a2
        /\ Resolution.rating (Alert.resolution a2) = Some r2)
  /\ (exists w,
        Volunteer_findById (Volunteer._id v) (volunteers res2.1) = Some w
        /\ Stats.totalRatings (Volunteer.stats w) = (n + 2)%N
        /\ (Stats.rating (Volunteer.stats w)
            == (Stats.rating (Volunteer.stats v) * N2Q n + r1 + r2) / N2Q (n + 2))%Q)
  /\ submitFeedback c2 id None fb2 now2 res1.1
     = (res1.1, Json 400 false "Rating must be between 1 and 5" NoData)
  /\ (resolveAlert c1 id notes None fb1 now1 st).2
     = Json 200 true "Alert resolved successfully" NoData.
Proof.
  intros Hget Hv Hrv Hu Ht1 H1 H5. cbv zeta.
  destruct (resolveAlert_by_responder c1 id notes (Some r1) fb1 now1 st a v
              Hget Hv Hrv) as (Hr1 & (a1 & Ha1 & Hu1 & Hs1 & Hrv1 & _) & (w1 & Hw1 & Hst1)).
  rewrite <- Hrv1 in Hrv. rewrite Hu in Hu1.
  destruct (submitFeedback_rated c2 id r2 fb2 now2 _ a1 _ w1
              Ha1 Hu1 Hs1 Hrv Hw1 H1 H5) as (Hr2 & Ha2 & (w2 & Hw2 & Hst2)).
  split; [exact Hr1|]. split; [exact Hr2|]. split; [exact Ha2|].
  split.
  - exists w2. split; [exact Hw2|].
    rewrite Hst2. unfold add_rating. cbn [Volunteer.stats Volunteer.pre_save
      Volunteer.with_stats Stats.totalRatings Stats.rating].
    rewrite Hst1. unfold updateStats. rewrite Ht1.
    cbn [Volunteer.stats Volunteer.pre_save Volunteer.with_stats
         Stats.totalRatings Stats.rating].
    split; [lia|]. apply two_samples.
  - split.
    + unfold submitFeedback. rewrite Ha1, Hu1, N.eqb_refl, Hs1. reflexivity.
    + rewrite Hrv1 in Hrv.
      by destruct (resolveAlert_by_responder c1 id notes None fb1 now1 st a v
                     Hget Hv Hrv) as (Hr & _).
Qed.

Lemma rating_counted_twice_witness :
  exists w,
    Volunteer_findById 20
      (volunteers
         (submitFeedback alice 100 (Some 5%Q) None 200000
            (resolveAlert bob 100 None (Some 4%Q) None 100000 accepted_store).1).1)
    = Some w
    /\ Stats.totalRatings (Volunteer.stats w) = 2%N.
Proof.
  assert (H1 : (1 <= 5)%Q) by (unfold Qle; simpl; lia).
  assert (H5 : (5 <= 5)%Q) by (unfold Qle; simpl; lia).
  destruct (rating_counted_twice bob alice 100 None None None 4%Q 5%Q
              100000 200000 accepted_store accepted_alert bob_profile
              eq_refl eq_refl eq_refl eq_refl eq_refl H1 H5)
    as (_ & _ & _ & (w & Hw & Hn & _) & _).
  exists w. split; [exact Hw|exact Hn].
Defined.

(** ** The expiry sweeper *)

Lemma cleanupAlerts_NoFault now w :
  exists lines,
    cleanupAlerts NoFault now w
    = (mkWorld (with_alerts (swept now (alerts (db w))) (db w)) (console w ++ lines),
       inr tt).
Proof.
  unfold cleanupAlerts, try_catch, bind, Alert_updateMany_expired,
    Alert_deleteMany_older, when, log, ret, swept, seven_days, one_day.
  cbn [db console alerts with_alerts volunteers contacts].
  destruct (0 <? size (filter _ (alerts (db w))))%nat;
    cbn [db console alerts with_alerts volunteers contacts];
    destruct (0 <? size (filter _ (_ <$> alerts (db w))))%nat;
    cbn [db console alerts with_alerts volunteers contacts];
    eexists; rewrite <- ?app_assoc;
    first [reflexivity | by rewrite app_nil_r at 1].
Qed.

Lemma swept_lookup now m id :
  swept now m !! id
  = match m !! id with
    | Some a =>
        if decide (Alert.createdAt a < now - seven_days)%Z then None
        else if stale (now - one_day) a then Some (Alert.with_status Expired a)
        else Some a
    | None => None
    end.
Proof.
  unfold swept. rewrite map_lookup_filter, lookup_fmap.
  destruct (m !! id) as [a|]; simpl; [|done].
  destruct (stale (now - one_day) a); simpl;
    destruct (decide (Alert.createdAt a < now - seven_days)%Z);
    by rewrite ?option_guard_True, ?option_guard_False by (simpl; tauto).
Qed.



(** ** The notification dispatcher *)

Lemma notify_fold env message cs rs es :
  fold_left (notificationService.notify_one env message) cs (rs, es)
  = (rs ++ List.map (fun c => notificationService.mkResult
                                (EmergencyContact._id c) Sms
                                (sms_outcome env message c)) cs,
     es ++ flat_map (sms_effects env message) cs).
Proof.
  revert rs es. induction cs as [|c cs IH]; intros rs es; simpl.
  - by rewrite !app_nil_r.
  - unfold sms_outcome at 1. unfold sms_effects at 1.
    destruct (notificationService.sendSMS env (EmergencyContact.phone c) message)
      as [[[|]|] done];
      rewrite IH; cbn [fst snd]; by rewrite <- !app_assoc.
Qed.

Lemma notifyEmergencyContacts_eq env cs user alert :
  let message := notificationService.smsMessage env (ReqUser.name user)
                   (Location.coordinates (Alert.location alert)) in
  notificationService.notifyEmergencyContacts env cs user alert
  = (List.map (fun c => notificationService.mkResult
                          (EmergencyContact._id c) Sms
                          (sms_outcome env message c)) cs,
     flat_map (sms_effects env message) cs).
Proof. cbv zeta. unfold notificationService.notifyEmergencyContacts. apply notify_fold. Qed.

(** Every effect of [sendSMS] is one SMS to the cleaned number, stubbed or
    posted; it is never a call. *)
Lemma sendSMS_effect env apiKey to message :
  config_sms env = Some apiKey ->
  (notificationService.sendSMS env to message).2
  = [if notificationService.no_key apiKey
     then SmsStub (notificationService.cleanPhone to) message
     else SmsRequest (notificationService.cleanPhone to) message].
Proof.
  intros H. unfold notificationService.sendSMS. rewrite H.
  destruct (notificationService.no_key _); [done|].
  by destruct (fast2sms env _ _).
Qed.

(** Without an [sms] section in the configuration [sendSMS] throws before
    doing anything: nothing is sent and the outcome is [failed]. *)
Lemma sendSMS_no_section env to message :
  config_sms env = None ->
  notificationService.sendSMS env to message = (None, []).
Proof. intros H. unfold notificationService.sendSMS. by rewrite H. Qed.

(** What createAlert does on a request that passes its checks. *)
Lemma createAlert_created env caller body now st la lo ty :
  CreateBody.latitude body = Some la ->
  CreateBody.longitude body = Some lo ->
  truthy (Some la) = true ->
  truthy (Some lo) = true ->
  parse_AlertType (type_or_sos (CreateBody.type body)) = Some ty ->
  let cs := active_contacts (ReqUser.id caller) (contacts st) in
  let message := notificationService.smsMessage env (ReqUser.name caller)
                                                (mkPoint lo la) in
  createAlert env caller body now st
  = (with_alerts (<[new_ObjectId env :=
                      Alert.pre_save now (created_alert env caller body la lo ty now st)]>
                    (alerts st)) st,
     Json 201 true "Emergency alert created successfully"
          (CreatedData (new_ObjectId env)
             (List.length (nearbyVolunteers env (mkPoint lo la) (volunteers st)))
             (List.length cs)),
     flat_map (sms_effects env message) cs).
Proof.
  intros Hla Hlo Tla Tlo Hty. cbv zeta. unfold createAlert, created_alert.
  rewrite Hla, Hlo, Tla, Tlo, Hty. cbn [negb orb].
  unfold save_alert, with_alerts.
  cbn [volunteers contacts alerts].
  rewrite notifyEmergencyContacts_eq.
  cbn [Alert.location Alert.with_notifiedVolunteers Location.coordinates].
  set (cs := active_contacts _ _).
  set (message := notificationService.smsMessage _ _ _).
  assert (Hvalid : forall l : list EmergencyContact.t,
    forallb (fun c => in_contact_status_enum (NotifiedContact.status c))
      (List.map (fun c => NotifiedContact.mk (EmergencyContact._id c) now Sms
                            (sms_outcome env message c)) l) = true).
  { induction l as [|c l IH]; simpl; [done|]. rewrite IH.
    unfold sms_outcome. by destruct (notificationService.sendSMS _ _ _).1 as [[|]|]. }
  destruct cs as [|c cs'] eqn:Ecs.
  - cbn. by rewrite insert_insert_eq.
  - cbn [List.length Nat.ltb Nat.leb List.map].
    unfold Alert.validate. cbn [Alert.notifiedContacts Alert.with_notifiedContacts].
    rewrite List.map_map. cbn [notificationService.contactId
      notificationService.method notificationService.status].
    pose proof (Hvalid (c :: cs')) as Hv. cbn [List.map] in Hv. rewrite Hv.

    by rewrite insert_insert_eq.
Qed.

(** *** Emergency contacts (C4) *)

Lemma append_assoc (a b c : string) : (a +:+ b) +:+ c = a +:+ (b +:+ c).
Proof.
  induction a as [|x a IH]; [done|].
  change (String x ((a +:+ b) +:+ c) = String x (a +:+ b +:+ c)). by f_equal.
Qed.

Lemma smsMessage_link env userName p :
  ends_with (notificationService.locationLink env p)
            (notificationService.smsMessage env userName p).
Proof.
  unfold notificationService.smsMessage.
  exists ("EMERGENCY! " +:+ userName
          +:+ " triggered SOS on SafeHer and needs help. " +:+ "Location: ").
  by rewrite !append_assoc.
Qed.

(** Alice has a primary contact, and creating an alert sends two text
    messages and places no call; the notified-contacts list has no entry
    for a call.  With the configuration file of the sources, which lacks
    the [sms] section, no call is placed either (and no text message is
    sent). *)
Lemma no_call_to_primary :
  EmergencyContact.isPrimary mum = true
  /\ (createAlert demo_env alice sos_body 5000 demo_store).2
     = [SmsStub "9876543210"
          "EMERGENCY! Alice triggered SOS on SafeHer and needs help. Location: https://www.google.com/maps?q=12.9716,77.5946";
        SmsStub "9876543211"
          "EMERGENCY! Alice triggered SOS on SafeHer and needs help. Location: https://www.google.com/maps?q=12.9716,77.5946"]
  /\ Alert.notifiedContacts
       <$> alerts (createAlert demo_env alice sos_body 5000 demo_store).1.1 !! 100%N
     = Some [NotifiedContact.mk 51 5000 Sms CSent;
             NotifiedContact.mk 52 5000 Sms CSent]
  /\ (createAlert bare_env alice sos_body 5000 demo_store).2 = []
  /\ Alert.notifiedContacts
       <$> alerts (createAlert bare_env alice sos_body 5000 demo_store).1.1 !! 100%N
     = Some [NotifiedContact.mk 51 5000 Sms CFailed;
             NotifiedContact.mk 52 5000 Sms CFailed].
Proof. repeat split; vm_compute; reflexivity. Qed.

(** C4 (the code departs from the claim: no call is placed).  When
    createAlert accepts a request, the dispatcher makes one attempt per
    active emergency contact of the caller, in order, and each attempt is a
    text message; no voice call is ever placed, neither to the contact
    flagged primary nor to any other, although the claim asks for one to
    the primary contact.  Without an [sms] section in the configuration
    (the configuration file of the repository has none) nothing is sent and
    every entry is tagged failed.  With such a section exactly one text
    message goes to the cleaned number of each active contact, and the
    message ends with the link to the location of the alert; the entry is
    tagged sent when no key is configured (the stub) or when the provider
    answers [return: true], and failed otherwise.  The notified-contacts
    list saved on the alert has one entry per active contact, by SMS: the
    outcome of a contact depends on the send to this contact only, and a
    failure does not stop the attempts for the others. *)
Theorem createAlert_notifies_contacts env caller body now st la lo ty :
  CreateBody.latitude body = Some la ->
  CreateBody.longitude body = Some lo ->
  truthy (Some la) = true ->
  truthy (Some lo) = true ->
  parse_AlertType (type_or_sos (CreateBody.type body)) = Some ty ->
  let cs := active_contacts (ReqUser.id caller) (contacts st) in
  let message := notificationService.smsMessage env (ReqUser.name caller)
                                                (mkPoint lo la) in
  let res := createAlert env caller body now st in
  (forall c, In c cs <->
             In c (contacts st) /\ EmergencyContact.user c = ReqUser.id caller
             /\ EmergencyContact.isActive c = true)
  /\ (forall to m, ~ In (CallRequest to m) res.2 /\ ~ In (CallStub to m) res.2)
  /\ res.2
     = match config_sms env with
       | None => []
       | Some apiKey =>
           List.map (fun c =>
             if notificationService.no_key apiKey
             then SmsStub (notificationService.cleanPhone (EmergencyContact.phone c))
                          message
             else SmsRequest (notificationService.cleanPhone (EmergencyContact.phone c))
                             message)
             cs
       end
  /\ ends_with (notificationService.locationLink env (mkPoint lo la)) message
  /\ exists a,
       alerts res.1.1 !! new_ObjectId env = Some a
       /\ List.map (fun n => (NotifiedContact.contact n, NotifiedContact.notifiedAt n,
                              NotifiedContact.method n, NotifiedContact.status n))
                   (Alert.notifiedContacts a)
          = List.map (fun c =>
              (EmergencyContact._id c, now, Sms,
               match config_sms env with
               | None => CFailed
               | Some apiKey =>
                   if notificationService.no_key apiKey then CSent
                   else match fast2sms env
                                (notificationService.cleanPhone (EmergencyContact.phone c))
                                message with
                        | ReturnTrue _ => CSent
                        | _ => CFailed
                        end
               end)) cs
       /\ Forall (fun n => NotifiedContact.method n = Sms
                           /\ (NotifiedContact.status n = CSent
                               \/ NotifiedContact.status n = CFailed))
                 (Alert.notifiedContacts a).
Proof.
  intros Hla Hlo Tla Tlo Hty. cbv zeta.
  rewrite (createAlert_created env caller body now st la lo ty Hla Hlo Tla Tlo Hty).
  cbn [fst snd alerts with_alerts].
  set (cs := active_contacts _ _). set (message := notificationService.smsMessage _ _ _).
  assert (Heff : flat_map (sms_effects env message) cs
    = match config_sms env with
      | None => []
      | Some apiKey =>
          List.map (fun c =>
            if notificationService.no_key apiKey
            then SmsStub (notificationService.cleanPhone (EmergencyContact.phone c))
                         message
            else SmsRequest (notificationService.cleanPhone (EmergencyContact.phone c))
                            message)
            cs
      end).
  { destruct (config_sms env) as [apiKey|] eqn:Hsms.
    - clear -Hsms. induction cs as [|c cs IH]; simpl; [done|].
      rewrite IH. unfold sms_effects at 1. by rewrite (sendSMS_effect env apiKey).
    - clear -Hsms. induction cs as [|c cs IH]; simpl; [done|].
      rewrite IH. unfold sms_effects at 1. by rewrite sendSMS_no_section. }
  split.
  { intros c. unfold cs, active_contacts. rewrite List.filter_In, andb_true_iff, N.eqb_eq.
    tauto. }
  split.
  { rewrite Heff. intros to m.
    destruct (config_sms env) as [apiKey|]; [|split; intros []].
    split; intros He; apply List.in_map_iff in He as (c & He & _);
      by destruct (notificationService.no_key _). }
  split; [exact Heff|].
  split; [apply smsMessage_link|].
  eexists. split; [apply lookup_insert_eq|].
  cbn [Alert.notifiedContacts Alert.pre_save created_alert].
  fold cs. fold message.
  split.
  { rewrite List.map_map. apply List.map_ext. intros c.
    cbn [NotifiedContact.contact NotifiedContact.notifiedAt NotifiedContact.method
         NotifiedContact.status].
    do 3 f_equal. unfold sms_outcome, notificationService.sendSMS.
    destruct (config_sms env) as [apiKey|]; [|done].
    destruct (notificationService.no_key _); [done|].
    by destruct (fast2sms env _ _). }
  apply List.Forall_forall. intros n Hn.
  apply List.in_map_iff in Hn as (c & <- & _). simpl.
  unfold sms_outcome. destruct (notificationService.sendSMS _ _ _).1 as [[|]|]; auto.
Qed.

(** Without the [sms] section nothing is sent at all and every contact is
    recorded as failed. *)
Lemma createAlert_without_sms_section env caller body now st la lo ty :
  config_sms env = None ->
  CreateBody.latitude body = Some la ->
  CreateBody.longitude body = Some lo ->
  truthy (Some la) = true ->
  truthy (Some lo) = true ->
  parse_AlertType (type_or_sos (CreateBody.type body)) = Some ty ->
  let res := createAlert env caller body now st in
  res.2 = []
  /\ exists a,
       alerts res.1.1 !! new_ObjectId env = Some a
       /\ Alert.notifiedContacts a
          = List.map (fun c => NotifiedContact.mk (EmergencyContact._id c) now Sms CFailed)
                     (active_contacts (ReqUser.id caller) (contacts st)).
Proof.
  intros Hsms Hla Hlo Tla Tlo Hty. cbv zeta.
  rewrite (createAlert_created env caller body now st la lo ty Hla Hlo Tla Tlo Hty).
  cbn [fst snd alerts with_alerts]. split.
  - induction (active_contacts _ _) as [|c cs IH]; [done|].
    cbn [flat_map]. rewrite IH. unfold sms_effects.
    by rewrite sendSMS_no_section.
  - eexists. split; [apply lookup_insert_eq|].
    cbn [Alert.notifiedContacts Alert.pre_save created_alert].
    apply List.map_ext. intros c. unfold sms_outcome.
    by rewrite sendSMS_no_section.
Qed.

Lemma createAlert_notifies_contacts_witness :
  EmergencyContact.isPrimary mum = true
  /\ In mum (active_contacts (ReqUser.id alice) (contacts demo_store))
  /\ (forall to m,
        ~ In (CallRequest to m) (createAlert bare_env alice sos_body 5000 demo_store).2
        /\ ~ In (CallStub to m) (createAlert bare_env alice sos_body 5000 demo_store).2)
  /\ (createAlert bare_env alice sos_body 5000 demo_store).2 = []
  /\ exists a,
       alerts (createAlert bare_env alice sos_body 5000 demo_store).1.1 !! 100%N
       = Some a
       /\ List.map (fun n => (NotifiedContact.contact n, NotifiedContact.notifiedAt n,
                              NotifiedContact.method n, NotifiedContact.status n))
                   (Alert.notifiedContacts a)
          = [(51%N, 5000%Z, Sms, CFailed); (52%N, 5000%Z, Sms, CFailed)].
Proof.
  destruct (createAlert_notifies_contacts bare_env alice sos_body 5000
              demo_store (129716 # 10000)%Q (775946 # 10000)%Q Sos
              eq_refl eq_refl eq_refl eq_refl eq_refl)
    as (_ & Hcall & Heff & _ & a & Ha & Hn & _).
  split; [reflexivity|].
  split; [left; reflexivity|].
  split; [exact Hcall|].
  split; [exact Heff|].
  exists a. split; [exact Ha|exact Hn].
Defined.

Lemma twilio_fold c sms call cs rs es :
  List.map notificationService.contactId
    (List.filter is_call_result
       (fold_left (twilioService.notify_one c sms call) cs (rs, es)).1)
  = List.map notificationService.contactId (List.filter is_call_result rs)
    ++ List.map EmergencyContact._id (List.filter EmergencyContact.isPrimary cs).
Proof.
  revert rs es. induction cs as [|x cs IH]; intros rs es; simpl.
  - by rewrite app_nil_r.
  - destruct (twilioService.sendSMS c (EmergencyContact.phone x) sms) as [r1 d1].
    destruct (EmergencyContact.isPrimary x).
    + destruct (twilioService.makeCall c (EmergencyContact.phone x) call) as [r2 d2].
      rewrite IH, !List.filter_app, !List.map_app. simpl.
      by rewrite app_nil_r, <- app_assoc.
    + rewrite IH, !List.filter_app, !List.map_app. simpl.
      by rewrite app_nil_r.
Qed.

Lemma twilio_calls_primary_only env c cs user alert :
  List.map notificationService.contactId
    (List.filter is_call_result
       (twilioService.notifyEmergencyContacts env c cs user alert).1)
  = List.map EmergencyContact._id (List.filter EmergencyContact.isPrimary cs).
Proof. unfold twilioService.notifyEmergencyContacts. by rewrite twilio_fold. Qed.

(** ** The volunteer matcher (C5) *)

Section Sorting.
Context {A : Type} (key : A -> Q).

Local Abbreviation le := (key_le key).

Lemma insert_by_perm x l : Permutation (insert_by key x l) (x :: l).
Proof.
  induction l as [|y l IH]; simpl; [done|].
  destruct (Qle_bool (key x) (key y)); [done|].
  rewrite IH. apply perm_swap.
Qed.

Lemma sort_by_perm l : Permutation (sort_by key l) l.
Proof.
  induction l as [|x l IH]; simpl; [done|].
  unfold sort_by in *. simpl. rewrite insert_by_perm. by constructor.
Qed.

Lemma insert_by_HdRel a x l :
  le a x -> HdRel le a l -> HdRel le a (insert_by key x l).
Proof.
  intros Hax Hl. destruct l as [|y l]; simpl; [by constructor|].
  destruct (Qle_bool (key x) (key y)); constructor; [done|].
  by inversion Hl.
Qed.

Lemma insert_by_sorted x l : Sorted le l -> Sorted le (insert_by key x l).
Proof.
  induction 1 as [|y l Hs IH Hd]; simpl; [repeat constructor|].
  destruct (Qle_bool (key x) (key y)) eqn:E.
  - constructor; [by constructor|]. constructor. by apply Qle_bool_iff.
  - constructor; [exact IH|]. apply insert_by_HdRel; [|exact Hd].
    unfold le. apply Qlt_le_weak, Qnot_le_lt. intros H.
    apply Qle_bool_iff in H. congruence.
Qed.

Lemma sort_by_sorted l : Sorted le (sort_by key l).
Proof.
  induction l as [|x l IH]; [constructor|].
  unfold sort_by in *. simpl. by apply insert_by_sorted.
Qed.

Lemma firstn_sorted n l : Sorted le l -> Sorted le (firstn n l).
Proof.
  intros H. revert n. induction H as [|y l Hs IH Hd]; intros [|n]; simpl;
    try constructor; [apply IH|].
  destruct Hd as [|z l' Hz]; destruct n; simpl; by constructor.
Qed.
End Sorting.

Lemma firstn_Forall {A} (P : A -> Prop) n l : List.Forall P l -> List.Forall P (firstn n l).
Proof.
  intros H. revert n. induction H as [|x l Hx Hl IH]; intros [|n]; simpl;
    constructor; auto.
Qed.

Lemma filter_Forall {A} (f : A -> bool) l : List.Forall (fun x => f x = true) (List.filter f l).
Proof. apply List.Forall_forall. intros x Hx. by apply List.filter_In in Hx as [_ ?]. Qed.

Lemma nearbyVolunteers_cases env center vs :
  let found :=
    List.filter (fun v => eligible v && near env center (inject_Z 5000) v) vs in
  nearbyVolunteers env center vs
  = if geo_available env
    then match found with
         | [] => firstn 10 (List.filter eligible vs)
         | _ :: _ => firstn 10 (sort_by (dist_to env center) found)
         end
    else firstn 10 (List.filter eligible vs).
Proof.
  cbv zeta. unfold nearbyVolunteers, Volunteer_find_near, Volunteer_find_eligible.
  change (inject_Z (config.alert.searchRadius * 1000)) with (inject_Z 5000).
  change config.alert.maxVolunteersToNotify with 10.
  destruct (geo_available env); [|done].
  set (found := List.filter _ vs).
  pose proof (Permutation_length (sort_by_perm (dist_to env center) found)) as Hlen.
  destruct found as [|x found']; [done|].
  destruct (sort_by (dist_to env center) (x :: found')) as [|y s]; [discriminate|].
  done.
Qed.

Lemma nearbyVolunteers_length env center vs :
  List.length (nearbyVolunteers env center vs) <= 10.
Proof.
  rewrite nearbyVolunteers_cases.
  destruct (geo_available env); [destruct (List.filter _ vs)|];
    apply firstn_le_length.
Qed.

Lemma In_firstn {A : Type} (x : A) n l : In x (firstn n l) -> In x l.
Proof.
  revert n. induction l as [|a l IH]; intros [|n]; cbn; try tauto.
  intros [->|H]; [by left|right; by apply (IH n)].
Qed.

Lemma firstn_before_skipn {A : Type} (R : A -> A -> Prop) (l : list A) :
  StronglySorted R l ->
  forall n m r, In m (firstn n l) -> In r (skipn n l) -> R m r.
Proof.
  induction 1 as [|a l Hl IH Ha]; intros [|n] m r; cbn; try tauto.
  intros [<-|Hm] Hr.
  - rewrite List.Forall_forall in Ha. apply Ha.
    rewrite <- (firstn_skipn n l). apply in_or_app. by right.
  - by apply (IH n).
Qed.

(** C5 (the code departs from the claim in its last clause).  The matcher
    of createAlert.  The configured radius is 5 km and the configured
    maximum 10.  The matched volunteers are always profiles of the
    collection that are verified, active and on duty, and at most 10.
    When the geospatial query succeeds and finds somebody, they are the
    nearest of the verified, active, on-duty volunteers whose location is
    within 5000 m, in ascending order of distance, all of them or 10.  When
    the query fails or finds nobody, they are the first 10 verified,
    active, on-duty volunteers in the order of the collection, without any
    distance filter.  In both cases the entries saved on the alert are
    those of the matched volunteers, and every entry carries a distance,
    computed from the stored location of the volunteer: for a volunteer who
    has reported none this is the distance to the default coordinates
    [[0, 0]], not an unset distance. *)
Theorem matcher_spec (env : Env) (center : Point) (vs : list Volunteer.t) :
  let key := fun v => geo_distance env center (Volunteer.currentLocation v) in
  let on_call := fun v =>
    Volunteer.isVerified v
    && VolunteerStatus_eqb (Volunteer.status v) VActive
    && Volunteer.isOnDuty v in
  let found :=
    List.filter (fun v => on_call v && Qle_bool (key v) (inject_Z 5000)) vs in
  let matched := nearbyVolunteers env center vs in
  (config.alert.searchRadius = 5%Z /\ config.alert.maxVolunteersToNotify = 10)
  /\ List.length matched <= 10
  /\ List.Forall (fun v => In v vs
                           /\ Volunteer.isVerified v = true
                           /\ Volunteer.status v = VActive
                           /\ Volunteer.isOnDuty v = true) matched
  /\ (geo_available env = true -> found <> [] ->
      Sorted (fun a b => (key a <= key b)%Q) matched
      /\ List.length matched = Nat.min 10 (List.length found)
      /\ List.Forall (fun v => (key v <= inject_Z 5000)%Q) matched
      /\ exists rest,
           Permutation (matched ++ rest) found
           /\ forall m r, In m matched -> In r rest -> (key m <= key r)%Q)
  /\ (geo_available env = false \/ found = [] ->
      matched = firstn 10 (List.filter on_call vs))
  /\ (forall caller body now st la lo ty,
        CreateBody.latitude body = Some la ->
        CreateBody.longitude body = Some lo ->
        truthy (Some la) = true ->
        truthy (Some lo) = true ->
        parse_AlertType (type_or_sos (CreateBody.type body)) = Some ty ->
        exists a,
          alerts (createAlert env caller body now st).1.1 !! new_ObjectId env = Some a
          /\ List.map (fun e => (NotifiedVolunteer.volunteer e,
                                 NotifiedVolunteer.notifiedAt e,
                                 NotifiedVolunteer.distance e,
                                 NotifiedVolunteer.status e))
                      (Alert.notifiedVolunteers a)
             = List.map (fun v =>
                           (Volunteer._id v, now,
                            Some (calculateDistance env la lo
                                    (lat (Volunteer.currentLocation v))
                                    (lng (Volunteer.currentLocation v))),
                            Notified))
                        (nearbyVolunteers env (mkPoint lo la) (volunteers st))
          /\ List.Forall (fun e => NotifiedVolunteer.distance e <> None)
                         (Alert.notifiedVolunteers a)).
Proof.
  cbv zeta.
  set (key := fun v => geo_distance env center (Volunteer.currentLocation v)).
  set (found := List.filter _ vs).
  pose proof (nearbyVolunteers_cases env center vs) as Hc. cbv zeta in Hc.
  change (List.filter (fun v => eligible v && near env center (inject_Z 5000) v) vs)
    with found in Hc.
  change (dist_to env center) with key in Hc.
  change (List.filter
            (fun v => Volunteer.isVerified v
                      && VolunteerStatus_eqb (Volunteer.status v) VActive
                      && Volunteer.isOnDuty v) vs)
    with (List.filter eligible vs).
  assert (Hel : forall l, List.Forall (fun v => In v vs /\ eligible v = true) l ->
    List.Forall (fun v => In v vs
                          /\ Volunteer.isVerified v = true
                          /\ Volunteer.status v = VActive
                          /\ Volunteer.isOnDuty v = true) l).
  { intros l. apply List.Forall_impl. intros v [Hin Hv]. unfold eligible in Hv.
    rewrite !andb_true_iff in Hv. destruct Hv as [[H1 H2] H3].
    repeat split; try done. by destruct (Volunteer.status v). }
  assert (Hfound : forall v, In v found ->
            In v vs /\ eligible v = true /\ (key v <= inject_Z 5000)%Q).
  { intros v Hv. unfold found in Hv.
    apply List.filter_In in Hv as [Hin Hv]. apply andb_true_iff in Hv as [H1 H2].
    split; [done|]. split; [done|]. by apply Qle_bool_iff. }
  assert (Hfall : forall v, In v (firstn 10 (List.filter eligible vs)) ->
            In v vs /\ eligible v = true).
  { intros v Hv. apply In_firstn in Hv. by apply List.filter_In in Hv. }
  assert (Hsorted : forall v, In v (firstn 10 (sort_by key found)) -> In v found).
  { intros v Hv. apply In_firstn in Hv.
    eapply Permutation_in; [apply sort_by_perm|exact Hv]. }
  split; [done|].
  split; [apply nearbyVolunteers_length|].
  split.
  { rewrite Hc. apply Hel, List.Forall_forall. intros v Hv.
    destruct (geo_available env); [destruct found as [|x f'] eqn:Ef|].
    - by apply Hfall.
    - rewrite <- Ef in *. apply Hsorted, Hfound in Hv. tauto.
    - by apply Hfall. }
  split.
  { intros Hg Hne. rewrite Hc, Hg.
    destruct found as [|x f'] eqn:Ef; [done|]. rewrite <- Ef in *.
    split; [apply (firstn_sorted key), sort_by_sorted|].
    split.
    { rewrite List.length_firstn.
      by rewrite (Permutation_length (sort_by_perm key found)). }
    split.
    { apply List.Forall_forall. intros v Hv. apply Hsorted, Hfound in Hv. tauto. }
    exists (skipn 10 (sort_by key found)). split.
    - rewrite firstn_skipn. apply sort_by_perm.
    - apply (firstn_before_skipn (fun a b => (key a <= key b)%Q)).
      apply Sorted_StronglySorted; [|apply (sort_by_sorted key)].
      intros a b c Hab Hbc. eapply Qle_trans; [exact Hab|exact Hbc]. }
  split.
  { intros [Hg|He]; rewrite Hc.
    - by rewrite Hg.
    - rewrite He. by destruct (geo_available env). }
  intros caller body now st la lo ty Hla Hlo Tla Tlo Hty.
  rewrite (createAlert_created env caller body now st la lo ty Hla Hlo Tla Tlo Hty).
  eexists. split; [apply lookup_insert_eq|].
  cbn [Alert.notifiedVolunteers Alert.pre_save created_alert].
  split.
  - rewrite List.map_map. reflexivity.
  - apply List.Forall_forall. intros e He.
    apply in_map_iff in He as (v & <- & _). discriminate.
Qed.

(** Alice's request in [grid_store]: the geospatial query finds Dora and Eve
    and returns Eve first; Frank, at the default coordinates, is out of
    range.  When Frank is the only volunteer the query finds nobody, Frank
    is matched by the fallback, and his entry carries the distance from
    Alice to the coordinates [[0, 0]], about 9000 km. *)
Lemma matcher_spec_witness :
  (Sorted (fun a b =>
             (grid_distance (mkPoint (775946 # 10000) (129716 # 10000))
                            (Volunteer.currentLocation a)
              <= grid_distance (mkPoint (775946 # 10000) (129716 # 10000))
                               (Volunteer.currentLocation b))%Q)
          (nearbyVolunteers grid_env (mkPoint (775946 # 10000) (129716 # 10000))
                            (volunteers grid_store))
   /\ List.length (nearbyVolunteers grid_env
                     (mkPoint (775946 # 10000) (129716 # 10000))
                     (volunteers grid_store)) = 2)
  /\ exists a,
       alerts (createAlert grid_env alice sos_body 1000 (mkStore ∅ [frank] [])).1.1
         !! 100%N = Some a
       /\ List.map (fun e => (NotifiedVolunteer.volunteer e,
                              NotifiedVolunteer.notifiedAt e,
                              NotifiedVolunteer.distance e,
                              NotifiedVolunteer.status e))
                   (Alert.notifiedVolunteers a)
          = [(60%N, 1000%Z, Some 9056620%Z, Notified)].
Proof.
  split.
  - destruct (matcher_spec grid_env (mkPoint (775946 # 10000) (129716 # 10000))
                (volunteers grid_store)) as (_ & _ & _ & H & _).
    destruct H as (Hs & Hl & _); [reflexivity|vm_compute; discriminate|].
    split; [exact Hs|exact Hl].
  - destruct (matcher_spec grid_env (mkPoint 0 0) [])
      as (_ & _ & _ & _ & _ & H).
    destruct (H alice sos_body 1000%Z (mkStore ∅ [frank] [])
                (129716 # 10000)%Q (775946 # 10000)%Q Sos
                eq_refl eq_refl eq_refl eq_refl eq_refl) as (a & Ha & Hm & _).
    exists a. split; [exact Ha|]. rewrite Hm. vm_compute. reflexivity.
Defined.

(** *** Creating an alert (C6) *)

(** C6 (the code departs from the claim).  A request of a user whose
    coordinates are in range and one of which is 0, such as latitude 0 and
    longitude 77.5946, passes [createAlertValidation].  The controller then
    tests [!latitude || !longitude], which holds of the number 0, and
    answers 400 "Location is required" although the location is present; no
    alert is created. *)
Theorem createAlert_rejects_zero_coordinate (env : Env) (caller : ReqUser.t)
    (body : CreateBody.t) (now : Time) (st : Store) (la lo : Q) :
  ReqUser.role caller = RUser ->
  CreateBody.latitude body = Some la ->
  CreateBody.longitude body = Some lo ->
  (-90 <= la)%Q -> (la <= 90)%Q -> (-180 <= lo)%Q -> (lo <= 180)%Q ->
  (la == 0)%Q \/ (lo == 0)%Q ->
  createAlertValidation body = []
  /\ post_alert env caller body now st
     = (st, Json 400 false "Location is required" NoData, []).
Proof.
  intros Hr Hla Hlo L1 L2 L3 L4 Hz.
  assert (Hv : createAlertValidation body = []).
  { unfold createAlertValidation, isFloat. rewrite Hla, Hlo.
    by rewrite !(proj2 (Qle_bool_iff _ _)) by assumption. }
  split; [exact Hv|].
  unfold post_alert, authorize. rewrite Hr, Hv. cbn [existsb Role_eqb orb validate].
  unfold createAlert. rewrite Hla, Hlo. cbn [truthy].
  destruct Hz as [Hz|Hz]; apply Qeq_bool_iff in Hz; rewrite Hz; cbn [negb orb];
    [done|by rewrite orb_true_r].
Qed.

Lemma createAlert_rejects_zero_coordinate_witness :
  post_alert demo_env alice equator_body 5000 demo_store
  = (demo_store, Json 400 false "Location is required" NoData, []).
Proof.
  assert (L1 : (-90 <= 0)%Q) by (unfold Qle; simpl; lia).
  assert (L2 : (0 <= 90)%Q) by (unfold Qle; simpl; lia).
  assert (L3 : (-180 <= 775946 # 10000)%Q) by (unfold Qle; simpl; lia).
  assert (L4 : (775946 # 10000 <= 180)%Q) by (unfold Qle; simpl; lia).
  assert (Hz : (0 == 0)%Q \/ (775946 # 10000 == 0)%Q) by (left; reflexivity).
  destruct (createAlert_rejects_zero_coordinate demo_env alice equator_body 5000
              demo_store 0%Q (775946 # 10000)%Q eq_refl eq_refl eq_refl
              L1 L2 L3 L4 Hz) as [_ H].
  exact H.
Defined.

(** What the claim says does hold when neither coordinate is 0 and the type
    is one of the schema (or absent): the request creates an alert with
    status active, priority high, a single timeline entry [created] and at
    most 10 notified volunteers. *)
Lemma createAlert_valid_request env caller body now st la lo ty :
  ReqUser.role caller = RUser ->
  CreateBody.latitude body = Some la ->
  CreateBody.longitude body = Some lo ->
  (-90 <= la)%Q -> (la <= 90)%Q -> (-180 <= lo)%Q -> (lo <= 180)%Q ->
  ~ (la == 0)%Q -> ~ (lo == 0)%Q ->
  parse_AlertType (type_or_sos (CreateBody.type body)) = Some ty ->
  let res := post_alert env caller body now st in
  exists a nv nc,
    res.1.2 = Json 201 true "Emergency alert created successfully"
                   (CreatedData (new_ObjectId env) nv nc)
    /\ alerts res.1.1 !! new_ObjectId env = Some a
    /\ Alert.status a = Active
    /\ Alert.priority a = High
    /\ Alert.timeline a
       = [TimelineEntry.mk "created" "Emergency alert created" (ReqUser.id caller) now]
    /\ List.length (Alert.notifiedVolunteers a) <= config.alert.maxVolunteersToNotify
    /\ nv = List.length (Alert.notifiedVolunteers a).
Proof.
  intros Hr Hla Hlo L1 L2 L3 L4 Zla Zlo Hty. cbv zeta.
  unfold post_alert, authorize. rewrite Hr. cbn [existsb Role_eqb orb].
  unfold createAlertValidation, isFloat. rewrite Hla, Hlo.
  rewrite !(proj2 (Qle_bool_iff _ _)) by assumption. cbn [andb app validate].
  assert (Tla : truthy (Some la) = true).
  { simpl. apply negb_true_iff. destruct (Qeq_bool la 0) eqn:E; [|done].
    by apply Qeq_bool_iff in E. }
  assert (Tlo : truthy (Some lo) = true).
  { simpl. apply negb_true_iff. destruct (Qeq_bool lo 0) eqn:E; [|done].
    by apply Qeq_bool_iff in E. }
  rewrite (createAlert_created env caller body now st la lo ty Hla Hlo Tla Tlo Hty).
  eexists _, _, _. cbn [fst snd alerts with_alerts].
  split; [reflexivity|]. split; [apply lookup_insert_eq|].
  cbn [created_alert Alert.pre_save Alert.status Alert.priority Alert.timeline
       Alert.notifiedVolunteers].
  repeat split.
  - rewrite length_map. apply nearbyVolunteers_length.
  - by rewrite length_map.
Qed.

(** ** Two volunteers accept the same alert (C1) *)

(** A request that runs alone goes through its three awaits and does what
    the handler does. *)
Lemma accept_alone caller id now st :
  let '(st1, p1) := accept_step save_writes caller id now AwaitFindAlert st in
  let '(st2, p2) := accept_step save_writes caller id now p1 st1 in
  let '(st3, p3) := accept_step save_writes caller id now p2 st2 in
  (st3, p3) = (let '(st', r) := acceptAlert caller id now st in (st', Responded r)).
Proof.
  unfold acceptAlert. cbn [accept_step].
  destruct (alerts st !! id) as [alert|]; [|done].
  destruct (AlertStatus_eqb (Alert.status alert) Active); [|done].
  cbn [negb accept_step].
  destruct (findOne_by_user _ _) as [v|]; [|done].
  destruct (find_notified _ _) as [[i e]|]; [|done].
  reflexivity.
Qed.

(** C1 (the code departs from the claim).  acceptAlert reads the alert,
    tests its status on the copy it holds and saves later.  When two
    notified volunteers accept an active alert and both reads are served
    before either save, both requests pass the test: whatever [save] does
    with the two documents, each request ends with a success or with the
    rejection of its save, and neither receives the Conflict response.  The
    transition is a read followed by a write, not a conditional update. *)
Theorem accept_race_no_conflict (save : SaveSemantics) (c1 c2 : ReqUser.t)
    (id : ObjectId) (now1 now2 : Time) (st : Store) (alert : Alert.t)
    (v1 v2 : Volunteer.t) (i1 i2 : nat) (e1 e2 : NotifiedVolunteer.t) :
  alerts st !! id = Some alert ->
  Alert.status alert = Active ->
  findOne_by_user (ReqUser.id c1) (volunteers st) = Some v1 ->
  find_notified (Volunteer._id v1) (Alert.notifiedVolunteers alert) = Some (i1, e1) ->
  findOne_by_user (ReqUser.id c2) (volunteers st) = Some v2 ->
  find_notified (Volunteer._id v2) (Alert.notifiedVolunteers alert) = Some (i2, e2) ->
  let final := run_race save c1 c2 id now1 now2 both_read_first (start st) in
  exists r1 r2,
    pc1 final = Responded r1 /\ pc2 final = Responded r2
    /\ (is_success r1 \/ r1 = Thrown "save rejected")
    /\ (is_success r2 \/ r2 = Thrown "save rejected")
    /\ r1 <> conflict /\ r2 <> conflict.
Proof.
  intros Hget Hs Hv1 Hf1 Hv2 Hf2. cbv zeta.
  assert (Hread : forall c now,
    accept_step save c id now AwaitFindAlert st = (st, AwaitFindVolunteer alert)).
  { intros c now. cbn [accept_step]. by rewrite Hget, Hs. }
  assert (Hp1 : accept_step save c1 id now1 (AwaitFindVolunteer alert) st
                = (st, AwaitSave (accept_update c1 v1 i1 e1 now1 alert))).
  { cbn [accept_step]. by rewrite Hv1, Hf1. }
  assert (Hp2 : accept_step save c2 id now2 (AwaitFindVolunteer alert) st
                = (st, AwaitSave (accept_update c2 v2 i2 e2 now2 alert))).
  { cbn [accept_step]. by rewrite Hv2, Hf2. }
  unfold both_read_first, start. cbn [run_race pc1 pc2 store].
  rewrite Hread. cbn [run_race pc1 pc2 store].
  rewrite Hread. cbn [run_race pc1 pc2 store].
  rewrite Hp1. cbn [run_race pc1 pc2 store].
  rewrite Hp2. cbn [run_race pc1 pc2 store].
  cbn [accept_step].
  destruct (save now1 id _ st) as [st1|];
    cbn [run_race pc1 pc2 store];
    (destruct (save now2 id _ _) as [st2|];
     cbn [run_race pc1 pc2 store];
     do 2 eexists; (split; [reflexivity|]); (split; [reflexivity|]);
     unfold is_success, conflict; repeat split; eauto; discriminate).
Qed.

Lemma accept_race_no_conflict_witness :
  exists r1 r2,
    pc1 (run_race save_writes bob carol 100 61000 61001 both_read_first
           (start (scenario Active))) = Responded r1
    /\ pc2 (run_race save_writes bob carol 100 61000 61001 both_read_first
              (start (scenario Active))) = Responded r2
    /\ r1 <> conflict /\ r2 <> conflict.
Proof.
  destruct (accept_race_no_conflict save_writes bob carol 100 61000 61001
              (scenario Active) (alert_of_alice Active) bob_profile carol_profile
              0 1 (NotifiedVolunteer.mk 20 1000 (Some 120%Z) Notified)
              (NotifiedVolunteer.mk 30 1000 (Some 300%Z) Notified)
              eq_refl eq_refl eq_refl eq_refl eq_refl eq_refl)
    as (r1 & r2 & H1 & H2 & _ & _ & N1 & N2).
  exists r1, r2. auto.
Defined.

(** With a [save] that writes the document it is given, both requests of
    the scenario succeed and the responding volunteer set by Bob's request
    is replaced by Carol's. *)
Lemma accept_race_overwrites :
  let final := run_race save_writes bob carol 100 61000 61001 both_read_first
                 (start (scenario Active)) in
  let after_bob := run_race save_writes bob carol 100 61000 61001
                     [First; Second; First; Second; First]
                     (start (scenario Active)) in
  (exists d1 d2, pc1 final = Responded (Json 200 true "Alert accepted successfully" d1)
                 /\ pc2 final = Responded (Json 200 true "Alert accepted successfully" d2))
  /\ (RespondingVolunteer.volunteer ∘ Alert.respondingVolunteer)
       <$> alerts (store after_bob) !! 100%N = Some (Some 20%N)
  /\ (RespondingVolunteer.volunteer ∘ Alert.respondingVolunteer)
       <$> alerts (store final) !! 100%N = Some (Some 30%N).
Proof.
  cbv zeta. split; [do 2 eexists; split; vm_compute; reflexivity|].
  split; vm_compute; reflexivity.
Qed.

(** One after the other, the second request does receive the Conflict
    response and the responding volunteer stays. *)
Lemma accept_in_turn :
  let final := run_race save_writes bob carol 100 61000 61001 in_turn
                 (start (scenario Active)) in
  pc2 final = Responded conflict
  /\ (RespondingVolunteer.volunteer ∘ Alert.respondingVolunteer)
       <$> alerts (store final) !! 100%N = Some (Some 20%N).
Proof. cbv zeta. split; vm_compute; reflexivity. Qed.

(* ===================================================================== *)
(** * Further properties of the code *)
(* ===================================================================== *)

(** ** What a request on an alert leaves alone *)

Lemma contacts_run_checkBadges now v st :
  contacts (run_checkBadges now v st) = contacts st.
Proof.
  unfold run_checkBadges. destruct (checkBadges now v) as [v' l].
  by destruct (0 <? _)%nat.
Qed.

Lemma ids_save_volunteer v st :
  List.map Volunteer._id (volunteers (save_volunteer v st))
  = List.map Volunteer._id (volunteers st).
Proof.
  unfold save_volunteer. cbn [volunteers with_volunteers].
  rewrite List.map_map. apply List.map_ext. intros w.
  destruct (Volunteer._id w =? Volunteer._id v)%N eqn:E; [|done].
  symmetry. by apply N.eqb_eq.
Qed.

Lemma ids_run_checkBadges now v st :
  List.map Volunteer._id (volunteers (run_checkBadges now v st))
  = List.map Volunteer._id (volunteers st).
Proof.
  unfold run_checkBadges. destruct (checkBadges now v) as [v' l].
  destruct (0 <? _)%nat; [apply ids_save_volunteer|done].
Qed.

Lemma lookup_save_alert_ne now id a st j :
  j <> id -> alerts (save_alert now id a st) !! j = alerts st !! j.
Proof. intros H. unfold save_alert. simpl. by apply lookup_insert_ne. Qed.

Lemma same_but_refl id st : same_but id st st.
Proof. by repeat split. Qed.

Lemma same_but_trans id st1 st2 st3 :
  same_but id st1 st2 -> same_but id st2 st3 -> same_but id st1 st3.
Proof.
  intros (A1 & C1 & V1) (A2 & C2 & V2). repeat split.
  - intros j Hj. by rewrite A2, A1.
  - by rewrite C2.
  - by rewrite V2.
Qed.

Lemma same_but_save_alert now id a st : same_but id st (save_alert now id a st).
Proof. repeat split. intros j Hj. by apply lookup_save_alert_ne. Qed.

Lemma same_but_save_volunteer id v st : same_but id st (save_volunteer v st).
Proof. repeat split. apply ids_save_volunteer. Qed.

Lemma same_but_run_checkBadges id now v st : same_but id st (run_checkBadges now v st).
Proof.
  repeat split.
  - intros j _. by rewrite alerts_run_checkBadges.
  - apply contacts_run_checkBadges.
  - apply ids_run_checkBadges.
Qed.

Create HintDb frame discriminated.
#[local] Hint Resolve same_but_refl same_but_save_alert same_but_save_volunteer
  same_but_run_checkBadges : frame.

(** X1.  A request that names an alert (cancel, accept, decline, resolve,
    feedback, live location) never touches another alert, never touches the
    emergency contacts and never adds or removes a volunteer profile; when
    the alert does not exist it answers 404 and changes nothing. *)
Theorem handlers_touch_one_alert (r : Request) (caller : ReqUser.t)
    (id : ObjectId) (now : Time) (st : Store) :
  let res := handle r caller id now st in
  same_but id st res.1
  /\ (alerts st !! id = None -> res = (st, not_found)).
Proof.
  cbv zeta. split.
  - destruct r as [| | |notes rating fb|rating fb|la lo]; cbn [handle].
    + unfold cancelAlert. destruct (alerts st !! id) as [a|]; auto with frame.
      destruct (negb _); auto with frame.
      destruct (_ || _); auto with frame.
      destruct (RespondingVolunteer.volunteer _);
        [destruct (Volunteer_findById _ _)|]; cbn [fst]; auto with frame.
    + unfold acceptAlert. destruct (alerts st !! id) as [a|]; auto with frame.
      destruct (negb _); auto with frame.
      destruct (findOne_by_user _ _); auto with frame.
      destruct (find_notified _ _) as [[i e]|]; cbn [fst]; auto with frame.
    + unfold declineAlert. destruct (alerts st !! id) as [a|]; auto with frame.
      destruct (findOne_by_user _ _); auto with frame. cbn [fst].
      eapply same_but_trans; [|apply same_but_save_volunteer].
      destruct (find_notified _ _) as [[i e]|]; auto with frame.
    + unfold resolveAlert. destruct (alerts st !! id) as [a|]; auto with frame.
      destruct (_ && _); auto with frame. cbn [fst].
      destruct (findOne_by_user _ _) as [v|]; auto with frame.
      destruct (match RespondingVolunteer.volunteer _ with Some _ => _ | None => _ end);
        auto with frame.
      eapply same_but_trans; [apply same_but_save_alert|].
      eapply same_but_trans; [apply same_but_save_volunteer|].
      apply same_but_run_checkBadges.
    + unfold submitFeedback. destruct (alerts st !! id) as [a|]; auto with frame.
      destruct (negb _); auto with frame.
      destruct (negb _); auto with frame.
      destruct rating as [q|]; auto with frame.
      destruct (_ || _); auto with frame. cbn [fst].
      destruct (RespondingVolunteer.volunteer _); auto with frame.
      destruct (Volunteer_findById _ _); auto with frame.
      eapply same_but_trans; [apply same_but_save_alert|].
      eapply same_but_trans; [apply same_but_save_volunteer|].
      apply same_but_run_checkBadges.
    + unfold updateAlertLocation. destruct (alerts st !! id) as [a|]; auto with frame.
      destruct (negb _); auto with frame.
      destruct (_ || _); cbn [fst]; auto with frame.
  - intros Hn.
    destruct r; cbn [handle];
      unfold cancelAlert, acceptAlert, declineAlert, resolveAlert, submitFeedback,
        updateAlertLocation; by rewrite Hn.
Qed.

(** ** The logs of an alert only grow *)

Lemma volunteers_of_marked vid l i e s :
  find_notified vid l = Some (i, e) ->
  List.map NotifiedVolunteer.volunteer
           (<[i := NotifiedVolunteer.with_status s e]> l)
  = List.map NotifiedVolunteer.volunteer l.
Proof.
  unfold find_notified. intros H. apply list_find_Some in H as (Hl & _ & _).
  change (List.map NotifiedVolunteer.volunteer) with (fmap (M:=list) NotifiedVolunteer.volunteer).
  rewrite list_fmap_insert. apply list_insert_id.
  by rewrite list_lookup_fmap, Hl.
Qed.

(** X2.  Whatever request is made on an alert, the alert stays in place, its
    timeline and its location history keep every entry they had, in order,
    and gain at most one; a request that changes the status adds exactly one
    timeline entry.  Owner, creation time, type, priority, message and the
    notified contacts are never modified, and the notified-volunteers list
    keeps the same volunteers in the same order. *)
Theorem alert_logs_append_only (r : Request) (caller : ReqUser.t)
    (id : ObjectId) (now : Time) (st : Store) (a : Alert.t) :
  alerts st !! id = Some a ->
  exists a',
    alerts (handle r caller id now st).1 !! id = Some a'
    /\ (exists e, Alert.timeline a' = Alert.timeline a ++ e
                  /\ List.length e <= 1
                  /\ (Alert.status a' <> Alert.status a -> List.length e = 1))
    /\ (exists h, Alert.locationHistory a' = Alert.locationHistory a ++ h
                  /\ List.length h <= 1)
    /\ Alert.user a' = Alert.user a
    /\ Alert.createdAt a' = Alert.createdAt a
    /\ Alert.type a' = Alert.type a
    /\ Alert.priority a' = Alert.priority a
    /\ Alert.message a' = Alert.message a
    /\ Alert.notifiedContacts a' = Alert.notifiedContacts a
    /\ List.map NotifiedVolunteer.volunteer (Alert.notifiedVolunteers a')
       = List.map NotifiedVolunteer.volunteer (Alert.notifiedVolunteers a).
Proof.
  intros Hget.
  assert (Hsame : exists a',
    alerts st !! id = Some a'
    /\ (exists e, Alert.timeline a' = Alert.timeline a ++ e
                  /\ List.length e <= 1
                  /\ (Alert.status a' <> Alert.status a -> List.length e = 1))
    /\ (exists h, Alert.locationHistory a' = Alert.locationHistory a ++ h
                  /\ List.length h <= 1)
    /\ Alert.user a' = Alert.user a
    /\ Alert.createdAt a' = Alert.createdAt a
    /\ Alert.type a' = Alert.type a
    /\ Alert.priority a' = Alert.priority a
    /\ Alert.message a' = Alert.message a
    /\ Alert.notifiedContacts a' = Alert.notifiedContacts a
    /\ List.map NotifiedVolunteer.volunteer (Alert.notifiedVolunteers a')
       = List.map NotifiedVolunteer.volunteer (Alert.notifiedVolunteers a)).
  { exists a. split; [exact Hget|].
    split; [exists []; rewrite app_nil_r; simpl; repeat split; (lia || done)|].
    split; [exists []; rewrite app_nil_r; simpl; repeat split; lia|].
    repeat split. }
  assert (Hone : forall t : TimelineEntry.t, List.length [t] <= 1) by (simpl; lia).
  destruct r as [| | |notes rating fb|rating fb|la lo]; cbn [handle].
  - (* cancel *)
    unfold cancelAlert. rewrite Hget.
    destruct (negb _); [exact Hsame|]. destruct (_ || _); [exact Hsame|].
    eexists. split.
    { destruct (RespondingVolunteer.volunteer _);
        [destruct (Volunteer_findById _ _)|]; apply lookup_save_alert. }
    split; [eexists [_]; repeat split; simpl; lia|].
    split; [exists []; rewrite app_nil_r; simpl; repeat split; lia|].
    repeat split.
  - (* accept *)
    unfold acceptAlert. rewrite Hget.
    destruct (negb _); [exact Hsame|].
    destruct (findOne_by_user _ _) as [v|]; [|exact Hsame].
    destruct (find_notified _ _) as [[i e]|] eqn:Hf; [|exact Hsame].
    eexists. split; [apply lookup_save_alert|].
    split; [eexists [_]; repeat split; simpl; lia|].
    split; [exists []; rewrite app_nil_r; simpl; repeat split; lia|].
    repeat split. cbn. exact (volunteers_of_marked _ _ _ _ _ Hf).
  - (* decline *)
    unfold declineAlert. rewrite Hget.
    destruct (findOne_by_user _ _) as [v|]; [|exact Hsame].
    cbn [fst]. unfold save_volunteer at 1. cbn [alerts with_volunteers].
    destruct (find_notified _ _) as [[i e]|] eqn:Hf; [|exact Hsame].
    eexists. split; [apply lookup_save_alert|].
    split; [exists []; rewrite app_nil_r; simpl; repeat split; (lia || done)|].
    split; [exists []; rewrite app_nil_r; simpl; repeat split; lia|].
    repeat split. cbn. exact (volunteers_of_marked _ _ _ _ _ Hf).
  - (* resolve *)
    unfold resolveAlert. rewrite Hget.
    destruct (_ && _); [exact Hsame|]. cbn [fst].
    eexists. split.
    { destruct (findOne_by_user _ _) as [v|];
        [destruct (match RespondingVolunteer.volunteer _ with
                   | Some _ => _ | None => _ end)|];
        rewrite ?alerts_run_checkBadges; apply lookup_save_alert. }
    split; [eexists [_]; repeat split; simpl; lia|].
    split; [exists []; rewrite app_nil_r; simpl; repeat split; lia|].
    repeat split.
  - (* feedback *)
    unfold submitFeedback. rewrite Hget.
    destruct (negb _); [exact Hsame|]. destruct (negb _); [exact Hsame|].
    destruct rating as [q|]; [|exact Hsame].
    destruct (_ || _); [exact Hsame|]. cbn [fst].
    eexists. split.
    { destruct (RespondingVolunteer.volunteer _);
        [destruct (Volunteer_findById _ _)|];
        rewrite ?alerts_run_checkBadges; apply lookup_save_alert. }
    split; [exists []; rewrite app_nil_r; simpl; repeat split; (lia || done)|].
    split; [exists []; rewrite app_nil_r; simpl; repeat split; lia|].
    repeat split.
  - (* live location *)
    unfold updateAlertLocation. rewrite Hget.
    destruct (negb _); [exact Hsame|]. destruct (_ || _); [exact Hsame|].
    eexists. split; [apply lookup_save_alert|].
    split; [exists []; rewrite app_nil_r; simpl; repeat split; (lia || done)|].
    split; [eexists [_]; repeat split; simpl; lia|].
    repeat split.
Qed.

Lemma alert_logs_append_only_witness :
  exists a',
    alerts (handle ReqAccept bob 100 61000 (scenario Active)).1 !! 100%N = Some a'
    /\ Alert.createdAt a' = 1000%Z.
Proof.
  destruct (alert_logs_append_only ReqAccept bob 100 61000 (scenario Active)
              (alert_of_alice Active) eq_refl) as (a' & H & _ & _ & _ & Hc & _).
  exists a'. split; [exact H|exact Hc].
Defined.

(** ** Response time and total duration *)

(** The alert that a successful accept saves. *)
Lemma acceptAlert_saved caller id now st a :
  alerts st !! id = Some a ->
  is_success (acceptAlert caller id now st).2 ->
  exists v i e,
    findOne_by_user (ReqUser.id caller) (volunteers st) = Some v
    /\ find_notified (Volunteer._id v) (Alert.notifiedVolunteers a) = Some (i, e)
    /\ Alert.status a = Active
    /\ (acceptAlert caller id now st).1
       = save_alert now id (accept_update caller v i e now a) st.
Proof.
  intros Hget. unfold acceptAlert. rewrite Hget.
  destruct (AlertStatus_eqb (Alert.status a) Active) eqn:Hs; cbn [negb];
    [|intros (m & d & [=])].
  apply AlertStatus_eqb_eq in Hs.
  destruct (findOne_by_user _ _) as [v|] eqn:Hv; [|intros (m & d & [=])].
  destruct (find_notified _ _) as [[i e]|] eqn:Hf; [|intros (m & d & [=])].
  intros _. by exists v, i, e.
Qed.

(** The alert that resolveAlert saves for a caller who may resolve. *)
Lemma resolveAlert_saved caller id notes rating fb now st a :
  alerts st !! id = Some a ->
  may_resolve caller st a = true ->
  let res := resolveAlert caller id notes rating fb now st in
  res.2 = Json 200 true "Alert resolved successfully" NoData
  /\ alerts res.1 !! id
     = Some (Alert.pre_save now
               (push_timeline "resolved" "Alert resolved" (ReqUser.id caller) now
                  (calculateTotalDuration
                     (Alert.with_resolution
                        (Resolution.mk (Some (ReqUser.id caller)) (Some now)
                                       notes rating fb)
                        (Alert.with_status Resolved a))))).
Proof.
  intros Hget Hm. cbv zeta. unfold resolveAlert. rewrite Hget.
  unfold may_resolve in Hm.
  rewrite <- !negb_orb, Hm. cbn [negb].
  split; [reflexivity|]. cbn [fst].
  destruct (findOne_by_user _ _);
    [destruct (match RespondingVolunteer.volunteer _ with
               | Some _ => _ | None => _ end)|];
    rewrite ?alerts_run_checkBadges; apply lookup_save_alert.
Qed.

Lemma floor_seconds_mono (x y : Z) : (x <= y)%Z -> (floor_seconds x <= floor_seconds y)%Z.
Proof. intros H. unfold floor_seconds. apply Z.div_le_mono; lia. Qed.

(** X3.  An alert is accepted at [t1] and resolved at [t2].  When the clock
    does not run backwards (created <= t1 <= t2), the alert ends with a
    response time and a total duration in whole seconds, the response time
    is the time from creation to acceptance rounded down, the total
    duration the time from creation to resolution rounded down, and
    0 <= response time <= total duration. *)
Theorem response_time_le_total_duration (c1 c2 : ReqUser.t) (id : ObjectId)
    notes rating fb (t1 t2 : Time) (st : Store) (a : Alert.t) :
  alerts st !! id = Some a ->
  (Alert.createdAt a <= t1)%Z -> (t1 <= t2)%Z ->
  let st1 := (acceptAlert c1 id t1 st).1 in
  is_success (acceptAlert c1 id t1 st).2 ->
  (forall a1, alerts st1 !! id = Some a1 -> may_resolve c2 st1 a1 = true) ->
  exists a2,
    alerts (resolveAlert c2 id notes rating fb t2 st1).1 !! id = Some a2
    /\ Alert.responseTime a2 = Some ((t1 - Alert.createdAt a) / 1000)%Z
    /\ Alert.totalDuration a2 = Some ((t2 - Alert.createdAt a) / 1000)%Z
    /\ (0 <= (t1 - Alert.createdAt a) / 1000 <= (t2 - Alert.createdAt a) / 1000)%Z.
Proof.
  intros Hget H1 H2. cbv zeta. intros Hok Hmay.
  destruct (acceptAlert_saved c1 id t1 st a Hget Hok) as (v & i & e & _ & _ & _ & Hst).
  rewrite Hst in *.
  pose proof (lookup_save_alert t1 id (accept_update c1 v i e t1 a) st) as Ha1.
  destruct (resolveAlert_saved c2 id notes rating fb t2 _ _ Ha1 (Hmay _ Ha1))
    as [_ Hr].
  eexists. split; [exact Hr|]. cbn.
  repeat split.
  - apply Z.div_pos; lia.
  - apply (floor_seconds_mono (t1 - Alert.createdAt a) (t2 - Alert.createdAt a)). lia.
Qed.

Lemma response_time_le_total_duration_witness :
  exists a2,
    alerts (resolveAlert alice 100 None None None 200000
              (acceptAlert bob 100 61000 (scenario Active)).1).1 !! 100%N = Some a2
    /\ Alert.responseTime a2 = Some 60%Z
    /\ Alert.totalDuration a2 = Some 199%Z.
Proof.
  assert (H1 : (Alert.createdAt (alert_of_alice Active) <= 61000)%Z) by (simpl; lia).
  assert (H2 : (61000 <= 200000)%Z) by lia.
  assert (Hok : is_success (acceptAlert bob 100 61000 (scenario Active)).2)
    by (do 2 eexists; reflexivity).
  assert (Hmay : forall a1,
    alerts (acceptAlert bob 100 61000 (scenario Active)).1 !! 100%N = Some a1 ->
    may_resolve alice (acceptAlert bob 100 61000 (scenario Active)).1 a1 = true).
  { intros a1 Ha1. vm_compute in Ha1. injection Ha1 as <-. reflexivity. }
  destruct (response_time_le_total_duration bob alice 100 None None None
              61000 200000 (scenario Active) (alert_of_alice Active)
              eq_refl H1 H2 Hok Hmay) as (a2 & Ha2 & Hr & Hd & _).
  exists a2. split; [exact Ha2|]. split; [exact Hr|exact Hd].
Defined.

(** ** Running the sweeper again *)

Lemma filter_size_0 (P : ObjectId * Alert.t -> Prop) `{!forall x, Decision (P x)}
    (m : gmap ObjectId Alert.t) :
  (forall i a, m !! i = Some a -> ~ P (i, a)) ->
  size (filter P m) = 0.
Proof.
  intros Hn. apply map_size_empty_iff, map_empty. intros i.
  apply map_lookup_filter_None. right. intros a Ha. by apply Hn.
Qed.

(** A store in which nothing is stale and nothing is older than 7 days is
    left alone by a run, which logs nothing. *)
Lemma cleanupAlerts_quiet now w :
  (forall i a, alerts (db w) !! i = Some a ->
     stale (now - one_day) a = false
     /\ (now - seven_days <= Alert.createdAt a)%Z) ->
  cleanupAlerts NoFault now w = (w, inr tt).
Proof.
  intros H.
  unfold cleanupAlerts, try_catch, bind, Alert_updateMany_expired,
    Alert_deleteMany_older, when, log, ret.
  change (7 * 24 * ms_per_hour)%Z with seven_days.
  change (24 * ms_per_hour)%Z with one_day.
  set (m := alerts (db w)) in *.
  assert (Hm : (fun a => if stale (now - one_day) a
                         then Alert.with_status Expired a else a) <$> m = m).
  { apply map_eq. intros i. rewrite lookup_fmap.
    destruct (m !! i) as [a|] eqn:E; [|done]. simpl.
    by destruct (H i a E) as [-> _]. }
  rewrite filter_size_0.
  2:{ intros i a Ha. simpl. destruct (H i a Ha) as [-> _]. done. }
  cbn [Nat.ltb Nat.leb db console alerts with_alerts volunteers contacts].
  rewrite Hm.
  rewrite filter_size_0.
  2:{ intros i a Ha. simpl. destruct (H i a Ha) as [_ ?]. lia. }
  cbn [Nat.ltb Nat.leb db console alerts with_alerts volunteers contacts].
  assert (Hf : filter (fun p : ObjectId * Alert.t =>
                         ¬ (Alert.createdAt p.2 < now - seven_days)%Z) m = m).
  { apply map_eq. intros i. rewrite map_lookup_filter.
    destruct (m !! i) as [a|] eqn:E; [|done]. simpl.
    destruct (H i a E) as [_ ?]. rewrite option_guard_True; [done|simpl; lia]. }
  rewrite Hf. unfold m. by destruct w as [[? ? ?] ?].
Qed.

(** X4.  The sweeper can be run again at any later time: a run at [t1]
    followed by a run at [t2 >= t1] leaves the alerts that a single run at
    [t2] leaves, so a run that was missed is made up by the next one.  A
    second run at the same instant changes nothing and logs nothing. *)
Theorem cleanupAlerts_again (t1 t2 : Time) (w : World) :
  (t1 <= t2)%Z ->
  let w1 := (cleanupAlerts NoFault t1 w).1 in
  alerts (db (cleanupAlerts NoFault t2 w1).1) = alerts (db (cleanupAlerts NoFault t2 w).1)
  /\ cleanupAlerts NoFault t1 w1 = (w1, inr tt).
Proof.
  intros Ht. cbv zeta.
  destruct (cleanupAlerts_NoFault t1 w) as (l1 & E1). rewrite E1.
  cbn [fst]. split.
  - destruct (cleanupAlerts_NoFault t2 w) as (l2 & ->).
    destruct (cleanupAlerts_NoFault t2
                (mkWorld (with_alerts (swept t1 (alerts (db w))) (db w))
                         (console w ++ l1))) as (l3 & ->).
    cbn [fst db alerts with_alerts].
    apply map_eq. intros i. rewrite !swept_lookup.
    destruct (alerts (db w) !! i) as [a|]; [|done].
    unfold stale.
    destruct (decide (Alert.createdAt a < t1 - seven_days)%Z) as [D1|D1];
      destruct (decide (Alert.createdAt a < t2 - seven_days)%Z) as [D2|D2];
      try lia; try done.
    + destruct (is_open (Alert.status a) && (Alert.createdAt a <? t1 - one_day)%Z);
        simpl; by destruct (decide _).
    + destruct (is_open (Alert.status a)) eqn:Ho; simpl.
      * destruct (Alert.createdAt a <? t1 - one_day)%Z eqn:L1; simpl;
          destruct (decide _); try lia.
        -- by replace (Alert.createdAt a <? t2 - one_day)%Z with true by lia.
        -- by rewrite Ho.
      * destruct (decide _); try lia. by rewrite Ho.
  - apply cleanupAlerts_quiet. cbn [db alerts with_alerts].
    intros i a. rewrite swept_lookup.
    destruct (alerts (db w) !! i) as [a0|]; [|done].
    destruct (decide _) as [D|D]; [done|].
    unfold stale. destruct (is_open (Alert.status a0)) eqn:Ho; simpl.
    + destruct (Alert.createdAt a0 <? t1 - one_day)%Z eqn:L; intros [= <-]; simpl.
      * split; [done|lia].
      * rewrite Ho, L. split; [done|lia].
    + intros [= <-]. rewrite Ho. split; [done|lia].
Qed.

Lemma cleanupAlerts_again_witness :
  cleanupAlerts NoFault ten_days (cleanupAlerts NoFault ten_days sweep_world).1
  = ((cleanupAlerts NoFault ten_days sweep_world).1, inr tt).
Proof.
  assert (H : (ten_days <= ten_days)%Z) by lia.
  destruct (cleanupAlerts_again ten_days ten_days sweep_world H) as [_ E].
  exact E.
Defined.

(** ** Declining *)

Lemma find_notified_lookup vid l i e :
  find_notified vid l = Some (i, e) ->
  l !! i = Some e /\ NotifiedVolunteer.volunteer e = vid.
Proof.
  unfold find_notified. intros H. apply list_find_Some in H. tauto.
Qed.

(** X5.  Declining counts and leaves no other trace: for any alert that
    exists, whatever its status and whether or not the caller was notified
    of it, a caller with a volunteer profile gets a 200; the profile's
    [declinedAlerts] goes up by one, and its five other counters
    ([totalResponses], [successfulAssists], [avgResponseTime], [rating],
    [totalRatings]), its badges and its other fields stay; the alert keeps
    its status, its responding volunteer, its response time and its
    timeline.  When the caller was notified, the status of the first entry
    of the caller in the notified-volunteers list becomes [declined], the
    entry keeps its volunteer, its time and its distance, and the other
    entries stay; when the caller was not notified the list is unchanged. *)
Theorem declineAlert_counts_only (caller : ReqUser.t) (id : ObjectId) (now : Time)
    (st : Store) (a : Alert.t) (v : Volunteer.t) :
  alerts st !! id = Some a ->
  findOne_by_user (ReqUser.id caller) (volunteers st) = Some v ->
  let res := declineAlert caller id now st in
  res.2 = Json 200 true "Alert declined" NoData
  /\ (exists a',
        alerts res.1 !! id = Some a'
        /\ Alert.status a' = Alert.status a
        /\ Alert.respondingVolunteer a' = Alert.respondingVolunteer a
        /\ Alert.responseTime a' = Alert.responseTime a
        /\ Alert.timeline a' = Alert.timeline a
        /\ (forall i e,
             find_notified (Volunteer._id v) (Alert.notifiedVolunteers a) = Some (i, e) ->
             Alert.notifiedVolunteers a' !! i
             = Some (NotifiedVolunteer.with_status Declined e))
        /\ List.length (Alert.notifiedVolunteers a')
           = List.length (Alert.notifiedVolunteers a)
        /\ (forall i e,
             find_notified (Volunteer._id v) (Alert.notifiedVolunteers a) = Some (i, e) ->
             Alert.notifiedVolunteers a !! i = Some e
             /\ NotifiedVolunteer.volunteer e = Volunteer._id v
             /\ (forall j y, j < i -> Alert.notifiedVolunteers a !! j = Some y ->
                             NotifiedVolunteer.volunteer y <> Volunteer._id v)
             /\ (exists e',
                   Alert.notifiedVolunteers a' !! i = Some e'
                   /\ NotifiedVolunteer.status e' = Declined
                   /\ NotifiedVolunteer.volunteer e' = Volunteer._id v
                   /\ NotifiedVolunteer.notifiedAt e' = NotifiedVolunteer.notifiedAt e
                   /\ NotifiedVolunteer.distance e' = NotifiedVolunteer.distance e)
             /\ forall j, j <> i ->
                  Alert.notifiedVolunteers a' !! j = Alert.notifiedVolunteers a !! j)
        /\ (find_notified (Volunteer._id v) (Alert.notifiedVolunteers a) = None ->
            Forall (fun y => NotifiedVolunteer.volunteer y <> Volunteer._id v)
                   (Alert.notifiedVolunteers a)
            /\ Alert.notifiedVolunteers a' = Alert.notifiedVolunteers a))
  /\ (exists w,
        Volunteer_findById (Volunteer._id v) (volunteers res.1) = Some w
        /\ Stats.declinedAlerts (Volunteer.stats w)
           = (Stats.declinedAlerts (Volunteer.stats v) + 1)%N
        /\ Stats.totalResponses (Volunteer.stats w)
           = Stats.totalResponses (Volunteer.stats v)
        /\ Stats.successfulAssists (Volunteer.stats w)
           = Stats.successfulAssists (Volunteer.stats v)
        /\ Stats.avgResponseTime (Volunteer.stats w)
           = Stats.avgResponseTime (Volunteer.stats v)
        /\ Stats.rating (Volunteer.stats w) = Stats.rating (Volunteer.stats v)
        /\ Stats.totalRatings (Volunteer.stats w)
           = Stats.totalRatings (Volunteer.stats v)
        /\ Volunteer.badges w = Volunteer.badges v
        /\ Volunteer._id w = Volunteer._id v
        /\ Volunteer.user w = Volunteer.user v
        /\ Volunteer.isVerified w = Volunteer.isVerified v
        /\ Volunteer.status w = Volunteer.status v
        /\ Volunteer.isOnDuty w = Volunteer.isOnDuty v
        /\ Volunteer.currentLocation w = Volunteer.currentLocation v).
Proof.
  intros Ha Hv. cbv zeta. unfold declineAlert. rewrite Ha, Hv.
  cbn [fst snd]. split; [done|]. split.
  - destruct (find_notified _ _) as [[i e]|] eqn:Hf.
    + eexists. split; [apply lookup_save_alert|]. cbn.
      repeat (split; [done|]).
      pose proof Hf as Hfirst.
      unfold find_notified in Hfirst. apply list_find_Some in Hfirst as (_ & _ & Hfirst).
      apply find_notified_lookup in Hf as [Hi Hvol].
      assert (Hlt : i < List.length (Alert.notifiedVolunteers a))
        by (by eapply lookup_lt_Some).
      split.
      { intros i' e' [= <- <-]. by apply list_lookup_insert_eq. }
      split; [by rewrite length_insert|].
      split; [|intros; discriminate].
      intros i' e' [= <- <-].
      split; [done|]. split; [done|].
      split.
      { intros j y Hj Hy. exact (Hfirst j y Hy Hj). }
      split.
      { exists (NotifiedVolunteer.with_status Declined e).
        split; [by apply list_lookup_insert_eq|]. by destruct e. }
      intros j Hj. by apply list_lookup_insert_ne.
    + exists a. cbn. split; [done|].
      repeat (split; [done || (intros; discriminate)|]).
      intros _. split; [|done].
      unfold find_notified in Hf. apply list_find_None in Hf.
      apply List.Forall_forall. rewrite Forall_forall in Hf.
      intros y Hy. apply Hf. by apply list_elem_of_In.
  - exists (Volunteer.pre_save now (with_declined v)). split; [|by destruct v].
    apply findOne_In in Hv as [Hin _].
    destruct (find_notified _ _) as [[i e]|];
      apply (findById_save (Volunteer.pre_save now (with_declined v)));
      by exists v.
Qed.

Lemma declineAlert_counts_only_witness :
  (exists a',
     alerts (declineAlert bob 100 5000 (scenario Active)).1 !! 100%N = Some a'
     /\ exists e',
          Alert.notifiedVolunteers a' !! 0 = Some e'
          /\ NotifiedVolunteer.status e' = Declined)
  /\ exists w,
       Volunteer_findById 20
         (volunteers (declineAlert bob 100 5000 (scenario Active)).1) = Some w
       /\ Stats.declinedAlerts (Volunteer.stats w) = 1%N
       /\ Stats.totalRatings (Volunteer.stats w) = 0%N.
Proof.
  destruct (declineAlert_counts_only bob 100 5000 (scenario Active)
              (alert_of_alice Active) bob_profile eq_refl eq_refl)
    as (_ & (a' & Ha & _ & _ & _ & _ & _ & _ & Hn & _)
        & w & Hw & Hd & _ & _ & _ & _ & Ht & _).
  split.
  - exists a'. split; [exact Ha|].
    destruct (Hn 0 (NotifiedVolunteer.mk 20 1000 (Some 120%Z) Notified) eq_refl)
      as (_ & _ & _ & (e' & He & Hs & _) & _).
    exists e'. split; [exact He|exact Hs].
  - exists w. split; [exact Hw|]. split; [exact Hd|exact Ht].
Defined.

(** ** Operations of the owner *)

(** X6.  Cancelling, sending a location update and submitting feedback are
    the owner's alone: any other caller, an admin or the responding
    volunteer included, is answered 403 and the store is left as it was. *)
Theorem owner_only_operations (r : Request) (caller : ReqUser.t) (id : ObjectId)
    (now : Time) (st : Store) (a : Alert.t) :
  alerts st !! id = Some a ->
  Alert.user a <> ReqUser.id caller ->
  match r with
  | ReqCancel | ReqFeedback _ _ | ReqLocation _ _ =>
      (handle r caller id now st).1 = st /\ is_forbidden (handle r caller id now st).2
  | _ => True
  end.
Proof.
  intros Ha Hne. apply N.eqb_neq in Hne.
  destruct r; try done; cbn [handle];
    unfold cancelAlert, submitFeedback, updateAlertLocation;
    rewrite Ha, Hne; cbn; (split; [done|by eexists]).
Qed.

Lemma owner_only_operations_witness :
  (handle ReqCancel (ReqUser.mk 9 "Root" RAdmin) 100 5000 (scenario Active)).1
  = scenario Active
  /\ is_forbidden
       (handle ReqCancel (ReqUser.mk 9 "Root" RAdmin) 100 5000 (scenario Active)).2.
Proof.
  apply (owner_only_operations ReqCancel (ReqUser.mk 9 "Root" RAdmin) 100 5000
           (scenario Active) (alert_of_alice Active) eq_refl).
  cbn. lia.
Defined.

(** X7.  A cancellation is saved before the responding volunteer is looked
    up for the notification: the owner's cancel of an alert that is neither
    resolved nor cancelled stores the alert as cancelled, with one more
    timeline entry and its responding volunteer and resolution kept, and
    this also when the handler then throws because the responding
    volunteer's profile no longer exists. *)
Theorem cancelAlert_saved_before_notifying (caller : ReqUser.t) (id : ObjectId)
    (now : Time) (st : Store) (a : Alert.t) :
  alerts st !! id = Some a ->
  Alert.user a = ReqUser.id caller ->
  Alert.status a <> Resolved ->
  Alert.status a <> Cancelled ->
  let res := cancelAlert caller id now st in
  (exists a',
     alerts res.1 !! id = Some a'
     /\ Alert.status a' = Cancelled
     /\ Alert.timeline a'
        = Alert.timeline a
          ++ [TimelineEntry.mk "cancelled" "Alert cancelled by user"
                               (ReqUser.id caller) now]
     /\ Alert.respondingVolunteer a' = Alert.respondingVolunteer a
     /\ Alert.resolution a' = Alert.resolution a)
  /\ volunteers res.1 = volunteers st
  /\ (res.2 = Json 200 true "Alert cancelled successfully" NoData
      \/ res.2 = Thrown "TypeError")
  /\ (forall vid,
        RespondingVolunteer.volunteer (Alert.respondingVolunteer a) = Some vid ->
        Volunteer_findById vid (volunteers st) = None ->
        res.2 = Thrown "TypeError").
Proof.
  intros Ha Hu Hr Hc. cbv zeta. unfold cancelAlert. rewrite Ha, Hu, N.eqb_refl.
  replace (AlertStatus_eqb (Alert.status a) Resolved) with false
    by (by destruct (Alert.status a)).
  replace (AlertStatus_eqb (Alert.status a) Cancelled) with false
    by (by destruct (Alert.status a)).
  cbn [negb orb].
  cbn [Alert.respondingVolunteer push_timeline Alert.with_timeline
       Alert.with_status].
  assert (Hs : forall r : Response,
             (exists a',
                ((save_alert now id
                    (push_timeline "cancelled" "Alert cancelled by user"
                       (ReqUser.id caller) now (Alert.with_status Cancelled a)) st,
                  r).1).(alerts) !! id = Some a'
                /\ Alert.status a' = Cancelled
                /\ Alert.timeline a'
                   = Alert.timeline a
                     ++ [TimelineEntry.mk "cancelled" "Alert cancelled by user"
                                          (ReqUser.id caller) now]
                /\ Alert.respondingVolunteer a' = Alert.respondingVolunteer a
                /\ Alert.resolution a' = Alert.resolution a)).
  { intros r. eexists. split; [apply lookup_save_alert|]. by cbn. }
  destruct (RespondingVolunteer.volunteer (Alert.respondingVolunteer a)) as [vid|].
  - cbn [volunteers save_alert with_alerts].
    destruct (Volunteer_findById vid (volunteers st)) eqn:Hf.
    + split; [apply Hs|]. split; [done|]. split; [by left|].
      intros ? [= <-]. congruence.
    + split; [apply Hs|]. split; [done|]. split; [by right|]. done.
  - split; [apply Hs|]. split; [done|]. split; [by left|]. done.
Qed.

Lemma cancelAlert_saved_before_notifying_witness :
  exists a',
    alerts (cancelAlert alice 100 5000 (scenario Expired)).1 !! 100%N = Some a'
    /\ Alert.status a' = Cancelled.
Proof.
  destruct (cancelAlert_saved_before_notifying alice 100 5000 (scenario Expired)
              (alert_of_alice Expired) eq_refl eq_refl)
    as ((a' & Ha & Hs & _) & _); [discriminate | discriminate |].
  exists a'. split; [exact Ha | exact Hs].
Defined.

(** ** Tracking *)

Lemma last_default_irrelevant {A : Type} (x : A) (l : list A) (d d' : A) :
  List.last (x :: l) d = List.last (x :: l) d'.
Proof.
  revert x. induction l as [|y l IH]; intros x; [done|].
  change (List.last (y :: l) d = List.last (y :: l) d'). apply IH.
Qed.

Lemma last_cons_default {A : Type} (x : A) (l : list A) (d : A) :
  List.last (x :: l) d = List.last l x.
Proof.
  destruct l as [|y l]; [done|].
  change (List.last (y :: l) d = List.last (y :: l) x).
  apply last_default_irrelevant.
Qed.

Lemma updateAlertLocation_saved caller id la lo now st a :
  alerts st !! id = Some a ->
  Alert.user a = ReqUser.id caller ->
  Alert.status a <> Resolved ->
  Alert.status a <> Cancelled ->
  updateAlertLocation caller id la lo now st
  = (save_alert now id
       (Alert.with_locationHistory
          (Alert.locationHistory a ++ [(mkPoint lo la, now)])
          (Alert.with_location
             (Location.mk (mkPoint lo la) (Location.address (Alert.location a))
                          (Some now)) a)) st,
     Json 200 true "Location updated" NoData).
Proof.
  intros Ha Hu Hr Hc. unfold updateAlertLocation. rewrite Ha, Hu, N.eqb_refl.
  replace (AlertStatus_eqb (Alert.status a) Resolved) with false
    by (by destruct (Alert.status a)).
  replace (AlertStatus_eqb (Alert.status a) Cancelled) with false
    by (by destruct (Alert.status a)).
  done.
Qed.

(** X8.  Live tracking keeps every position: after any run of location
    updates by the owner of an alert that is neither resolved nor cancelled
    (an expired one included), the location history is the old one followed
    by the positions sent, in order; the current location is the last one
    sent; the address, the status and the timeline are those of before. *)
Theorem location_history_is_the_track (caller : ReqUser.t) (id : ObjectId)
    (ps : list (Q * Q * Time)) (st : Store) (a : Alert.t) :
  alerts st !! id = Some a ->
  Alert.user a = ReqUser.id caller ->
  Alert.status a <> Resolved ->
  Alert.status a <> Cancelled ->
  exists a',
    alerts (track caller id ps st) !! id = Some a'
    /\ Alert.locationHistory a' = Alert.locationHistory a ++ List.map history_entry ps
    /\ Location.coordinates (Alert.location a')
       = List.last (List.map (fun p => (history_entry p).1) ps)
              (Location.coordinates (Alert.location a))
    /\ Location.address (Alert.location a') = Location.address (Alert.location a)
    /\ Alert.status a' = Alert.status a
    /\ Alert.timeline a' = Alert.timeline a.
Proof.
  revert st a. induction ps as [|[[la lo] t] ps IH]; intros st a Ha Hu Hr Hc.
  - exists a. cbn. by rewrite app_nil_r.
  - unfold track. cbn [fold_left]. fold (track caller id ps).
    cbn [fst snd].
    rewrite (updateAlertLocation_saved _ _ _ _ _ _ a) by done. cbn [fst].
    match goal with
    | |- context [fold_left _ ps (save_alert ?n ?i ?b ?s)] =>
        destruct (IH (save_alert n i b s) (Alert.pre_save n b))
          as (a' & Ha' & Hh & Hl & Had & Hs & Ht);
          [apply lookup_save_alert|cbn; done..|]
    end.
    exists a'. split; [exact Ha'|]. cbn in Hh, Hl, Had, Hs, Ht.
    split; [by rewrite Hh, <- app_assoc|].
    split; [|done].
    rewrite Hl. cbn [List.map].
    change (fun p : Q * Q * Time => {| lng := p.1.2; lat := p.1.1 |})
      with (fun p : Q * Q * Time => (history_entry p).1).
    symmetry. apply last_cons_default.
Qed.

Lemma location_history_is_the_track_witness :
  exists a',
    alerts (track alice 100 [(1%Q, 2%Q, 5000%Z); (3%Q, 4%Q, 6000%Z)]
                  (scenario Expired)) !! 100%N = Some a'
    /\ Alert.locationHistory a'
       = [(mkPoint 2 1, 5000%Z); (mkPoint 4 3, 6000%Z)].
Proof.
  destruct (location_history_is_the_track alice 100
              [(1%Q, 2%Q, 5000%Z); (3%Q, 4%Q, 6000%Z)] (scenario Expired)
              (alert_of_alice Expired) eq_refl eq_refl)
    as (a' & Ha & Hh & _); [discriminate | discriminate |].
  exists a'. split; [exact Ha | exact Hh].
Defined.

(** ** Credits of the responding volunteer *)

Lemma findOne_save_list uid v v' vs :
  findOne_by_user uid vs = Some v ->
  Volunteer.user v' = uid ->
  Volunteer._id v' = Volunteer._id v ->
  findOne_by_user uid
    (List.map (fun w => if (Volunteer._id w =? Volunteer._id v')%N then v' else w) vs)
  = Some v'.
Proof.
  intros H Hu Hi. unfold findOne_by_user in *.
  induction vs as [|x vs IH]; [done|]. cbn [List.map find] in *.
  destruct (Volunteer.user x =? uid)%N eqn:Ex.
  - injection H as ->. rewrite Hi, N.eqb_refl, Hu, N.eqb_refl. done.
  - destruct (Volunteer._id x =? Volunteer._id v')%N.
    + by rewrite Hu, N.eqb_refl.
    + rewrite Ex. by apply IH.
Qed.

Lemma findOne_save uid v v' st :
  findOne_by_user uid (volunteers st) = Some v ->
  Volunteer.user v' = uid ->
  Volunteer._id v' = Volunteer._id v ->
  findOne_by_user uid (volunteers (save_volunteer v' st)) = Some v'.
Proof. apply findOne_save_list. Qed.

Lemma checkBadges_user now v : Volunteer.user (checkBadges now v).1 = Volunteer.user v.
Proof. unfold checkBadges. by destruct (0 <? _)%nat. Qed.

Lemma findOne_run_checkBadges now uid v st :
  findOne_by_user uid (volunteers st) = Some v ->
  exists w,
    findOne_by_user uid (volunteers (run_checkBadges now v st)) = Some w
    /\ Volunteer.stats w = Volunteer.stats v
    /\ Volunteer._id w = Volunteer._id v.
Proof.
  intros H. unfold run_checkBadges.
  pose proof (checkBadges_id now v) as Hid.
  pose proof (checkBadges_stats now v) as Hst.
  pose proof (checkBadges_user now v) as Hu.
  destruct (checkBadges now v) as [v' l]. simpl in Hid, Hst, Hu.
  destruct (0 <? List.length l)%nat.
  - exists v'. split; [|done]. apply (findOne_save uid v); [done| |done].
    rewrite Hu. by apply findOne_In in H as [_ ?].
  - by exists v.
Qed.

Lemma resolveAlert_responder_step caller id notes rating fb now st a v :
  alerts st !! id = Some a ->
  findOne_by_user (ReqUser.id caller) (volunteers st) = Some v ->
  RespondingVolunteer.volunteer (Alert.respondingVolunteer a) = Some (Volunteer._id v) ->
  let st' := (resolveAlert caller id notes rating fb now st).1 in
  exists a' w,
    alerts st' !! id = Some a'
    /\ Alert.respondingVolunteer a' = Alert.respondingVolunteer a
    /\ findOne_by_user (ReqUser.id caller) (volunteers st') = Some w
    /\ Volunteer._id w = Volunteer._id v
    /\ Stats.totalResponses (Volunteer.stats w)
       = (Stats.totalResponses (Volunteer.stats v) + 1)%N
    /\ Stats.successfulAssists (Volunteer.stats w)
       = (Stats.successfulAssists (Volunteer.stats v) + 1)%N.
Proof.
  intros Hget Hv Hrv. cbv zeta. unfold resolveAlert.
  rewrite Hget, Hv, Hrv, N.eqb_refl, andb_false_r. cbn [negb andb fst].
  set (a1 := push_timeline _ _ _ _ _).
  set (v1 := updateStats _ _ _ _ _).
  set (st1 := save_volunteer v1 _).
  assert (Hv1 : Volunteer._id v1 = Volunteer._id v
                /\ Volunteer.user v1 = Volunteer.user v
                /\ Stats.totalResponses (Volunteer.stats v1)
                   = (Stats.totalResponses (Volunteer.stats v) + 1)%N
                /\ Stats.successfulAssists (Volunteer.stats v1)
                   = (Stats.successfulAssists (Volunteer.stats v) + 1)%N).
  { unfold v1, updateStats. destruct rating as [r|];
      [destruct (truthy (Some r))|]; done. }
  destruct Hv1 as (Hid & Hus & Ht & Hs).
  assert (H1 : findOne_by_user (ReqUser.id caller) (volunteers st1) = Some v1).
  { apply (findOne_save _ v); [done| |done].
    rewrite Hus. by apply findOne_In in Hv as [_ ?]. }
  destruct (findOne_run_checkBadges now _ v1 st1 H1) as (w & Hw & Hst & Hidw).
  exists (Alert.pre_save now a1), w.
  split; [rewrite alerts_run_checkBadges; apply lookup_save_alert|].
  split; [done|]. split; [exact Hw|]. rewrite Hst. split; [congruence|done].
Qed.

(** X9.  The responding volunteer is credited at every resolve: the handler
    does not look at the status of the alert, so when the responding
    volunteer resolves the same alert again and again, each call adds one
    to the profile's [totalResponses] and one to its [successfulAssists]. *)
Theorem resolve_credits_every_call (caller : ReqUser.t) (id : ObjectId)
    notes rating fb (ts : list Time) (st : Store) (a : Alert.t) (v : Volunteer.t) :
  alerts st !! id = Some a ->
  findOne_by_user (ReqUser.id caller) (volunteers st) = Some v ->
  RespondingVolunteer.volunteer (Alert.respondingVolunteer a) = Some (Volunteer._id v) ->
  exists w,
    findOne_by_user (ReqUser.id caller)
      (volunteers (resolve_all caller id notes rating fb ts st)) = Some w
    /\ Volunteer._id w = Volunteer._id v
    /\ Stats.totalResponses (Volunteer.stats w)
       = (Stats.totalResponses (Volunteer.stats v) + N.of_nat (List.length ts))%N
    /\ Stats.successfulAssists (Volunteer.stats w)
       = (Stats.successfulAssists (Volunteer.stats v) + N.of_nat (List.length ts))%N.
Proof.
  revert st a v. induction ts as [|t ts IH]; intros st a v Ha Hv Hrv.
  - exists v. cbn. rewrite !N.add_0_r. done.
  - destruct (resolveAlert_responder_step caller id notes rating fb t st a v Ha Hv Hrv)
      as (a' & w & Ha' & Hr' & Hw & Hid & Ht & Hs).
    destruct (IH _ a' w Ha' Hw) as (w' & Hw' & Hid' & Ht' & Hs').
    { rewrite Hr', Hrv. by rewrite Hid. }
    exists w'. split; [exact Hw'|]. split; [congruence|].
    rewrite Ht', Hs', Ht, Hs. cbn [List.length]. lia.
Qed.

Lemma resolve_credits_every_call_witness :
  exists w,
    findOne_by_user 2
      (volunteers (resolve_all bob 100 None None None [70000; 80000; 90000]%Z
                               accepted_store)) = Some w
    /\ Stats.totalResponses (Volunteer.stats w) = 3%N.
Proof.
  destruct (resolve_credits_every_call bob 100 None None None
              [70000; 80000; 90000]%Z accepted_store accepted_alert bob_profile
              eq_refl eq_refl eq_refl)
    as (w & Hw & _ & Ht & _).
  exists w. split; [exact Hw | exact Ht].
Defined.

(** ** From the request for help to the acceptance *)

(** X11.  Who can accept a new alert is decided when it is created: of the
    callers with a volunteer profile, exactly those whose profile the
    matcher of createAlert selected can accept the alert that createAlert
    stored.  Such a caller turns the alert to responding, becomes its
    responding volunteer, and the response time is the whole number of
    seconds since the creation; any other is answered 403 and changes
    nothing. *)
Theorem exactly_the_matched_can_accept (env : Env) (caller c : ReqUser.t)
    (body : CreateBody.t) (now t : Time) (st : Store) (la lo : Q)
    (ty : AlertType) (v : Volunteer.t) :
  CreateBody.latitude body = Some la ->
  CreateBody.longitude body = Some lo ->
  truthy (Some la) = true ->
  truthy (Some lo) = true ->
  parse_AlertType (type_or_sos (CreateBody.type body)) = Some ty ->
  findOne_by_user (ReqUser.id c) (volunteers st) = Some v ->
  let id := new_ObjectId env in
  let matched :=
    List.map Volunteer._id (nearbyVolunteers env (mkPoint lo la) (volunteers st)) in
  let st1 := (createAlert env caller body now st).1.1 in
  let res := acceptAlert c id t st1 in
  (In (Volunteer._id v) matched ->
   is_success res.2
   /\ exists a',
        alerts res.1 !! id = Some a'
        /\ Alert.status a' = Responding
        /\ RespondingVolunteer.volunteer (Alert.respondingVolunteer a')
           = Some (Volunteer._id v)
        /\ Alert.responseTime a' = Some (floor_seconds (t - now)))
  /\ (~ In (Volunteer._id v) matched ->
      res = (st1, Json 403 false "You were not notified for this alert" NoData)).
Proof.
  intros Hla Hlo Htla Htlo Hty Hv. cbv zeta.
  rewrite (createAlert_created env caller body now st la lo ty) by done.
  cbn [fst]. unfold acceptAlert.
  cbn [alerts with_alerts volunteers]. rewrite lookup_insert_eq.
  cbn [Alert.status Alert.pre_save created_alert AlertStatus_eqb negb].
  rewrite Hv. cbn [Alert.notifiedVolunteers].
  set (near := nearbyVolunteers env _ _).
  split.
  - intros Hin. destruct (find_notified _ _) as [[i e]|] eqn:Hf.
    + cbn [fst snd]. split; [by do 2 eexists|].
      eexists. split; [apply lookup_save_alert|]. by cbn.
    + apply find_notified_None in Hf. destruct Hf.
      apply List.Exists_exists. apply in_map_iff in Hin as (w & Hw & Hin).
      exists (notified_entry env la lo now w). split; [by apply in_map|].
      by cbn.
  - intros Hnin. destruct (find_notified _ _) as [[i e]|] eqn:Hf; [|done].
    apply find_notified_Some in Hf. destruct Hnin.
    apply List.Exists_exists in Hf as (x & Hx & Hid).
    apply in_map_iff in Hx as (w & <- & Hw). cbn in Hid. rewrite <- Hid.
    by apply in_map.
Qed.

Lemma exactly_the_matched_can_accept_witness :
  is_success
    (acceptAlert bob (new_ObjectId demo_env) 61000
       (createAlert demo_env alice sos_body 1000 demo_store).1.1).2.
Proof.
  destruct (exactly_the_matched_can_accept demo_env alice bob sos_body 1000 61000
              demo_store (129716 # 10000)%Q (775946 # 10000)%Q Sos bob_profile
              eq_refl eq_refl eq_refl eq_refl eq_refl eq_refl) as [H _].
  apply H. vm_compute. by left.
Defined.

(** ** The Twilio service: one failure does not stop the loop *)

Lemma twilio_sendSMS_effect c to m :
  exists e, (twilioService.sendSMS c to m).2 = [e] /\ is_call e = false.
Proof.
  unfold twilioService.sendSMS.
  destruct (negb _); [by eexists|]. destruct (twilioService.messages_create _ _ _);
    by eexists.
Qed.

Lemma twilio_makeCall_effect c to m :
  (twilioService.makeCall c to m).2
  = [(if twilioService.configured c then CallRequest else CallStub)
       (twilioService.normalizePhone c to) m].
Proof.
  unfold twilioService.makeCall.
  destruct (twilioService.configured c); cbn [negb]; [|done].
  by destruct (twilioService.calls_create _ _ _).
Qed.

Lemma twilio_fold_sms c sms call cs rs es :
  List.map notificationService.contactId
    (List.filter is_sms_result
       (fold_left (twilioService.notify_one c sms call) cs (rs, es)).1)
  = List.map notificationService.contactId (List.filter is_sms_result rs)
    ++ List.map EmergencyContact._id cs.
Proof.
  revert rs es. induction cs as [|x cs IH]; intros rs es; simpl.
  - by rewrite app_nil_r.
  - destruct (twilioService.sendSMS c (EmergencyContact.phone x) sms) as [r1 d1].
    destruct (EmergencyContact.isPrimary x).
    + destruct (twilioService.makeCall c (EmergencyContact.phone x) call) as [r2 d2].
      rewrite IH, !List.filter_app, !List.map_app. simpl.
      by rewrite app_nil_r, <- app_assoc.
    + rewrite IH, !List.filter_app, !List.map_app. simpl.
      by rewrite <- app_assoc.
Qed.

Lemma twilio_fold_lengths c sms call cs rs es :
  let out := fold_left (twilioService.notify_one c sms call) cs (rs, es) in
  let n := List.length cs + List.length (List.filter EmergencyContact.isPrimary cs) in
  List.length out.1 = List.length rs + n
  /\ List.length out.2 = List.length es + n.
Proof.
  cbv zeta. revert rs es. induction cs as [|x cs IH]; intros rs es; simpl.
  - lia.
  - destruct (twilio_sendSMS_effect c (EmergencyContact.phone x) sms) as (e & He & _).
    pose proof (twilio_makeCall_effect c (EmergencyContact.phone x) call) as Hm.
    destruct (twilioService.sendSMS c (EmergencyContact.phone x) sms) as [r1 d1].
    cbn [snd] in He. subst d1.
    destruct (EmergencyContact.isPrimary x).
    + destruct (twilioService.makeCall c (EmergencyContact.phone x) call) as [r2 d2].
      cbn [snd] in Hm. subst d2.
      destruct (IH (((rs ++ [notificationService.mkResult (EmergencyContact._id x) Sms
                                (twilioService.outcome r1)])
                     ++ [notificationService.mkResult (EmergencyContact._id x) Call
                           (twilioService.outcome r2)]))
                   ((es ++ [e]) ++ [(if twilioService.configured c
                                     then CallRequest else CallStub)
                                      (twilioService.normalizePhone c
                                         (EmergencyContact.phone x)) call]))
        as [-> ->].
      rewrite !List.length_app. cbn [List.length]. lia.
    + destruct (IH (rs ++ [notificationService.mkResult (EmergencyContact._id x) Sms
                             (twilioService.outcome r1)]) (es ++ [e])) as [-> ->].
      rewrite !List.length_app. cbn [List.length]. lia.
Qed.

Lemma twilio_fold_calls c sms call cs rs es :
  List.filter is_call (fold_left (twilioService.notify_one c sms call) cs (rs, es)).2
  = List.filter is_call es
    ++ List.map (fun x => (if twilioService.configured c
                           then CallRequest else CallStub)
                            (twilioService.normalizePhone c (EmergencyContact.phone x))
                            call)
                (List.filter EmergencyContact.isPrimary cs).
Proof.
  revert rs es. induction cs as [|x cs IH]; intros rs es; simpl.
  - by rewrite app_nil_r.
  - destruct (twilio_sendSMS_effect c (EmergencyContact.phone x) sms) as (e & He & Hn).
    pose proof (twilio_makeCall_effect c (EmergencyContact.phone x) call) as Hm.
    destruct (twilioService.sendSMS c (EmergencyContact.phone x) sms) as [r1 d1].
    cbn [snd] in He. subst d1.
    destruct (EmergencyContact.isPrimary x).
    + destruct (twilioService.makeCall c (EmergencyContact.phone x) call) as [r2 d2].
      cbn [snd] in Hm. subst d2.
      rewrite IH, !List.filter_app. cbn [List.filter]. rewrite Hn.
      destruct (twilioService.configured c); cbn [is_call List.map];
        by rewrite app_nil_r, <- app_assoc.
    + rewrite IH, !List.filter_app. cbn [List.filter]. rewrite Hn.
      by rewrite app_nil_r.
Qed.

(** X12.  The Twilio service goes through every contact whatever happens
    to the requests: the SMS results are those of all the contacts, in
    order, the call results those of the primary contacts, every result
    stands for one request or stub, and the calls go to the normalized
    numbers of the primary contacts. *)
Theorem twilio_notifies_every_contact (env : Env) (c : twilioService.Client)
    (cs : list EmergencyContact.t) (user : ReqUser.t) (alert : Alert.t) :
  let out := twilioService.notifyEmergencyContacts env c cs user alert in
  List.map notificationService.contactId (List.filter is_sms_result out.1)
  = List.map EmergencyContact._id cs
  /\ List.map notificationService.contactId (List.filter is_call_result out.1)
     = List.map EmergencyContact._id (List.filter EmergencyContact.isPrimary cs)
  /\ List.length out.1
     = List.length cs + List.length (List.filter EmergencyContact.isPrimary cs)
  /\ List.length out.2 = List.length out.1
  /\ List.filter is_call out.2
     = List.map (fun x => (if twilioService.configured c
                           then CallRequest else CallStub)
                            (twilioService.normalizePhone c (EmergencyContact.phone x))
                            (twilioService.callMessage (ReqUser.name user)))
                (List.filter EmergencyContact.isPrimary cs).
Proof.
  cbv zeta. unfold twilioService.notifyEmergencyContacts.
  set (sms := twilioService.smsMessage _ _ _).
  set (call := twilioService.callMessage _).
  pose proof (twilio_fold_sms c sms call cs [] []) as Hs.
  destruct (twilio_fold_lengths c sms call cs [] []) as [Hl1 Hl2].
  pose proof (twilio_fold_calls c sms call cs [] []) as He.
  pose proof (twilio_fold c sms call cs [] []) as Hc.
  cbn [List.filter List.map List.app List.length] in *.
  split; [exact Hs|]. split; [exact Hc|]. split; [exact Hl1|].
  split; [congruence|exact He].
Qed.

(** ** Phone numbers *)

Section phone_numbers.
Import notificationService.

Ltac bytes :=
  unfold ascii7, cont, lead2, lead3, lead4, stripped, space2, space3 in *;
  cbv zeta in *;
  repeat match goal with
         | H : _ = false |- _ => apply not_true_iff_false in H
         | |- _ = false => apply not_true_iff_false; intro
         end;
  repeat first [ rewrite andb_true_iff in * | rewrite orb_true_iff in *
               | rewrite Nat.eqb_eq in * | rewrite Nat.leb_le in *
               | rewrite Nat.ltb_lt in * ];
  lia.

(** A byte that is no separator and starts no white space is kept. *)
Lemma strip_keep c r :
  stripped c = false ->
  (nat_of_ascii c < 194 \/ 240 <= nat_of_ascii c)%nat ->
  strip (String c r) = String c (strip r).
Proof.
  intros Hs Hc. cbn [strip]. rewrite Hs.
  destruct r as [|c2 r2]; [done|].
  assert (H2 : space2 c c2 = false) by bytes. rewrite H2.
  destruct r2 as [|c3 r3]; [done|].
  assert (H3 : space3 c c2 c3 = false) by bytes. by rewrite H3.
Qed.

Lemma strip_ascii7 c r :
  ascii7 c = true ->
  strip (String c r) = if stripped c then strip r else String c (strip r).
Proof.
  intros Hc. destruct (stripped c) eqn:Hs.
  - cbn [strip]. by rewrite Hs.
  - apply strip_keep; [done|]. bytes.
Qed.

Lemma strip_cont c r : cont c = true -> strip (String c r) = String c (strip r).
Proof. intros Hc. apply strip_keep; bytes. Qed.

Lemma strip_lead2 c c2 r :
  lead2 c = true -> cont c2 = true ->
  strip (String c (String c2 r))
  = if space2 c c2 then strip r else String c (String c2 (strip r)).
Proof.
  intros Hc H2. rewrite <- (strip_cont c2 r H2).
  assert (Hs : stripped c = false) by bytes.
  cbn [strip]. rewrite Hs.
  destruct (space2 c c2); [done|].
  destruct r as [|c3 r3]; [done|].
  assert (H3 : space3 c c2 c3 = false) by bytes. by rewrite H3.
Qed.

Lemma strip_lead3 c c2 c3 r :
  lead3 c = true -> cont c2 = true -> cont c3 = true ->
  strip (String c (String c2 (String c3 r)))
  = if space3 c c2 c3 then strip r else String c (String c2 (String c3 (strip r))).
Proof.
  intros Hc H2 H3.
  rewrite <- (strip_cont c3 r H3), <- (strip_cont c2 _ H2).
  assert (Hs : stripped c = false) by bytes.
  assert (Hn : space2 c c2 = false) by bytes.
  cbn [strip]. rewrite Hs, Hn. by destruct (space3 c c2 c3).
Qed.

Lemma strip_lead4 c c2 c3 c4 r :
  lead4 c = true -> cont c2 = true -> cont c3 = true -> cont c4 = true ->
  strip (String c (String c2 (String c3 (String c4 r))))
  = String c (String c2 (String c3 (String c4 (strip r)))).
Proof.
  intros Hc H2 H3 H4.
  rewrite <- (strip_cont c4 r H4), <- (strip_cont c3 _ H3), <- (strip_cont c2 _ H2).
  apply strip_keep; bytes.
Qed.

(** Induction on the characters of a string. *)
Lemma well_formed_chars (P : string -> Prop) :
  P "" ->
  (forall c r, ascii7 c = true -> well_formed r = true -> P r -> P (String c r)) ->
  (forall c c2 r, lead2 c = true -> cont c2 = true -> well_formed r = true -> P r ->
                  P (String c (String c2 r))) ->
  (forall c c2 c3 r, lead3 c = true -> cont c2 = true -> cont c3 = true ->
                     well_formed r = true -> P r ->
                     P (String c (String c2 (String c3 r)))) ->
  (forall c c2 c3 c4 r, lead4 c = true -> cont c2 = true -> cont c3 = true ->
                        cont c4 = true -> well_formed r = true -> P r ->
                        P (String c (String c2 (String c3 (String c4 r))))) ->
  forall s, well_formed s = true -> P s.
Proof.
  intros H0 H1 H2 H3 H4 s.
  remember (String.length s) as n eqn:Hn.
  revert s Hn. induction n as [n IH] using lt_wf_ind. intros s -> Hw.
  destruct s as [|c r]; [exact H0|].
  cbn [well_formed] in Hw.
  destruct (ascii7 c) eqn:E1.
  { apply H1; [done..|]. eapply IH; [|reflexivity|done]. simpl. lia. }
  destruct r as [|c2 r2]; [discriminate|].
  destruct (cont c2) eqn:C2; [|discriminate].
  destruct (lead2 c) eqn:E2.
  { apply H2; [done..|]. eapply IH; [|reflexivity|done]. simpl. lia. }
  destruct r2 as [|c3 r3]; [discriminate|].
  destruct (cont c3) eqn:C3; [|discriminate].
  destruct (lead3 c) eqn:E3.
  { apply H3; [done..|]. eapply IH; [|reflexivity|done]. simpl. lia. }
  destruct r3 as [|c4 r4]; [discriminate|].
  apply andb_true_iff in Hw as [Hw Hr]. apply andb_true_iff in Hw as [C4 E4].
  apply H4; [done..|]. eapply IH; [|reflexivity|done]. simpl. lia.
Qed.

Lemma strip_app s1 s2 :
  well_formed s1 = true ->
  strip (s1 +:+ s2) = strip s1 +:+ strip s2.
Proof.
  intros Hw. revert s2. pattern s1. revert s1 Hw. apply well_formed_chars.
  - done.
  - intros c r Hc _ IH s2.
    change (String c r +:+ s2) with (String c (r +:+ s2)).
    rewrite !strip_ascii7, IH by done. by destruct (stripped c).
  - intros c c2 r Hc H2 _ IH s2.
    change (String c (String c2 r) +:+ s2) with (String c (String c2 (r +:+ s2))).
    rewrite !strip_lead2, IH by done. by destruct (space2 c c2).
  - intros c c2 c3 r Hc H2 H3 _ IH s2.
    change (String c (String c2 (String c3 r)) +:+ s2)
      with (String c (String c2 (String c3 (r +:+ s2)))).
    rewrite !strip_lead3, IH by done. by destruct (space3 c c2 c3).
  - intros c c2 c3 c4 r Hc H2 H3 H4 _ IH s2.
    change (String c (String c2 (String c3 (String c4 r))) +:+ s2)
      with (String c (String c2 (String c3 (String c4 (r +:+ s2))))).
    by rewrite !strip_lead4, IH.
Qed.

Lemma strip_idemp s :
  well_formed s = true -> strip (strip s) = strip s.
Proof.
  revert s. apply well_formed_chars.
  - done.
  - intros c r Hc _ IH. rewrite strip_ascii7 by done.
    destruct (stripped c) eqn:E; [done|].
    by rewrite strip_ascii7, E, IH.
  - intros c c2 r Hc H2 _ IH. rewrite strip_lead2 by done.
    destruct (space2 c c2) eqn:E; [done|].
    by rewrite strip_lead2, E, IH.
  - intros c c2 c3 r Hc H2 H3 _ IH. rewrite strip_lead3 by done.
    destruct (space3 c c2 c3) eqn:E; [done|].
    by rewrite strip_lead3, E, IH.
  - intros c c2 c3 c4 r Hc H2 H3 H4 _ IH.
    by rewrite !strip_lead4, IH.
Qed.

(** What [strip] removes: a separator of ASCII, the no-break space and
    the white space of three bytes, wherever it stands. *)
Lemma strip_separator (x r : string) :
  In x ([" "; "-"; "("; ")"; nbsp; thin_space]
        ++ [String "009" ""; String "010" ""; String "011" ""; String "012" "";
            String "013" ""]
        ++ List.map (fun d => String "226" (String "128" (String (ascii_of_nat d) "")))
                    [128; 129; 130; 131; 132; 133; 134; 135; 136; 137; 138;
                     168; 169; 175]
        ++ [String "225" (String "154" (String "128" ""));
            String "226" (String "129" (String "159" ""));
            String "227" (String "128" (String "128" ""));
            String "239" (String "187" (String "191" ""))]) ->
  strip (x +:+ r) = strip r.
Proof.
  intros Hx. cbn in Hx.
  repeat (destruct Hx as [<-|Hx]; [reflexivity|]). destruct Hx.
Qed.

Lemma prefix_nil s : String.prefix "" s = true.
Proof. by destruct s. Qed.

Lemma substring_all s : String.substring 0 (String.length s) s = s.
Proof. induction s as [|c s IH]; [done|]. simpl. by rewrite IH. Qed.

Lemma slice_1 a d : slice 1 (String a d) = d.
Proof.
  unfold slice. cbn [String.length Nat.sub String.substring].
  rewrite Nat.sub_0_r. apply substring_all.
Qed.

Lemma slice_2 a b d : slice 2 (String a (String b d)) = d.
Proof.
  unfold slice. cbn [String.length Nat.sub String.substring].
  rewrite Nat.sub_0_r. apply substring_all.
Qed.

Lemma slice_3 a b c d : slice 3 (String a (String b (String c d))) = d.
Proof.
  unfold slice. cbn [String.length Nat.sub String.substring].
  rewrite Nat.sub_0_r. apply substring_all.
Qed.

Lemma prefix_plus_91 d : String.prefix "+" d = false -> String.prefix "+91" d = false.
Proof.
  destruct d as [|a d]; [done|]. cbn [String.prefix].
  destruct (ascii_dec "+" a); [|done]. by rewrite prefix_nil.
Qed.

(** X13.  [cleanPhone] brings the usual spellings of an Indian mobile
    number to the same ten characters: for a number [d] of ten characters
    (ten UTF-16 code units) that starts neither with [+] nor with [0], the
    input may carry white space of the class [\s], ASCII or not, dashes
    and parentheses anywhere, and one of the prefixes +91, 91, 0 or +910,
    and the result is [d]. *)
Theorem cleanPhone_spellings (d p s : string) :
  js_length d = 10 ->
  String.prefix "+" d = false ->
  String.prefix "0" d = false ->
  In p [""; "+91"; "91"; "0"; "+910"] ->
  strip s = p +:+ d ->
  cleanPhone s = d.
Proof.
  intros Hlen Hplus Hzero Hp Hs.
  unfold cleanPhone. rewrite Hs. clear Hs s.
  pose proof (prefix_plus_91 d Hplus) as H91.
  cbn [In] in Hp.
  destruct Hp as [<-|[<-|[<-|[<-|[<-|[]]]]]].
  - change ("" +:+ d) with d. rewrite H91, Hlen, andb_false_r, Hzero. done.
  - change (String.prefix "+91" ("+91" +:+ d)) with (String.prefix "" d).
    rewrite prefix_nil.
    change (slice 3 ("+91" +:+ d)) with (slice 3 (String "+" (String "9" (String "1" d)))).
    rewrite slice_3, Hlen, andb_false_r, Hzero. done.
  - change (String.prefix "+91" ("91" +:+ d)) with false. cbv iota.
    change (String.prefix "91" ("91" +:+ d)) with (String.prefix "" d).
    change (js_length ("91" +:+ d)) with (S (S (js_length d))).
    rewrite prefix_nil, Hlen. cbn [Nat.eqb andb].
    change (slice 2 ("91" +:+ d)) with (slice 2 (String "9" (String "1" d))).
    rewrite slice_2, Hzero. done.
  - change (String.prefix "+91" ("0" +:+ d)) with false. cbv iota.
    change (String.prefix "91" ("0" +:+ d)) with false. cbn [andb].
    change (String.prefix "0" ("0" +:+ d)) with (String.prefix "" d).
    rewrite prefix_nil.
    change (slice 1 ("0" +:+ d)) with (slice 1 (String "0" d)).
    apply slice_1.
  - change (String.prefix "+91" ("+910" +:+ d)) with (String.prefix "" ("0" +:+ d)).
    rewrite prefix_nil.
    change (slice 3 ("+910" +:+ d))
      with (slice 3 (String "+" (String "9" (String "1" (String "0" d))))).
    rewrite slice_3.
    change (String.prefix "91" (String "0" d)) with false. cbn [andb].
    change (String.prefix "0" (String "0" d)) with (String.prefix "" d).
    rewrite prefix_nil. apply slice_1.
Qed.

Lemma cleanPhone_spellings_witness :
  cleanPhone ("+91" +:+ nbsp +:+ "(98765)" +:+ thin_space +:+ "432-10")
  = "9876543210".
Proof.
  apply (cleanPhone_spellings "9876543210" "+91"
           ("+91" +:+ nbsp +:+ "(98765)" +:+ thin_space +:+ "432-10"));
    [reflexivity | reflexivity | reflexivity | cbn; tauto | reflexivity].
Defined.

(** X14.  [normalizePhone] gives a number in the form the Twilio service
    wants and is stable: when the configured default country code, if any,
    starts with [+] and has no separators, the result starts with [+], has
    no white space, dashes or parentheses, depends on the input only up to
    these separators, and normalizing it again changes nothing.  The
    separators are those of the class [[\s\-()]], among them the white
    space outside ASCII. *)
Theorem normalizePhone_stable (c : twilioService.Client) (phone : string) :
  well_formed phone = true ->
  (forall code, twilioService.defaultCountryCode c = Some code ->
     code <> "" ->
     String.prefix "+" code = true /\ well_formed code = true
     /\ strip code = code) ->
  let n := twilioService.normalizePhone c phone in
  String.prefix "+" n = true
  /\ strip n = n
  /\ twilioService.normalizePhone c n = n
  /\ twilioService.normalizePhone c (strip phone) = n.
Proof.
  intros Hw Hcode. cbv zeta. unfold twilioService.normalizePhone.
  rewrite !strip_idemp by done.
  set (code := match twilioService.defaultCountryCode c with
               | Some code => if String.eqb code "" then "+91" else code
               | None => "+91"
               end).
  assert (Hc : String.prefix "+" code = true /\ well_formed code = true
               /\ strip code = code).
  { unfold code. destruct (twilioService.defaultCountryCode c) as [k|]; [|done].
    destruct (String.eqb k "") eqn:E; [done|].
    apply Hcode; [done|]. intros ->. discriminate. }
  destruct Hc as (Hp & Hwc & Hst).
  destruct (String.prefix "+" (strip phone)) eqn:E.
  - rewrite strip_idemp, E by done. done.
  - assert (Hpre : String.prefix "+" (code +:+ strip phone) = true).
    { destruct code as [|a r]; [done|].
      change (String a r +:+ ?x) with (String a (r +:+ x)).
      cbn [String.prefix] in *. destruct (ascii_dec "+" a); [|done].
      apply prefix_nil. }
    rewrite strip_app, Hst, strip_idemp, Hpre by done. done.
Qed.

Lemma normalizePhone_stable_witness :
  twilioService.normalizePhone
    (twilioService.mkClient false (Some "+1") (fun _ _ => true) (fun _ _ => true))
    ("(415)" +:+ nbsp +:+ "555-0100")
  = "+14155550100"
  /\ twilioService.normalizePhone
       (twilioService.mkClient false (Some "+1") (fun _ _ => true) (fun _ _ => true))
       "+14155550100"
     = "+14155550100".
Proof.
  destruct (normalizePhone_stable
              (twilioService.mkClient false (Some "+1") (fun _ _ => true)
                                      (fun _ _ => true))
              ("(415)" +:+ nbsp +:+ "555-0100") eq_refl) as (_ & _ & H & _).
  - intros code [= <-] _. repeat split; reflexivity.
  - split; [reflexivity | exact H].
Defined.

End phone_numbers.

(** ** The emergency contacts *)

Lemma filter_map_same {A : Type} (P : A -> bool) (f : A -> A) (l : list A) :
  (forall x, In x l -> P (f x) = P x /\ (P x = true -> f x = x)) ->
  List.filter P (List.map f l) = List.filter P l.
Proof.
  induction l as [|a l IH]; intros H; [done|]. cbn [List.map List.filter].
  destruct (H a (or_introl eq_refl)) as [H1 H2]. rewrite H1.
  rewrite IH by (intros x Hx; apply H; by right).
  destruct (P a); [|done]. by rewrite H2.
Qed.

Lemma NoDup_snoc {A : Type} (l : list A) (a : A) :
  List.NoDup l -> ~ In a l -> List.NoDup (l ++ [a]).
Proof.
  induction l as [|x l IH]; intros Hn Ha; cbn.
  - constructor; [by intros []|constructor].
  - apply List.NoDup_cons_iff in Hn as [Hx Hn].
    apply List.NoDup_cons_iff. split.
    + rewrite in_app_iff. intros [?|[<-|[]]]; [done|]. apply Ha. by left.
    + apply IH; [done|]. intros ?. apply Ha. by right.
Qed.

Lemma NoDup_ids_inj (cs : list EmergencyContact.t) x y :
  List.NoDup (List.map EmergencyContact._id cs) ->
  In x cs -> In y cs -> EmergencyContact._id x = EmergencyContact._id y -> x = y.
Proof.
  induction cs as [|a cs IH]; [done|]. cbn [List.map].
  intros Hn Hx Hy E. apply List.NoDup_cons_iff in Hn as [Ha Hn].
  destruct Hx as [<-|Hx], Hy as [<-|Hy]; [done| | |by apply IH].
  - destruct Ha. rewrite E. by apply in_map.
  - destruct Ha. rewrite <- E. by apply in_map.
Qed.

Lemma ids_clear_primary uid id cs :
  List.map EmergencyContact._id (contactController.clear_primary uid id cs)
  = List.map EmergencyContact._id cs.
Proof.
  unfold contactController.clear_primary. rewrite List.map_map.
  apply List.map_ext. intros c. by destruct (_ && _).
Qed.

Lemma ids_replace c cs :
  List.map EmergencyContact._id
    (List.map (fun d => if (EmergencyContact._id d =? EmergencyContact._id c)%N
                        then c else d) cs)
  = List.map EmergencyContact._id cs.
Proof.
  rewrite List.map_map. apply List.map_ext. intros d.
  destruct (_ =? _)%N eqn:E; [|done]. by apply N.eqb_eq in E.
Qed.

Lemma docs_clear_other uid uid' id cs :
  uid' <> uid ->
  docs_of uid' (contactController.clear_primary uid id cs) = docs_of uid' cs.
Proof.
  intros Hne. unfold docs_of, contactController.clear_primary.
  apply filter_map_same. intros x _. split.
  - by destruct (_ && _).
  - intros E. apply N.eqb_eq in E.
    replace (EmergencyContact.user x =? uid)%N with false; [done|].
    symmetry. apply N.eqb_neq. congruence.
Qed.

Lemma docs_replace_other c cs x0 uid' :
  List.NoDup (List.map EmergencyContact._id cs) ->
  In x0 cs ->
  EmergencyContact._id x0 = EmergencyContact._id c ->
  EmergencyContact.user x0 = EmergencyContact.user c ->
  uid' <> EmergencyContact.user c ->
  docs_of uid'
    (List.map (fun d => if (EmergencyContact._id d =? EmergencyContact._id c)%N
                        then c else d) cs)
  = docs_of uid' cs.
Proof.
  intros Hn Hx0 Hid Hu Hne. unfold docs_of. apply filter_map_same.
  intros x Hx. destruct (_ =? EmergencyContact._id c)%N eqn:E; [|done].
  apply N.eqb_eq in E.
  assert (x = x0) as -> by (apply (NoDup_ids_inj cs); congruence).
  rewrite Hu. split; [done|]. intros H. apply N.eqb_eq in H. congruence.
Qed.

(** The contacts of a user are in order as soon as one active document of
    the user carries the flag and every flagged document of the user has
    its [_id]. *)
Lemma ok_user_by_primary uid cs c :
  In c cs ->
  EmergencyContact.user c = uid ->
  EmergencyContact.isPrimary c = true ->
  EmergencyContact.isActive c = true ->
  (forall d, In d cs -> EmergencyContact.user d = uid ->
     EmergencyContact.isPrimary d = true ->
     EmergencyContact._id d = EmergencyContact._id c) ->
  ok_user uid cs.
Proof.
  intros Hc Hu Hp Ha Hall. unfold ok_user, docs_of. split.
  - intros c1 c2 H1 H2 P1 P2.
    apply filter_In in H1 as [H1 U1], H2 as [H2 U2].
    apply N.eqb_eq in U1, U2.
    rewrite (Hall c1), (Hall c2); done.
  - intros d _ _. exists c. split; [|done].
    apply filter_In. split; [done|]. by apply N.eqb_eq.
Qed.

Lemma In_clear_primary uid id cs d :
  In d (contactController.clear_primary uid id cs) ->
  exists x, In x cs
    /\ EmergencyContact._id d = EmergencyContact._id x
    /\ EmergencyContact.user d = EmergencyContact.user x
    /\ EmergencyContact.isActive d = EmergencyContact.isActive x
    /\ (EmergencyContact.user x = uid -> EmergencyContact.isPrimary d = true ->
        EmergencyContact._id x = id)
    /\ (EmergencyContact.isPrimary d = true -> d = x).
Proof.
  unfold contactController.clear_primary. intros H.
  apply in_map_iff in H as (x & <- & Hx). exists x. split; [done|].
  destruct (EmergencyContact.user x =? uid)%N eqn:Eu;
    destruct (EmergencyContact._id x =? id)%N eqn:Ei; cbn [andb negb];
    repeat (split; [done|]); try (split; [|done]); try (split; [|discriminate]).
  - intros _ _. by apply N.eqb_eq.
  - discriminate.
  - intros Hu. apply N.eqb_neq in Eu. done.
  - intros Hu. apply N.eqb_neq in Eu. done.
Qed.

(** Saving a stored document that is active and carries the flag puts the
    contacts of its user in order. *)
Lemma promote_ok c cs x0 st st' :
  contacts st = cs ->
  In x0 cs ->
  EmergencyContact._id x0 = EmergencyContact._id c ->
  EmergencyContact.isPrimary c = true ->
  EmergencyContact.isActive c = true ->
  contactController.save false c st = Some st' ->
  ok_user (EmergencyContact.user c) (contacts st').
Proof.
  intros <- Hx0 Hid Hp Ha. unfold contactController.save. cbn [andb].
  rewrite Hp. intros [= <-]. cbn [contacts contactController.with_contacts].
  apply (ok_user_by_primary _ _ c); try done.
  - apply in_map_iff.
    exists (if (EmergencyContact.user x0 =? EmergencyContact.user c)%N
               && negb (EmergencyContact._id x0 =? EmergencyContact._id c)%N
            then contactController.with_isPrimary false x0 else x0).
    rewrite Hid, N.eqb_refl, andb_false_r. rewrite Hid, N.eqb_refl.
    split; [done|].
    unfold contactController.clear_primary. apply in_map_iff. exists x0.
    by rewrite Hid, N.eqb_refl, andb_false_r.
  - intros d Hd Hu Hpd. apply in_map_iff in Hd as (y & <- & Hy).
    destruct (_ =? _)%N eqn:E; [done|].
    apply In_clear_primary in Hy as (x & Hx & Hi & Hux & _ & Hcl & _).
    rewrite Hi. apply Hcl; congruence.
Qed.

Lemma In_clear_primary_self uid id cs x :
  In x cs -> EmergencyContact._id x = id ->
  In x (contactController.clear_primary uid id cs).
Proof.
  intros Hx Hid. unfold contactController.clear_primary. apply in_map_iff.
  exists x. by rewrite Hid, N.eqb_refl, andb_false_r.
Qed.

Lemma ok_user_frame uid cs cs' :
  docs_of uid cs' = docs_of uid cs -> ok_user uid cs -> ok_user uid cs'.
Proof. unfold ok_user. by intros ->. Qed.

(** Saving a stored document keeps the [_id]s and leaves the documents of
    the other users as they are. *)
Lemma save_false_frame c st st' x0 :
  List.NoDup (List.map EmergencyContact._id (contacts st)) ->
  In x0 (contacts st) ->
  EmergencyContact._id x0 = EmergencyContact._id c ->
  EmergencyContact.user x0 = EmergencyContact.user c ->
  contactController.save false c st = Some st' ->
  List.map EmergencyContact._id (contacts st')
  = List.map EmergencyContact._id (contacts st)
  /\ forall uid, uid <> EmergencyContact.user c ->
       docs_of uid (contacts st') = docs_of uid (contacts st).
Proof.
  intros Hn Hx Hid Hu. unfold contactController.save. cbn [andb].
  intros [= <-]. cbn [contacts contactController.with_contacts].
  destruct (EmergencyContact.isPrimary c).
  - split; [by rewrite ids_replace, ids_clear_primary|].
    intros uid Hne.
    rewrite (docs_replace_other c _ x0);
      [by apply docs_clear_other
      |by rewrite ids_clear_primary
      |by apply In_clear_primary_self|done..].
  - split; [by rewrite ids_replace|].
    intros uid Hne. by apply (docs_replace_other c _ x0).
Qed.

Lemma find_contact caller id cs x :
  List.find (fun c => (EmergencyContact._id c =? id)%N
                      && (EmergencyContact.user c =? ReqUser.id caller)%N) cs
  = Some x ->
  In x cs /\ EmergencyContact._id x = id
  /\ EmergencyContact.user x = ReqUser.id caller.
Proof.
  intros H. apply find_some in H as [Hx H].
  apply andb_true_iff in H as [H1 H2]. apply N.eqb_eq in H1, H2. done.
Qed.

(** X15.  The handlers that write contacts keep them in order: if the
    [_id]s are distinct and, for every user, at most one document carries
    the primary flag and the primary contact is active whenever the user
    has an active contact, then the same holds after createContact,
    deleteContact or setPrimaryContact, whatever they answer. *)
Theorem contacts_stay_in_order (op : ContactOp) (caller : ReqUser.t) (st : Store) :
  contacts_ok (contacts st) ->
  fresh_for op (contacts st) ->
  contacts_ok (contacts (run_contact_op op caller st).1).
Proof.
  intros [Hn Hok] Hfresh. set (u := ReqUser.id caller).
  destruct op as [body newId valid|id|id]; cbn [run_contact_op].
  - (* createContact *)
    unfold contactController.createContact. fold u.
    destruct (5 <=? _)%nat; [done|].
    destruct (find _ _); [done|].
    destruct valid; cbn [negb]; [|done].
    unfold contactController.save.
    cbn [andb EmergencyContact.user EmergencyContact.isPrimary EmergencyContact._id].
    destruct (5 <=? contactController.count_of _ _)%nat; [done|].
    cbn [fst contacts contactController.with_contacts].
    set (sp := _ || _).
    set (c := EmergencyContact.mk newId u _ _ sp true).
    assert (Hsp : sp = false ->
                  exists a, In a (docs_of u (contacts st))
                            /\ EmergencyContact.isActive a = true).
    { unfold sp. intros E. apply orb_false_iff in E as [_ E].
      apply Nat.eqb_neq in E.
      destruct (active_contacts u (contacts st)) as [|a l] eqn:Ea; [done|].
      assert (Ha : In a (active_contacts u (contacts st))) by (rewrite Ea; by left).
      unfold active_contacts in Ha. apply filter_In in Ha as [Ha Hc].
      apply andb_true_iff in Hc as [Hu Hact].
      exists a. split; [|done]. apply filter_In. done. }
    clearbody sp. split.
    + rewrite List.map_app. cbn [List.map]. apply NoDup_snoc.
      * destruct sp; [by rewrite ids_clear_primary|done].
      * destruct sp; [by rewrite ids_clear_primary|done].
    + intros uid. destruct (N.eq_dec uid u) as [->|Hne].
      * destruct sp.
        -- apply (ok_user_by_primary _ _ c); try done.
           ++ apply in_app_iff. right. by left.
           ++ intros d Hd Hu Hp. apply in_app_iff in Hd as [Hd|[<-|[]]]; [|done].
              apply In_clear_primary in Hd as (x & _ & -> & Hux & _ & Hcl & _).
              apply Hcl; congruence.
        -- destruct (Hsp eq_refl) as (a & Ha & Hact).
           destruct (Hok u) as [H2 H3].
           assert (Hd : docs_of u (contacts st ++ [c]) = docs_of u (contacts st) ++ [c]).
           { unfold docs_of. rewrite List.filter_app. cbn [List.filter].
             subst c. cbn [EmergencyContact.user]. by rewrite N.eqb_refl. }
           unfold ok_user. rewrite Hd. split.
           ++ intros c1 c2 H1 H2' P1 P2.
              apply in_app_iff in H1 as [H1|[<-|[]]]; [|discriminate].
              apply in_app_iff in H2' as [H2'|[<-|[]]]; [|discriminate].
              by apply H2.
           ++ intros d Hdd Hda.
              destruct (H3 a Ha Hact) as (p & Hp & Hpp & Hpa).
              exists p. split; [|done]. apply in_app_iff. by left.
      * apply (ok_user_frame _ (contacts st)); [|apply Hok].
        unfold docs_of at 1. rewrite List.filter_app. cbn [List.filter].
        subst c. cbn [EmergencyContact.user].
        replace (u =? uid)%N with false by (symmetry; apply N.eqb_neq; congruence).
        rewrite app_nil_r. destruct sp; [|done]. by apply docs_clear_other.
  - (* deleteContact *)
    unfold contactController.deleteContact. fold u.
    destruct (find _ _) as [x|] eqn:Hf; [|done].
    apply find_contact in Hf as (Hx & Hid & Hu). fold u in Hu.
    set (c0 := contactController.with_isActive false x).
    destruct (contactController.save false c0 st) as [st1|] eqn:Hs1; [|done].
    destruct (save_false_frame c0 st st1 x Hn Hx eq_refl eq_refl Hs1) as [Hids1 Hfr1].
    assert (Hn1 : List.NoDup (List.map EmergencyContact._id (contacts st1)))
      by (by rewrite Hids1).
    change (EmergencyContact.isPrimary c0) with (EmergencyContact.isPrimary x).
    change (EmergencyContact.user c0) with (EmergencyContact.user x) in Hfr1.
    cbn [fst].
    destruct (EmergencyContact.isPrimary x) eqn:Hp.
    + (* the deleted contact carried the flag *)
      destruct (find _ (contacts st1)) as [next|] eqn:Hnext.
      * apply find_some in Hnext as [Hin Hb].
        apply andb_true_iff in Hb as [Hnu Hna]. apply N.eqb_eq in Hnu.
        set (n' := contactController.with_isPrimary true next).
        destruct (contactController.save false n' st1) as [st2|] eqn:Hs2.
        2:{ unfold contactController.save in Hs2. discriminate. }
        destruct (save_false_frame n' st1 st2 next Hn1 Hin eq_refl eq_refl Hs2)
          as [Hids2 Hfr2].
        split; [by rewrite Hids2|].
        intros uid. destruct (N.eq_dec uid u) as [->|Hne].
        -- rewrite <- Hnu.
           apply (promote_ok n' (contacts st1) next st1 st2); done.
        -- apply (ok_user_frame _ (contacts st)); [|apply Hok].
           rewrite Hfr2 by (cbn; congruence). apply Hfr1. congruence.
      * split; [done|]. intros uid. destruct (N.eq_dec uid u) as [->|Hne].
        -- pose proof (find_none _ _ Hnext) as Hnone. split.
           ++ assert (Hall : forall d, In d (docs_of u (contacts st1)) ->
                        EmergencyContact.isPrimary d = true ->
                        EmergencyContact._id d = id).
              { intros d Hd Hpd. apply filter_In in Hd as [Hd Hud].
                apply N.eqb_eq in Hud.
                unfold contactController.save in Hs1. cbn [andb] in Hs1.
                change (EmergencyContact.isPrimary c0)
                  with (EmergencyContact.isPrimary x) in Hs1.
                rewrite Hp in Hs1. injection Hs1 as <-.
                cbn [contacts contactController.with_contacts] in Hd.
                apply in_map_iff in Hd as (y & <- & Hy).
                destruct (_ =? _)%N eqn:E; [done|].
                apply In_clear_primary in Hy as (z & _ & -> & Huz & _ & Hcl & _).
                rewrite <- Hid. apply Hcl; [|done]. cbn. congruence. }
              intros c1 c2 H1 H2 P1 P2. rewrite (Hall c1), (Hall c2); done.
           ++ intros d Hd Hda. apply filter_In in Hd as [Hd Hud].
              specialize (Hnone d Hd). cbn in Hnone.
              rewrite Hud, Hda in Hnone. discriminate.
        -- apply (ok_user_frame _ (contacts st)); [|apply Hok].
           apply Hfr1. congruence.
    + (* it did not *)
      split; [done|]. intros uid.
      unfold contactController.save in Hs1. cbn [andb] in Hs1.
      change (EmergencyContact.isPrimary c0)
        with (EmergencyContact.isPrimary x) in Hs1.
      rewrite Hp in Hs1. injection Hs1 as <-.
      cbn [contacts contactController.with_contacts] in *.
      assert (Hback : forall d,
                 In d (docs_of uid
                         (List.map (fun d => if (EmergencyContact._id d
                                                 =? EmergencyContact._id c0)%N
                                             then c0 else d) (contacts st))) ->
                 d = c0 \/ (In d (docs_of uid (contacts st))
                            /\ EmergencyContact._id d <> EmergencyContact._id x)).
      { intros d Hd. apply filter_In in Hd as [Hd Hud].
        apply in_map_iff in Hd as (y & <- & Hy).
        destruct (EmergencyContact._id y =? EmergencyContact._id c0)%N eqn:E;
          [by left|]. right.
        apply N.eqb_neq in E. split; [by apply filter_In|done]. }
      assert (Hfwd : forall d,
                 In d (docs_of uid (contacts st)) ->
                 EmergencyContact._id d <> EmergencyContact._id x ->
                 In d (docs_of uid
                         (List.map (fun d => if (EmergencyContact._id d
                                                 =? EmergencyContact._id c0)%N
                                             then c0 else d) (contacts st)))).
      { intros d Hd Hne. apply filter_In in Hd as [Hd Hud].
        apply filter_In. split; [|done]. apply in_map_iff. exists d.
        split; [|done]. apply N.eqb_neq in Hne. cbn. by rewrite Hne. }
      destruct (Hok uid) as [H2 H3]. split.
      * intros c1 c2 H1 H2' P1 P2.
        apply Hback in H1 as [->|[H1 _]]; [cbn in P1; congruence|].
        apply Hback in H2' as [->|[H2' _]]; [cbn in P2; congruence|].
        by apply H2.
      * intros d Hd Hda.
        apply Hback in Hd as [->|[Hd _]]; [discriminate|].
        destruct (H3 d Hd Hda) as (p & Hp' & Hpp & Hpa).
        exists p. split; [|done]. apply Hfwd; [done|].
        intros E. apply filter_In in Hp' as [Hp' _].
        assert (p = x) by (by apply (NoDup_ids_inj (contacts st))).
        congruence.
  - (* setPrimaryContact *)
    unfold contactController.setPrimaryContact. fold u.
    destruct (find _ _) as [x|] eqn:Hf; [|done].
    apply find_some in Hf as [Hx Hb].
    apply andb_true_iff in Hb as [Hb Hact].
    apply andb_true_iff in Hb as [Hid Hu]. apply N.eqb_eq in Hid, Hu.
    set (st1 := contactController.with_contacts _ st).
    set (c := contactController.with_isPrimary true x).
    destruct (contactController.save false c st1) as [st2|] eqn:Hs; [|done].
    assert (Hx1 : In x (contacts st1)) by (by apply In_clear_primary_self).
    assert (Hn1 : List.NoDup (List.map EmergencyContact._id (contacts st1))).
    { unfold st1. cbn [contacts contactController.with_contacts].
      by rewrite ids_clear_primary. }
    destruct (save_false_frame c st1 st2 x Hn1 Hx1 eq_refl eq_refl Hs) as [Hids Hfr].
    cbn [fst]. split.
    + rewrite Hids. exact Hn1.
    + intros uid. destruct (N.eq_dec uid u) as [->|Hne].
      * rewrite <- Hu. apply (promote_ok c (contacts st1) x st1 st2); done.
      * apply (ok_user_frame _ (contacts st)); [|apply Hok].
        rewrite Hfr by (cbn; congruence).
        unfold st1. cbn [contacts contactController.with_contacts].
        by apply docs_clear_other.
Qed.


Lemma contacts_stay_in_order_witness :
  List.map (fun c => (EmergencyContact._id c, EmergencyContact.isPrimary c,
                      EmergencyContact.isActive c))
           (contacts (run_contact_op (OpDeleteContact 51) alice demo_store).1)
  = [(51%N, false, false); (52%N, true, true)]
  /\ contacts_ok (contacts (run_contact_op (OpDeleteContact 51) alice demo_store).1).
Proof.
  split; [reflexivity|].
  apply contacts_stay_in_order; [|exact I].
  split.
  - cbn. repeat (constructor; [cbn; intros H; repeat destruct H as [H|H]; done|]).
    constructor.
  - intros uid. unfold ok_user, docs_of. cbn [contacts demo_store List.filter].
    change (EmergencyContact.user mum) with 1%N.
    change (EmergencyContact.user friend) with 1%N.
    destruct (1 =? uid)%N; [|split; [intros ? ? []|intros ? []]].
    split.
    + intros c1 c2 [<-|[<-|[]]] [<-|[<-|[]]]; cbn; intros; done.
    + intros c _ _. exists mum. cbn. tauto.
Defined.

Lemma count_of_map uid (f : EmergencyContact.t -> EmergencyContact.t) cs :
  (forall x, In x cs -> EmergencyContact.user (f x) = EmergencyContact.user x) ->
  contactController.count_of uid (List.map f cs) = contactController.count_of uid cs.
Proof.
  unfold contactController.count_of.
  induction cs as [|a cs IH]; intros H; [done|]. cbn [List.map List.filter].
  rewrite (H a) by (by left).
  destruct (_ =? _)%N; cbn [List.length]; rewrite IH; try done;
    intros x Hx; apply H; by right.
Qed.

Lemma count_of_clear_primary uid u id cs :
  contactController.count_of uid (contactController.clear_primary u id cs)
  = contactController.count_of uid cs.
Proof.
  unfold contactController.clear_primary. apply count_of_map.
  intros x _. by destruct (_ && _).
Qed.

Lemma count_of_save_false uid c st st' x0 :
  List.NoDup (List.map EmergencyContact._id (contacts st)) ->
  In x0 (contacts st) ->
  EmergencyContact._id x0 = EmergencyContact._id c ->
  EmergencyContact.user x0 = EmergencyContact.user c ->
  contactController.save false c st = Some st' ->
  contactController.count_of uid (contacts st')
  = contactController.count_of uid (contacts st).
Proof.
  intros Hn Hx Hid Hu. unfold contactController.save. cbn [andb].
  intros [= <-]. cbn [contacts contactController.with_contacts].
  assert (H : forall l, (forall y, In y l -> In y (contacts st)
                                   \/ exists z, In z (contacts st)
                                        /\ EmergencyContact._id y = EmergencyContact._id z
                                        /\ EmergencyContact.user y = EmergencyContact.user z) ->
            contactController.count_of uid
              (List.map (fun d => if (EmergencyContact._id d =? EmergencyContact._id c)%N
                                  then c else d) l)
            = contactController.count_of uid l).
  { intros l Hl. apply count_of_map. intros y Hy.
    destruct (_ =? _)%N eqn:E; [|done]. apply N.eqb_eq in E.
    destruct (Hl y Hy) as [Hin|(z & Hz & Hi & Huz)].
    - assert (y = x0) as -> by (apply (NoDup_ids_inj (contacts st)); congruence).
      congruence.
    - assert (z = x0) as -> by (apply (NoDup_ids_inj (contacts st)); congruence).
      congruence. }
  destruct (EmergencyContact.isPrimary c).
  - rewrite H, count_of_clear_primary; [done|].
    intros y Hy. right.
    apply In_clear_primary in Hy as (z & Hz & Hi & Huz & _). by exists z.
  - apply H. intros y Hy. by left.
Qed.

(** X16.  Contacts are never removed and the limit of 5 counts the deleted
    ones: no handler lowers the number of documents of a user, none raises
    it above 5, and a caller who has 5 documents, deleted or not, cannot
    add a contact any more: createContact leaves the store as it is and
    does not answer 201. *)
Theorem five_documents_for_good (op : ContactOp) (caller : ReqUser.t) (st : Store)
    (uid : ObjectId) :
  List.NoDup (List.map EmergencyContact._id (contacts st)) ->
  let res := run_contact_op op caller st in
  let n := contactController.count_of uid (contacts st) in
  let n' := contactController.count_of uid (contacts res.1) in
  n <= n' /\ n' <= Nat.max 5 n
  /\ (5 <= contactController.count_of (ReqUser.id caller) (contacts st) ->
      forall body newId valid,
        op = OpCreateContact body newId valid ->
        res.1 = st
        /\ forall m d, res.2 <> contactController.Json 201 true m d).
Proof.
  intros Hn. cbv zeta. set (u := ReqUser.id caller).
  destruct op as [body newId valid|id|id]; cbn [run_contact_op].
  - unfold contactController.createContact. fold u.
    destruct (5 <=? _)%nat; [cbn [fst snd]; repeat split; (lia || done)|].
    destruct (find _ _); [cbn [fst snd]; repeat split; (lia || done)|].
    destruct valid; cbn [negb]; [|cbn [fst snd]; repeat split; (lia || done)].
    unfold contactController.save.
    cbn [andb EmergencyContact.user EmergencyContact.isPrimary EmergencyContact._id].
    destruct (5 <=? contactController.count_of u _)%nat eqn:E5;
      [cbn [fst snd]; repeat split; (lia || done)|].
    apply Nat.leb_gt in E5.
    cbn [fst snd contacts contactController.with_contacts].
    set (sp := _ || _). clearbody sp.
    assert (Hc : forall l c, EmergencyContact.user c = u ->
                   contactController.count_of uid (l ++ [c])
                   = contactController.count_of uid l
                     + if (u =? uid)%N then 1 else 0).
    { intros l c Hu. unfold contactController.count_of.
      rewrite List.filter_app, List.length_app. cbn [List.filter].
      rewrite Hu. by destruct (u =? uid)%N. }
    rewrite Hc by done.
    replace (contactController.count_of uid
               (if sp then contactController.clear_primary u newId (contacts st)
                else contacts st))
      with (contactController.count_of uid (contacts st))
      by (destruct sp; by rewrite ?count_of_clear_primary).
    destruct (u =? uid)%N eqn:Eu.
    + apply N.eqb_eq in Eu. subst uid. split; [lia|]. split; [lia|]. lia.
    + split; [lia|]. split; [lia|]. lia.
  - unfold contactController.deleteContact. fold u.
    destruct (find _ _) as [x|] eqn:Hf;
      [|cbn [fst]; split; [lia|split; [lia|discriminate]]].
    apply find_contact in Hf as (Hx & Hid & Hu).
    set (c0 := contactController.with_isActive false x).
    destruct (contactController.save false c0 st) as [st1|] eqn:Hs1;
      [|cbn [fst]; split; [lia|split; [lia|discriminate]]].
    pose proof (count_of_save_false uid c0 st st1 x Hn Hx eq_refl eq_refl Hs1) as H1.
    destruct (save_false_frame c0 st st1 x Hn Hx eq_refl eq_refl Hs1) as [Hids1 _].
    cbn [fst].
    change (EmergencyContact.isPrimary c0) with (EmergencyContact.isPrimary x).
    destruct (EmergencyContact.isPrimary x);
      [|rewrite H1; split; [lia|split; [lia|discriminate]]].
    destruct (find _ (contacts st1)) as [next|] eqn:Hnext;
      [|rewrite H1; split; [lia|split; [lia|discriminate]]].
    apply find_some in Hnext as [Hin _].
    destruct (contactController.save false _ st1) as [st2|] eqn:Hs2;
      [|rewrite H1; split; [lia|split; [lia|discriminate]]].
    assert (Hn1 : List.NoDup (List.map EmergencyContact._id (contacts st1)))
      by (by rewrite Hids1).
    rewrite (count_of_save_false uid (contactController.with_isPrimary true next)
               st1 st2 next Hn1 Hin eq_refl eq_refl Hs2).
    rewrite H1. split; [lia|split; [lia|discriminate]].
  - unfold contactController.setPrimaryContact. fold u.
    destruct (find _ _) as [x|] eqn:Hf;
      [|cbn [fst]; split; [lia|split; [lia|discriminate]]].
    apply find_some in Hf as [Hx Hb].
    apply andb_true_iff in Hb as [Hb _].
    apply andb_true_iff in Hb as [Hid _]. apply N.eqb_eq in Hid.
    set (st1 := contactController.with_contacts _ st).
    destruct (contactController.save false _ st1) as [st2|] eqn:Hs.
    + cbn [fst].
      rewrite (count_of_save_false uid (contactController.with_isPrimary true x)
                 st1 st2 x);
        [|unfold st1; cbn [contacts contactController.with_contacts];
          by rewrite ids_clear_primary
         |by apply In_clear_primary_self|done..].
      unfold st1. cbn [contacts contactController.with_contacts].
      rewrite count_of_clear_primary. split; [lia|split; [lia|discriminate]].
    + cbn [fst]. unfold st1. cbn [contacts contactController.with_contacts].
      rewrite count_of_clear_primary. split; [lia|split; [lia|discriminate]].
Qed.


Lemma five_documents_for_good_witness :
  (run_contact_op
     (OpCreateContact (contactController.mkBody "Mum" "+91 98765-43210" None) 66 true)
     alice five_deleted).1 = five_deleted.
Proof.
  destruct (five_documents_for_good
              (OpCreateContact (contactController.mkBody "Mum" "+91 98765-43210" None)
                               66 true)
              alice five_deleted 1) as (_ & _ & H).
  - cbn. repeat (constructor; [cbn; intros H; repeat destruct H as [H|H]; done|]).
    constructor.
  - assert (H5 : 5 <= contactController.count_of (ReqUser.id alice)
                        (contacts five_deleted)) by (vm_compute; lia).
    destruct (H H5 _ _ _ eq_refl) as [E _]. exact E.
Defined.

Lemma deleteContact_inactive caller id st d :
  (contactController.deleteContact caller id st).2
  = contactController.Json 200 true (Some "Contact deleted successfully") None ->
  In d (contacts (contactController.deleteContact caller id st).1) ->
  EmergencyContact._id d = id ->
  EmergencyContact.isActive d = false.
Proof.
  unfold contactController.deleteContact.
  destruct (find _ _) as [x|] eqn:Hf; [|discriminate].
  apply find_contact in Hf as (Hx & Hid & Hu).
  set (c0 := contactController.with_isActive false x).
  destruct (contactController.save false c0 st) as [st1|] eqn:Hs1; [|discriminate].
  unfold contactController.save in Hs1. cbn [andb] in Hs1.
  assert (H1 : forall y, In y (contacts st1) -> EmergencyContact._id y = id -> y = c0).
  { intros y Hy Hyi. injection Hs1 as <-.
    cbn [contacts contactController.with_contacts] in Hy.
    apply in_map_iff in Hy as (z & <- & Hz).
    destruct (_ =? _)%N eqn:E; [done|]. apply N.eqb_neq in E.
    destruct E. cbn. congruence. }
  clear Hs1.
  change (EmergencyContact.isPrimary c0) with (EmergencyContact.isPrimary x).
  intros _. cbn [fst].
  destruct (EmergencyContact.isPrimary x); [|intros Hd Hdi; by rewrite (H1 d)].
  destruct (find _ (contacts st1)) as [next|] eqn:Hnext;
    [|intros Hd Hdi; by rewrite (H1 d)].
  apply find_some in Hnext as [Hin Hb]. apply andb_true_iff in Hb as [_ Hact].
  unfold contactController.save. cbn [andb EmergencyContact.isPrimary
    contactController.with_isPrimary contacts contactController.with_contacts].
  intros Hd Hdi. apply in_map_iff in Hd as (z & <- & Hz).
  apply In_clear_primary in Hz as (y & Hy & Hi & _ & Ha & _).
  destruct (_ =? _)%N eqn:E.
  - cbn in Hdi. rewrite (H1 next Hin Hdi) in Hact. discriminate.
  - rewrite Ha, (H1 y Hy); [done|congruence].
Qed.

(** X17.  A deleted contact is not notified any more: after deleteContact
    has answered 200 for a contact, no user has an active contact with that
    [_id], the alert that a later createAlert stores has no notified-contact
    entry for it, and createAlert counts and messages the remaining active
    contacts only. *)
Theorem deleted_contact_is_not_notified (env : Env) (caller owner : ReqUser.t)
    (id : ObjectId) (body : CreateBody.t) (now : Time) (st : Store) (la lo : Q)
    (ty : AlertType) :
  (contactController.deleteContact owner id st).2
  = contactController.Json 200 true (Some "Contact deleted successfully") None ->
  CreateBody.latitude body = Some la ->
  CreateBody.longitude body = Some lo ->
  truthy (Some la) = true ->
  truthy (Some lo) = true ->
  parse_AlertType (type_or_sos (CreateBody.type body)) = Some ty ->
  let st1 := (contactController.deleteContact owner id st).1 in
  let res := createAlert env caller body now st1 in
  (forall uid c, In c (active_contacts uid (contacts st1)) ->
     EmergencyContact._id c <> id)
  /\ exists a,
       alerts res.1.1 !! new_ObjectId env = Some a
       /\ (forall n, In n (Alert.notifiedContacts a) -> NotifiedContact.contact n <> id)
       /\ List.length res.2 <= List.length (Alert.notifiedContacts a)
       /\ List.map NotifiedContact.contact (Alert.notifiedContacts a)
          = List.map EmergencyContact._id
              (active_contacts (ReqUser.id caller) (contacts st1)).
Proof.
  intros Hdel Hla Hlo Htla Htlo Hty. cbv zeta.
  assert (Hact : forall uid c,
             In c (active_contacts uid
                     (contacts (contactController.deleteContact owner id st).1)) ->
             EmergencyContact._id c <> id).
  { intros uid c Hc E. unfold active_contacts in Hc.
    apply filter_In in Hc as [Hc Hb]. apply andb_true_iff in Hb as [_ Hb].
    rewrite (deleteContact_inactive owner id st c) in Hb; done. }
  split; [exact Hact|].
  rewrite (createAlert_created env caller body now _ la lo ty) by done.
  cbn [fst snd alerts with_alerts]. rewrite lookup_insert_eq.
  eexists. split; [reflexivity|].
  cbn [Alert.notifiedContacts Alert.pre_save created_alert].
  split; [|split].
  - intros n Hn. apply in_map_iff in Hn as (c & <- & Hc). cbn.
    by apply (Hact (ReqUser.id caller)).
  - rewrite List.length_map.
    induction (active_contacts _ _) as [|c l IH]; [done|].
    cbn [flat_map List.length]. rewrite List.length_app.
    assert (List.length (sms_effects env
              (notificationService.smsMessage env (ReqUser.name caller)
                 (mkPoint lo la)) c) <= 1); [|lia].
    unfold sms_effects, notificationService.sendSMS.
    destruct (config_sms env); [|cbn; lia].
    destruct (notificationService.no_key _); [cbn; lia|].
    destruct (fast2sms env _ _); cbn; lia.
  - rewrite List.map_map. done.
Qed.

Lemma deleted_contact_is_not_notified_witness :
  exists a,
    alerts (createAlert demo_env alice sos_body 1000
              (contactController.deleteContact alice 51 demo_store).1).1.1
      !! new_ObjectId demo_env = Some a
    /\ List.map NotifiedContact.contact (Alert.notifiedContacts a)
       = List.map EmergencyContact._id
           (active_contacts (ReqUser.id alice)
              (contacts (contactController.deleteContact alice 51 demo_store).1)).
Proof.
  destruct (deleted_contact_is_not_notified demo_env alice alice 51 sos_body 1000
              demo_store (129716 # 10000)%Q (775946 # 10000)%Q Sos
              eq_refl eq_refl eq_refl eq_refl eq_refl eq_refl)
    as (_ & a & Ha & _ & _ & Hm).
  exists a. split; [exact Ha | exact Hm].
Defined.

(** ** Volunteers on and off duty *)

(** The matcher selects eligible profiles of the collection. *)
Lemma nearbyVolunteers_eligible env center vs w :
  In w (nearbyVolunteers env center vs) -> In w vs /\ eligible w = true.
Proof.
  rewrite nearbyVolunteers_cases. cbv zeta.
  assert (He : In w (firstn 10 (List.filter eligible vs)) ->
               In w vs /\ eligible w = true).
  { intros H. apply In_firstn in H. by apply filter_In in H. }
  destruct (geo_available env); [|exact He].
  destruct (List.filter (fun v => eligible v && _) vs) as [|x l] eqn:E;
    [exact He|].
  intros H. apply In_firstn in H.
  apply (Permutation_in _ (sort_by_perm _ _)) in H.
  rewrite <- E in H. apply filter_In in H as [H1 H2].
  apply andb_true_iff in H2 as [H2 _]. done.
Qed.

(** X18.  Going on and off duty and the matcher: an unverified volunteer
    cannot change the duty flag (403, nothing changes); when a verified
    volunteer goes off duty, no alert created afterwards selects the
    profile, wherever it is created; when a verified volunteer goes on
    duty, the profile is eligible for matching exactly if its status is
    active. *)
Theorem toggleDuty_and_the_matcher (caller : ReqUser.t) (now : Time) (st : Store)
    (v : Volunteer.t) :
  findOne_by_user (ReqUser.id caller) (volunteers st) = Some v ->
  let res := volunteerController.toggleDuty caller now st in
  (Volunteer.isVerified v = false ->
   res = (st, volunteerController.Json 403 false
                "Your account is pending verification" None))
  /\ (Volunteer.isVerified v = true -> Volunteer.isOnDuty v = true ->
      res.2 = volunteerController.Json 200 true "You are now off duty" (Some false)
      /\ forall env center w,
           In w (nearbyVolunteers env center (volunteers res.1)) ->
           Volunteer._id w <> Volunteer._id v)
  /\ (Volunteer.isVerified v = true -> Volunteer.isOnDuty v = false ->
      res.2 = volunteerController.Json 200 true "You are now on duty" (Some true)
      /\ exists w,
           Volunteer_findById (Volunteer._id v) (volunteers res.1) = Some w
           /\ Volunteer.updatedAt w = now
           /\ eligible w = VolunteerStatus_eqb (Volunteer.status v) VActive).
Proof.
  intros Hv. cbv zeta. unfold volunteerController.toggleDuty. rewrite Hv.
  split; [by intros ->|]. split.
  - intros -> Hd. rewrite Hd. cbn [negb fst snd Volunteer.isOnDuty
      Volunteer.pre_save volunteerController.with_isOnDuty].
    split; [done|]. intros env center w Hw E.
    apply nearbyVolunteers_eligible in Hw as [Hw He].
    unfold save_volunteer in Hw. cbn [volunteers with_volunteers] in Hw.
    apply in_map_iff in Hw as (x & <- & Hx).
    cbn [Volunteer._id Volunteer.pre_save volunteerController.with_isOnDuty] in *.
    destruct (Volunteer._id x =? Volunteer._id v)%N eqn:Ex.
    + unfold eligible in He. cbn [Volunteer.isOnDuty] in He.
      by rewrite andb_false_r in He.
    + apply N.eqb_neq in Ex. done.
  - intros Hver Hd. rewrite Hver, Hd. cbn [negb fst snd Volunteer.isOnDuty
      Volunteer.pre_save volunteerController.with_isOnDuty].
    split; [done|]. eexists. split.
    + apply (findById_save
               (Volunteer.pre_save now (volunteerController.with_isOnDuty true v))).
      exists v. split; [|done]. by apply findOne_In in Hv as [? _].
    + split; [done|]. unfold eligible. cbn. rewrite Hver. by rewrite andb_true_r.
Qed.

Lemma toggleDuty_and_the_matcher_witness :
  (volunteerController.toggleDuty bob 5000 (scenario Active)).2
  = volunteerController.Json 200 true "You are now off duty" (Some false).
Proof.
  destruct (toggleDuty_and_the_matcher bob 5000 (scenario Active) bob_profile eq_refl)
    as (_ & H & _).
  destruct (H eq_refl eq_refl) as [Hr _]. exact Hr.
Defined.

Lemma findOneAndUpdate_found uid f vs v :
  findOne_by_user uid vs = Some v ->
  Volunteer.user (f v) = uid ->
  findOne_by_user uid (volunteerController.findOneAndUpdate_by_user uid f vs)
  = Some (f v)
  /\ List.length (volunteerController.findOneAndUpdate_by_user uid f vs)
     = List.length vs
  /\ forall w, In w (volunteerController.findOneAndUpdate_by_user uid f vs) ->
       w = f v \/ In w vs.
Proof.
  intros H Hu. unfold findOne_by_user in *.
  induction vs as [|x vs IH]; [done|].
  cbn [find volunteerController.findOneAndUpdate_by_user] in *.
  destruct (Volunteer.user x =? uid)%N eqn:E.
  - injection H as ->. cbn [find]. rewrite Hu, N.eqb_refl.
    split; [done|]. split; [done|]. intros w [<-|Hw]; [by left|right; by right].
  - cbn [find]. rewrite E. destruct (IH H) as (H1 & H2 & H3).
    split; [done|]. split; [cbn; by rewrite H2|].
    intros w [<-|Hw]; [right; by left|].
    destruct (H3 w Hw) as [->|?]; [by left|right; by right].
Qed.

Lemma geo_valid_iff la lo :
  volunteerController.geo_valid (mkPoint lo la) = true
  <-> (-90 <= la)%Q /\ (la <= 90)%Q /\ (-180 <= lo)%Q /\ (lo <= 180)%Q.
Proof.
  unfold volunteerController.geo_valid. cbn [lng lat].
  rewrite !andb_true_iff, !Qle_bool_iff. tauto.
Qed.

(** X19.  A volunteer's location update, given numbers for both
    coordinates.  It is refused with 400, the store left alone, when the
    latitude or the longitude is 0 (a place on the equator or on the prime
    meridian).  For non-zero coordinates of a caller with a profile: when
    they are out of the bounds of the geospatial index (latitude from -90
    to 90, longitude from -180 to 180) the store refuses the write, the
    handler throws and nothing changes; when they are within the bounds the
    answer is 200, the caller's profile gets this latitude and this
    longitude and keeps every other field, [updatedAt] included, and the
    other profiles and the alerts are as before. *)
Theorem updateLocation_refuses_zero (caller : ReqUser.t) (la lo : Q) (st : Store)
    (v : Volunteer.t) :
  findOne_by_user (ReqUser.id caller) (volunteers st) = Some v ->
  let res := volunteerController.updateLocation caller (Some la) (Some lo) st in
  ((la == 0)%Q \/ (lo == 0)%Q ->
   res = (st, volunteerController.Json 400 false
                "Please provide latitude and longitude" None))
  /\ (~ (la == 0)%Q -> ~ (lo == 0)%Q ->
      ~ ((-90 <= la)%Q /\ (la <= 90)%Q /\ (-180 <= lo)%Q /\ (lo <= 180)%Q) ->
      res = (st, volunteerController.Thrown "MongoServerError"))
  /\ (~ (la == 0)%Q -> ~ (lo == 0)%Q ->
      (-90 <= la)%Q -> (la <= 90)%Q -> (-180 <= lo)%Q -> (lo <= 180)%Q ->
      res.2 = volunteerController.Json 200 true "Location updated" None
      /\ (exists w,
            findOne_by_user (ReqUser.id caller) (volunteers res.1) = Some w
            /\ lat (Volunteer.currentLocation w) = la
            /\ lng (Volunteer.currentLocation w) = lo
            /\ Volunteer._id w = Volunteer._id v
            /\ Volunteer.user w = Volunteer.user v
            /\ Volunteer.isVerified w = Volunteer.isVerified v
            /\ Volunteer.status w = Volunteer.status v
            /\ Volunteer.isOnDuty w = Volunteer.isOnDuty v
            /\ Volunteer.stats w = Volunteer.stats v
            /\ Volunteer.badges w = Volunteer.badges v
            /\ Volunteer.updatedAt w = Volunteer.updatedAt v
            /\ forall x, In x (volunteers res.1) -> x = w \/ In x (volunteers st))
      /\ List.length (volunteers res.1) = List.length (volunteers st)
      /\ alerts res.1 = alerts st
      /\ contacts res.1 = contacts st).
Proof.
  intros Hv. cbv zeta. unfold volunteerController.updateLocation. cbn [truthy].
  split; [|split].
  - intros [Hz|Hz]; apply Qeq_bool_iff in Hz; rewrite Hz; cbn [negb orb];
      [done|by rewrite orb_true_r].
  - intros Hla Hlo Hout.
    rewrite <- Qeq_bool_iff in Hla, Hlo.
    apply not_true_is_false in Hla, Hlo. rewrite Hla, Hlo. cbn [negb orb].
    rewrite Hv. rewrite <- geo_valid_iff in Hout.
    apply not_true_is_false in Hout. by rewrite Hout.
  - intros Hla Hlo B1 B2 B3 B4.
    rewrite <- Qeq_bool_iff in Hla, Hlo.
    apply not_true_is_false in Hla, Hlo. rewrite Hla, Hlo. cbn [negb orb].
    rewrite Hv, (proj2 (geo_valid_iff la lo)) by done.
    cbn [fst snd volunteers with_volunteers alerts contacts].
    split; [done|].
    destruct (findOneAndUpdate_found (ReqUser.id caller)
                (volunteerController.with_currentLocation (mkPoint lo la))
                (volunteers st) v Hv) as (H1 & H2 & H3).
    { cbn. by apply findOne_In in Hv as [_ ?]. }
    split; [|done].
    exists (volunteerController.with_currentLocation (mkPoint lo la) v).
    split; [exact H1|]. cbn. repeat (split; [done|]). exact H3.
Qed.

Lemma updateLocation_refuses_zero_witness :
  exists w,
    findOne_by_user 2
      (volunteers (volunteerController.updateLocation bob
                     (Some (129716 # 10000)%Q) (Some (775946 # 10000)%Q)
                     (scenario Active)).1) = Some w
    /\ lat (Volunteer.currentLocation w) = (129716 # 10000)%Q
    /\ lng (Volunteer.currentLocation w) = (775946 # 10000)%Q.
Proof.
  destruct (updateLocation_refuses_zero bob (129716 # 10000)%Q (775946 # 10000)%Q
              (scenario Active) bob_profile eq_refl) as (_ & _ & H).
  destruct H as (_ & (w & Hw & Hlat & Hlng & _) & _).
  - intros E. apply Qeq_bool_iff in E. discriminate E.
  - intros E. apply Qeq_bool_iff in E. discriminate E.
  - by apply Qle_bool_iff.
  - by apply Qle_bool_iff.
  - by apply Qle_bool_iff.
  - by apply Qle_bool_iff.
  - exists w. split; [exact Hw|]. split; [exact Hlat|exact Hlng].
Defined.

(** ** Who may look at an alert *)

Lemma NoDup_map_inj {A B : Type} (f : A -> B) (l : list A) x y :
  List.NoDup (List.map f l) -> In x l -> In y l -> f x = f y -> x = y.
Proof.
  induction l as [|a l IH]; [done|]. cbn [List.map].
  intros Hn Hx Hy E. apply List.NoDup_cons_iff in Hn as [Ha Hn].
  destruct Hx as [<-|Hx], Hy as [<-|Hy]; [done| | |by apply IH].
  - destruct Ha. rewrite E. by apply in_map.
  - destruct Ha. rewrite <- E. by apply in_map.
Qed.

Lemma find_unique {A : Type} (p : A -> bool) (l : list A) x :
  In x l -> p x = true -> (forall y, In y l -> p y = true -> y = x) ->
  find p l = Some x.
Proof.
  intros Hx Hp Hu. destruct (find p l) as [y|] eqn:E.
  - apply find_some in E as [Hy Hpy]. by rewrite (Hu y).
  - by rewrite (find_none _ _ E x Hx) in Hp.
Qed.

(** X21.  Looking at an alert and resolving it are granted to the same
    callers: when no two volunteer profiles share an [_id] or an account,
    getAlert hands out an alert exactly to those callers whom resolveAlert
    lets resolve it (the owner, an admin, the responding volunteer), and
    answers 403 to all others, the volunteers who were notified of it
    included. *)
Theorem view_iff_may_resolve (caller : ReqUser.t) (id : ObjectId) (st : Store)
    (a : Alert.t) :
  alerts st !! id = Some a ->
  List.NoDup (List.map Volunteer._id (volunteers st)) ->
  List.NoDup (List.map Volunteer.user (volunteers st)) ->
  (getAlert caller id st = AlertData a <-> may_resolve caller st a = true)
  /\ (getAlert caller id st = AlertForbidden <-> may_resolve caller st a = false).
Proof.
  intros Ha Hid Hus. unfold getAlert, may_resolve. rewrite Ha.
  set (own := (Alert.user a =? ReqUser.id caller)%N).
  set (adm := Role_eqb (ReqUser.role caller) RAdmin).
  set (rv1 := match RespondingVolunteer.volunteer _ with
              | Some vid => match Volunteer_findById vid _ with
                            | Some v => _ | None => false end
              | None => false end).
  set (rv2 := match findOne_by_user _ _ with Some v => _ | None => false end).
  assert (E : rv1 = rv2).
  { unfold rv1, rv2.
    destruct (findOne_by_user _ _) as [v|] eqn:Hv.
    - pose proof Hv as Hv'. apply findOne_In in Hv' as [Hin Hu].
      destruct (RespondingVolunteer.volunteer _) as [vid|]; [|done].
      destruct (vid =? Volunteer._id v)%N eqn:Ev.
      + apply N.eqb_eq in Ev. subst vid.
        unfold Volunteer_findById.
        rewrite (find_unique _ _ v); [by rewrite Hu, N.eqb_refl|done|apply N.eqb_refl|].
        intros y Hy Hp. apply N.eqb_eq in Hp.
        by apply (NoDup_map_inj Volunteer._id (volunteers st)).
      + destruct (Volunteer_findById vid _) as [w|] eqn:Hw; [|done].
        apply findById_In in Hw as [Hw Hwi].
        destruct (Volunteer.user w =? ReqUser.id caller)%N eqn:Eu; [|done].
        apply N.eqb_eq in Eu. apply N.eqb_neq in Ev.
        assert (w = v) by (apply (NoDup_map_inj Volunteer.user (volunteers st));
                           congruence).
        congruence.
    - destruct (RespondingVolunteer.volunteer _) as [vid|]; [|done].
      destruct (Volunteer_findById vid _) as [w|] eqn:Hw; [|done].
      apply findById_In in Hw as [Hw _].
      unfold findOne_by_user in Hv.
      apply (find_none _ _ Hv) in Hw. done. }
  rewrite <- E. destruct own, adm, rv1; cbn; split; split; congruence.
Qed.

Lemma view_iff_may_resolve_witness :
  getAlert bob 100 (scenario Active) = AlertForbidden.
Proof.
  destruct (view_iff_may_resolve bob 100 (scenario Active) (alert_of_alice Active)
              eq_refl) as [_ [_ H]].
  - cbn. repeat (constructor; [cbn; intros H; repeat destruct H as [H|H]; done|]).
    constructor.
  - cbn. repeat (constructor; [cbn; intros H; repeat destruct H as [H|H]; done|]).
    constructor.
  - apply H. reflexivity.
Defined.

(** ** Feedback that is pending *)

(** X22.  The list of pending feedback and submitFeedback fit together:
    for every alert that the query of getPendingFeedback selects for a
    caller, submitFeedback by that caller with a rating from 1 to 5
    succeeds, stores the rating, and the query does not select the alert
    any more. *)
Theorem feedback_clears_pending (caller : ReqUser.t) (id : ObjectId) (r : Q)
    (fb : option string) (now : Time) (st : Store) (a : Alert.t) :
  alerts st !! id = Some a ->
  pendingFeedbackQuery caller a = true ->
  (1 <= r)%Q -> (r <= 5)%Q ->
  let res := submitFeedback caller id (Some r) fb now st in
  res.2 = Json 200 true "Thank you for your feedback!" NoData
  /\ exists a',
       alerts res.1 !! id = Some a'
       /\ Resolution.rating (Alert.resolution a') = Some r
       /\ Alert.status a' = Resolved
       /\ pendingFeedbackQuery caller a' = false.
Proof.
  intros Ha Hq H1 H5. cbv zeta. unfold pendingFeedbackQuery in Hq.
  apply andb_true_iff in Hq as [Hq _].
  apply andb_true_iff in Hq as [Hq _].
  apply andb_true_iff in Hq as [Hu Hs].
  apply AlertStatus_eqb_eq in Hs.
  destruct (in_1_5 r H1 H5) as [Ht Ho].
  unfold submitFeedback. rewrite Ha, Hu, Hs, Ht, Ho. cbn [negb orb AlertStatus_eqb].
  split; [done|].
  set (a1 := Alert.with_resolution _ a).
  exists (Alert.pre_save now a1). split.
  - cbn [fst].
    destruct (RespondingVolunteer.volunteer _) as [vid|];
      [destruct (Volunteer_findById _ _)|];
      rewrite ?alerts_run_checkBadges; apply lookup_save_alert.
  - split; [done|]. split; [by cbn|].
    unfold pendingFeedbackQuery.
    cbn [Alert.resolution Alert.pre_save a1 Alert.with_resolution Resolution.rating].
    replace (Qeq_bool r 0) with false; [by rewrite andb_false_r|].
    symmetry. apply not_true_is_false. intros E. apply Qeq_bool_iff in E.
    rewrite E in H1. by apply Qle_bool_iff in H1.
Qed.

Lemma feedback_clears_pending_witness :
  (submitFeedback alice 100 (Some 4%Q) None 95000
     (resolveAlert bob 100 None None None 90000 accepted_store).1).2
  = Json 200 true "Thank you for your feedback!" NoData.
Proof.
  assert (Hq : exists a,
             alerts (resolveAlert bob 100 None None None 90000 accepted_store).1
               !! 100%N = Some a
             /\ pendingFeedbackQuery alice a = true).
  { eexists. split; [vm_compute; reflexivity|]. vm_compute. reflexivity. }
  destruct Hq as (a & Ha & Hq).
  assert (H1 : (1 <= 4)%Q) by (by apply Qle_bool_iff).
  assert (H5 : (4 <= 5)%Q) by (by apply Qle_bool_iff).
  destruct (feedback_clears_pending alice 100 4 None 95000 _ a Ha Hq H1 H5) as [H _].
  exact H.
Defined.

(** ** The feeds and the sweeper *)

(** X23.  The sweeper does not touch what the feeds show: an alert that
    the query of getNearbyAlerts or of getActiveAlert selects at some
    instant is left as it is by any run of the sweeper up to that instant,
    and an alert that the query of getNearbyAlerts selects after the run
    was there, unchanged, before it. *)
Theorem sweeper_spares_the_feeds (caller : ReqUser.t) (t now : Time) (w : World)
    (id : ObjectId) (a : Alert.t) :
  (t <= now)%Z ->
  let before := alerts (db w) in
  let after := alerts (db (cleanupAlerts NoFault t w).1) in
  (before !! id = Some a ->
   nearbyAlertsQuery now a = true \/ activeAlertQuery caller now a = true ->
   after !! id = Some a)
  /\ (after !! id = Some a -> nearbyAlertsQuery now a = true ->
      before !! id = Some a).
Proof.
  intros Ht. cbv zeta.
  destruct (cleanupAlerts_NoFault t w) as (lines & ->).
  cbn [fst db alerts with_alerts]. rewrite swept_lookup.
  unfold nearbyAlertsQuery, activeAlertQuery, stale, seven_days, one_day, ms_per_hour.
  split.
  - intros -> Hq.
    assert (Hage : (now - 24 * 60 * 60 * 1000 <= Alert.createdAt a)%Z).
    { destruct Hq as [Hq|Hq]; apply andb_true_iff in Hq as [_ Hq]; lia. }
    destruct (decide _) as [D|D]; [lia|].
    replace (Alert.createdAt a <? t - 24 * (60 * 60 * 1000))%Z with false by lia.
    by rewrite andb_false_r.
  - destruct (alerts (db w) !! id) as [a0|]; [|done].
    destruct (decide _) as [D|D]; [done|].
    destruct (is_open (Alert.status a0) && _) eqn:E; [|done].
    intros [= <-]. cbn. discriminate.
Qed.

Lemma sweeper_spares_the_feeds_witness :
  alerts (db (cleanupAlerts NoFault ten_days sweep_world).1) !! 3%N
  = alerts (db sweep_world) !! 3%N.
Proof.
  assert (Ht : (ten_days <= ten_days)%Z) by lia.
  destruct (sweeper_spares_the_feeds alice ten_days ten_days sweep_world 3
              (aged Active (2 * ms_per_hour)) Ht) as [H _].
  rewrite (H eq_refl); [reflexivity|]. left. reflexivity.
Defined.

(** ** The badge page *)

Lemma N2Q_pos n : (0 < n)%N -> (0 < N2Q n)%Q.
Proof.
  intros H. unfold N2Q. change 0%Q with (inject_Z 0). rewrite <- Zlt_Qlt. lia.
Qed.

Lemma N2Q_le n m : (N2Q n <= N2Q m)%Q <-> (n <= m)%N.
Proof. unfold N2Q. rewrite <- Zle_Qle. lia. Qed.

(** [Math.min(q / required * 100, 100)] is 100 exactly from [required] on. *)
Lemma progress_full (q : Q) (req : N) :
  (0 < req)%N ->
  let p0 := (q / N2Q req * 100)%Q in
  let p := if Qle_bool p0 100 then p0 else 100%Q in
  ((p == 100)%Q <-> (N2Q req <= q)%Q) /\ (p <= 100)%Q.
Proof.
  intros Hr. cbv zeta. apply N2Q_pos in Hr.
  assert (Hnz : ~ (N2Q req == 0)%Q).
  { intros E. rewrite E in Hr. by apply Qlt_irrefl in Hr. }
  set (x := (q / N2Q req)%Q).
  assert (Hx : (x * N2Q req == q)%Q).
  { unfold x. rewrite Qmult_comm. by apply Qmult_div_r. }
  assert (Hle : (x * 100 <= 100)%Q <-> (q <= N2Q req)%Q).
  { change 100%Q with (1 * 100)%Q at 2. rewrite Qmult_le_r by reflexivity.
    rewrite <- (Qmult_le_r x 1 (N2Q req)) by exact Hr.
    by rewrite Hx, Qmult_1_l. }
  assert (Heq : (x * 100 == 100)%Q <-> (q == N2Q req)%Q).
  { change 100%Q with (1 * 100)%Q at 2. rewrite Qmult_inj_r by discriminate.
    rewrite <- (Qmult_inj_r x 1 (N2Q req)) by exact Hnz.
    by rewrite Hx, Qmult_1_l. }
  destruct (Qle_bool (x * 100) 100) eqn:E.
  - apply Qle_bool_iff in E. pose proof (proj1 Hle E) as Hq.
    split; [|exact E]. rewrite Heq. split.
    + intros ->. apply Qle_refl.
    + intros H. by apply Qle_antisym.
  - split; [|apply Qle_refl]. split; [|done]. intros _.
    apply Qlt_le_weak, Qnot_le_lt. intros H. apply Hle in H.
    apply Qle_bool_iff in H. congruence.
Qed.

Lemma find_has_badge name l :
  match List.find (fun b => String.eqb (badge_name b) name) l with
  | Some _ => true
  | None => false
  end = has_badge name l.
Proof.
  unfold has_badge. induction l as [|b l IH]; [done|]. cbn [find existsb].
  by destruct (String.eqb (badge_name b) name).
Qed.

(** X20.  The badge page against the thresholds of checkBadges.  Once
    checkBadges has run on a profile, getBadges never shows one of the four
    count badges with a full progress bar and not earned: its progress is
    at most 100 and is 100 only if the badge is earned.  The progress of
    Quick Responder runs the other way: it is 100 exactly when the average
    response time is 180 seconds or more, that is, when the time condition
    of the badge fails. *)
Theorem badge_progress_and_thresholds (now : Time) (v : Volunteer.t)
    (b : volunteerController.BadgeStatus) :
  In b (volunteerController.badgesWithStatus (checkBadges now v).1) ->
  (In (volunteerController.bs_name b)
      ["First Responder"; "10 Assists"; "25 Assists"; "50 Assists"] ->
   exists p,
     volunteerController.bs_progress b = Finite p
     /\ (p <= 100)%Q
     /\ ((p == 100)%Q -> volunteerController.bs_earned b = true))
  /\ (volunteerController.bs_name b = "Quick Responder" ->
      forall a, Stats.avgResponseTime (Volunteer.stats v) = Finite a ->
      exists p,
        volunteerController.bs_progress b = Finite p
        /\ ((p == 100)%Q <-> (180 <= a)%Q)
        /\ (js_lt (Stats.avgResponseTime (Volunteer.stats v)) 180 = true ->
            (p < 100)%Q)).
Proof.
  intros Hb.
  destruct (checkBadges_awards now v) as (A1 & A2 & A3 & A4 & _).
  pose proof (checkBadges_badges now v) as Hbs.
  pose proof (checkBadges_stats now v) as Hst.
  rewrite checkBadges_awarded in A1, A2, A3, A4.
  unfold volunteerController.badgesWithStatus, allBadges in Hb.
  cbn [List.map In] in Hb. rewrite !find_has_badge, Hbs, Hst in Hb.
  rewrite !has_badge_app, A1, A2, A3, A4 in Hb.
  assert (Hcount : forall (n req : N) (held : bool),
             (0 < req)%N ->
             exists p,
               Finite (if Qle_bool (N2Q n / N2Q req * 100) 100
                       then (N2Q n / N2Q req * 100)%Q else 100%Q) = Finite p
               /\ (p <= 100)%Q
               /\ ((p == 100)%Q -> held || (req <=? n)%N && negb held = true)).
  { intros n req held Hr. eexists. split; [reflexivity|].
    destruct (progress_full (N2Q n) req Hr) as [H1 H2]. split; [exact H2|].
    intros E. apply H1, N2Q_le, N.leb_le in E. rewrite E. by destruct held. }
  destruct Hb as [<-|[<-|[<-|[<-|[<-|[<-|[]]]]]]];
    cbn [volunteerController.bs_name volunteerController.bs_progress
         volunteerController.bs_earned volunteerController.progress
         volunteerController.stat];
    (split; [intros Hin|intros Hn]);
    try (apply Hcount; lia);
    try discriminate Hn;
    try (cbn in Hin; repeat destruct Hin as [Hin|Hin]; discriminate || done).
  intros a Ha. unfold volunteerController.progress, volunteerController.stat.
  rewrite Ha. eexists. split; [reflexivity|].
  destruct (progress_full a 180 ltac:(lia)) as [H1 H2].
  split; [exact H1|].
  intros Hlt. apply js_lt_spec in Hlt as (q & [= <-] & Hlt).
  apply Qnot_le_lt. intros Hge.
  assert (E : ((if Qle_bool (a / N2Q 180 * 100) 100
                then (a / N2Q 180 * 100)%Q else 100%Q) == 100)%Q)
    by (by apply Qle_antisym).
  apply H1 in E. apply (Qlt_not_le _ _ Hlt). exact E.
Qed.

Lemma badge_progress_and_thresholds_witness :
  exists p,
    volunteerController.progress (Volunteer.stats (responder_5 100)) 180
      FAvgResponseTime = Finite p
    /\ (p < 100)%Q.
Proof.
  destruct (badge_progress_and_thresholds 0 (responder_5 100)
              (volunteerController.mkBadgeStatus "Quick Responder" 180
                 FAvgResponseTime true (Some 0%Z)
                 (volunteerController.progress
                    (Volunteer.stats (responder_5 100)) 180 FAvgResponseTime)))
    as [_ H].
  - vm_compute. tauto.
  - destruct (H eq_refl 100%Q eq_refl) as (p & Hp & _ & Hlt).
    exists p. split; [exact Hp|]. apply Hlt. reflexivity.
Defined.


(** ** The emergency contacts: privacy and phone numbers *)

Lemma save_other_collections isNew c st st' :
  contactController.save isNew c st = Some st' ->
  alerts st' = alerts st /\ volunteers st' = volunteers st.
Proof.
  unfold contactController.save. destruct (_ && _); [done|]. by intros [= <-].
Qed.

(** X24.  The contacts of a user are out of reach of the others: whatever
    createContact, deleteContact or setPrimaryContact does for a caller, the
    documents of every other user stay exactly as they were, as do the
    alerts and the volunteer profiles; and for the [_id] of another user's
    contact, getContact, deleteContact and setPrimaryContact answer 404. *)
Theorem contacts_are_private (op : ContactOp) (caller : ReqUser.t) (st : Store)
    (uid : ObjectId) :
  List.NoDup (List.map EmergencyContact._id (contacts st)) ->
  uid <> ReqUser.id caller ->
  let res := run_contact_op op caller st in
  docs_of uid (contacts res.1) = docs_of uid (contacts st)
  /\ alerts res.1 = alerts st
  /\ volunteers res.1 = volunteers st
  /\ forall x, In x (contacts st) -> EmergencyContact.user x = uid ->
       let id := EmergencyContact._id x in
       contactController.getContact caller id st
       = contactController.Json 404 false (Some "Contact not found") None
       /\ contactController.deleteContact caller id st
          = (st, contactController.Json 404 false (Some "Contact not found") None)
       /\ contactController.setPrimaryContact caller id st
          = (st, contactController.Json 404 false (Some "Contact not found") None).
Proof.
  intros Hn Hne. cbv zeta. set (u := ReqUser.id caller) in *.
  assert (H404 : forall x, In x (contacts st) -> EmergencyContact.user x = uid ->
            forall p : EmergencyContact.t -> bool,
              (forall c, p c = true ->
                 EmergencyContact._id c = EmergencyContact._id x
                 /\ EmergencyContact.user c = u) ->
              find p (contacts st) = None).
  { intros x Hx Hu p Hp. destruct (find p _) as [y|] eqn:E; [|done].
    apply find_some in E as [Hy Hb]. apply Hp in Hb as [Hi Huy].
    assert (y = x) by (by apply (NoDup_ids_inj (contacts st))). congruence. }
  assert (Hlast : forall x, In x (contacts st) -> EmergencyContact.user x = uid ->
            contactController.getContact caller (EmergencyContact._id x) st
            = contactController.Json 404 false (Some "Contact not found") None
            /\ contactController.deleteContact caller (EmergencyContact._id x) st
               = (st, contactController.Json 404 false (Some "Contact not found") None)
            /\ contactController.setPrimaryContact caller (EmergencyContact._id x) st
               = (st, contactController.Json 404 false (Some "Contact not found") None)).
  { intros x Hx Hu.
    unfold contactController.getContact, contactController.deleteContact,
      contactController.setPrimaryContact. fold u.
    rewrite !(H404 x Hx Hu); [done|..]; intros c Hc;
      repeat (apply andb_true_iff in Hc as [Hc ?]);
      split; by apply N.eqb_eq. }
  enough (Hmain : docs_of uid (contacts (run_contact_op op caller st).1)
                  = docs_of uid (contacts st)
                  /\ alerts (run_contact_op op caller st).1 = alerts st
                  /\ volunteers (run_contact_op op caller st).1 = volunteers st)
    by (destruct Hmain as (? & ? & ?); done).
  clear Hlast H404.
  destruct op as [body newId valid|id|id]; cbn [run_contact_op].
  - unfold contactController.createContact. fold u.
    destruct (5 <=? _)%nat; [done|].
    destruct (find _ _); [done|].
    destruct valid; cbn [negb]; [|done].
    destruct (contactController.save true _ st) as [st'|] eqn:Hs; [|done].
    cbn [fst]. destruct (save_other_collections _ _ _ _ Hs) as [-> ->].
    split; [|done].
    unfold contactController.save in Hs. destruct (_ && _); [done|].
    injection Hs as <-. cbn [contacts contactController.with_contacts
      EmergencyContact.isPrimary EmergencyContact.user EmergencyContact._id].
    unfold docs_of at 1. rewrite List.filter_app. cbn [List.filter EmergencyContact.user].
    replace (u =? uid)%N with false by (symmetry; apply N.eqb_neq; congruence).
    rewrite app_nil_r. destruct (_ || _); [|done]. by apply docs_clear_other.
  - unfold contactController.deleteContact. fold u.
    destruct (find _ _) as [x|] eqn:Hf; [|done].
    apply find_contact in Hf as (Hx & Hid & Hu). fold u in Hu.
    set (c0 := contactController.with_isActive false x).
    destruct (contactController.save false c0 st) as [st1|] eqn:Hs1; [|done].
    destruct (save_false_frame c0 st st1 x Hn Hx eq_refl eq_refl Hs1) as [Hids1 Hfr1].
    destruct (save_other_collections _ _ _ _ Hs1) as [Ha1 Hv1].
    cbn [fst].
    assert (Hd1 : docs_of uid (contacts st1) = docs_of uid (contacts st))
      by (apply Hfr1; cbn; congruence).
    destruct (EmergencyContact.isPrimary c0); [|by rewrite Hd1, Ha1, Hv1].
    destruct (find _ (contacts st1)) as [next|] eqn:Hnext;
      [|by rewrite Hd1, Ha1, Hv1].
    apply find_some in Hnext as [Hin Hb].
    apply andb_true_iff in Hb as [Hnu _]. apply N.eqb_eq in Hnu.
    destruct (contactController.save false _ st1) as [st2|] eqn:Hs2;
      [|by rewrite Hd1, Ha1, Hv1].
    destruct (save_false_frame (contactController.with_isPrimary true next)
                st1 st2 next ltac:(by rewrite Hids1) Hin
                eq_refl eq_refl Hs2) as [_ Hfr2].
    destruct (save_other_collections _ _ _ _ Hs2) as [-> ->].
    rewrite Hfr2 by (cbn; congruence). by rewrite Hd1, Ha1, Hv1.
  - unfold contactController.setPrimaryContact. fold u.
    destruct (find _ _) as [x|] eqn:Hf; [|done].
    apply find_some in Hf as [Hx Hb].
    apply andb_true_iff in Hb as [Hb _].
    apply andb_true_iff in Hb as [Hid Hu]. apply N.eqb_eq in Hid, Hu.
    set (st1 := contactController.with_contacts _ st).
    destruct (contactController.save false _ st1) as [st2|] eqn:Hs.
    + assert (Hn1 : List.NoDup (List.map EmergencyContact._id (contacts st1))).
      { unfold st1. cbn [contacts contactController.with_contacts].
        by rewrite ids_clear_primary. }
      destruct (save_false_frame (contactController.with_isPrimary true x)
                  st1 st2 x Hn1
                  ltac:(by apply In_clear_primary_self) eq_refl eq_refl Hs)
        as [_ Hfr].
      cbn [fst]. destruct (save_other_collections _ _ _ _ Hs) as [-> ->].
      rewrite Hfr by (cbn; congruence).
      unfold st1. cbn [contacts contactController.with_contacts alerts volunteers].
      split; [by apply docs_clear_other|done].
    + cbn [fst]. unfold st1.
      cbn [contacts contactController.with_contacts alerts volunteers].
      split; [by apply docs_clear_other|done].
Qed.

Lemma contacts_are_private_witness :
  contactController.deleteContact bob 51 demo_store
  = (demo_store, contactController.Json 404 false (Some "Contact not found") None).
Proof.
  destruct (contacts_are_private (OpDeleteContact 51) bob demo_store 1)
    as (_ & _ & _ & H).
  - cbn. repeat (constructor; [cbn; intros H; repeat destruct H as [H|H]; done|]).
    constructor.
  - cbn. lia.
  - destruct (H mum) as (_ & Hd & _); [cbn; tauto|reflexivity|]. exact Hd.
Defined.


Lemma In_clear_primary_fields uid id cs d :
  In d (contactController.clear_primary uid id cs) ->
  exists x, In x cs
    /\ EmergencyContact._id d = EmergencyContact._id x
    /\ EmergencyContact.user d = EmergencyContact.user x
    /\ EmergencyContact.isActive d = EmergencyContact.isActive x
    /\ EmergencyContact.phone d = EmergencyContact.phone x.
Proof.
  unfold contactController.clear_primary. intros H.
  apply in_map_iff in H as (x & <- & Hx). exists x. split; [done|].
  by destruct (_ && _).
Qed.

Lemma phones_of_map uid (f : EmergencyContact.t -> EmergencyContact.t) cs :
  (forall y, In y cs ->
     (EmergencyContact.user (f y) = EmergencyContact.user y
      /\ EmergencyContact.isActive (f y) = EmergencyContact.isActive y
      /\ EmergencyContact.phone (f y) = EmergencyContact.phone y)
     \/ EmergencyContact.isActive (f y) = false) ->
  (forall p, In p (phones_of uid (List.map f cs)) -> In p (phones_of uid cs))
  /\ (List.NoDup (phones_of uid cs) -> List.NoDup (phones_of uid (List.map f cs))).
Proof.
  unfold phones_of, active_contacts.
  induction cs as [|y cs IH]; intros H; [done|].
  destruct IH as [IH1 IH2]; [intros z Hz; apply H; by right|].
  cbn [List.map List.filter].
  destruct (H y (or_introl eq_refl)) as [(Hu & Ha & Hp)|Hoff].
  - rewrite Hu, Ha.
    destruct (_ && _); cbn [List.map]; [|done]. rewrite Hp. split.
    + intros p [<-|Hin]; [by left|right; by apply IH1].
    + intros Hn. apply List.NoDup_cons_iff in Hn as [Hy Hn].
      apply List.NoDup_cons_iff. split; [|by apply IH2].
      intros Hin. apply Hy. by apply IH1.
  - rewrite Hoff, andb_false_r. split.
    + intros p Hin. destruct (_ && _); cbn [List.map]; [right|]; by apply IH1.
    + intros Hn. apply IH2. destruct (_ && _); [|done].
      cbn [List.map] in Hn. by apply List.NoDup_cons_iff in Hn as [_ ?].
Qed.

Lemma phones_of_clear_primary uid u id cs :
  List.NoDup (phones_of uid cs) ->
  List.NoDup (phones_of uid (contactController.clear_primary u id cs)).
Proof.
  unfold contactController.clear_primary. apply phones_of_map.
  intros y _. left. by destruct (_ && _).
Qed.

Lemma phones_of_save_false uid c st st' x0 :
  List.NoDup (List.map EmergencyContact._id (contacts st)) ->
  In x0 (contacts st) ->
  EmergencyContact._id x0 = EmergencyContact._id c ->
  (EmergencyContact.user c = EmergencyContact.user x0
   /\ EmergencyContact.isActive c = EmergencyContact.isActive x0
   /\ EmergencyContact.phone c = EmergencyContact.phone x0)
  \/ EmergencyContact.isActive c = false ->
  contactController.save false c st = Some st' ->
  List.NoDup (phones_of uid (contacts st)) ->
  List.NoDup (phones_of uid (contacts st')).
Proof.
  intros Hn Hx Hid Hc. unfold contactController.save. cbn [andb].
  intros [= <-] Hp. cbn [contacts contactController.with_contacts].
  assert (H : forall l,
             (forall y, In y l -> EmergencyContact._id y = EmergencyContact._id c ->
                EmergencyContact.user y = EmergencyContact.user x0
                /\ EmergencyContact.isActive y = EmergencyContact.isActive x0
                /\ EmergencyContact.phone y = EmergencyContact.phone x0) ->
             List.NoDup (phones_of uid l) ->
             List.NoDup
               (phones_of uid
                  (List.map (fun d => if (EmergencyContact._id d
                                          =? EmergencyContact._id c)%N
                                      then c else d) l))).
  { intros l Hl. apply phones_of_map. intros y Hy.
    destruct (_ =? _)%N eqn:E; [|by left]. apply N.eqb_eq in E.
    destruct Hc as [(H1 & H2 & H3)|Hoff]; [left|by right].
    destruct (Hl y Hy E) as (-> & -> & ->). done. }
  destruct (EmergencyContact.isPrimary c).
  - apply H; [|by apply phones_of_clear_primary].
    intros y Hy E.
    apply In_clear_primary_fields in Hy as (z & Hz & Hi & Hu & Ha & Hph).
    assert (z = x0) as -> by (apply (NoDup_ids_inj (contacts st)); congruence).
    done.
  - apply H; [|done]. intros y Hy E.
    assert (y = x0) as -> by (apply (NoDup_ids_inj (contacts st)); congruence).
    done.
Qed.

(** X25.  No user gets two active contacts with the same phone number: if
    the active contacts of every user have distinct phone numbers (as
    stored), they still have after createContact, deleteContact or
    setPrimaryContact. *)
Theorem active_phones_stay_distinct (op : ContactOp) (caller : ReqUser.t)
    (st : Store) (uid : ObjectId) :
  List.NoDup (List.map EmergencyContact._id (contacts st)) ->
  (forall u, List.NoDup (phones_of u (contacts st))) ->
  List.NoDup (phones_of uid (contacts (run_contact_op op caller st).1)).
Proof.
  intros Hn Hp. set (u := ReqUser.id caller).
  destruct op as [body newId valid|id|id]; cbn [run_contact_op].
  - unfold contactController.createContact. fold u.
    destruct (5 <=? _)%nat; [apply Hp|].
    destruct (find _ _) eqn:Hf; [apply Hp|].
    destruct valid; cbn [negb]; [|apply Hp].
    unfold contactController.save.
    destruct (_ && _); [apply Hp|].
    cbn [fst contacts contactController.with_contacts EmergencyContact.isPrimary
         EmergencyContact.user EmergencyContact._id].
    set (cs := if _ || _ then _ else _).
    assert (Hcs : List.NoDup (phones_of uid cs)
                  /\ forall p, In p (phones_of uid cs) ->
                       In p (phones_of uid (contacts st))).
    { unfold cs. destruct (_ || _); [|done]. split.
      - by apply phones_of_clear_primary.
      - unfold contactController.clear_primary. apply phones_of_map.
        intros y _. left. by destruct (_ && _). }
    destruct Hcs as [Hcs Hsub].
    unfold phones_of, active_contacts. rewrite List.filter_app, List.map_app.
    cbn [List.filter EmergencyContact.user EmergencyContact.isActive].
    destruct (u =? uid)%N eqn:Eu; cbn [andb List.map];
      [|rewrite app_nil_r; exact Hcs].
    apply N.eqb_eq in Eu. subst uid. cbn [EmergencyContact.phone].
    apply NoDup_snoc; [exact Hcs|].
    intros Hin. apply Hsub in Hin. unfold phones_of, active_contacts in Hin.
    apply in_map_iff in Hin as (y & Hy & Hin).
    apply filter_In in Hin as [Hin Hb]. apply andb_true_iff in Hb as [Hb1 Hb2].
    pose proof (find_none _ _ Hf y Hin) as Hnone. cbn in Hnone.
    rewrite Hb1, Hb2, Hy, String.eqb_refl in Hnone. discriminate.
  - unfold contactController.deleteContact. fold u.
    destruct (find _ _) as [x|] eqn:Hf; [|apply Hp].
    apply find_contact in Hf as (Hx & Hid & Hu).
    set (c0 := contactController.with_isActive false x).
    destruct (contactController.save false c0 st) as [st1|] eqn:Hs1; [|apply Hp].
    pose proof (phones_of_save_false uid c0 st st1 x Hn Hx eq_refl
                  (or_intror eq_refl) Hs1 (Hp uid)) as H1.
    destruct (save_false_frame c0 st st1 x Hn Hx eq_refl eq_refl Hs1) as [Hids1 _].
    cbn [fst].
    destruct (EmergencyContact.isPrimary c0); [|exact H1].
    destruct (find _ (contacts st1)) as [next|] eqn:Hnext; [|exact H1].
    apply find_some in Hnext as [Hin _].
    destruct (contactController.save false _ st1) as [st2|] eqn:Hs2; [|exact H1].
    apply (phones_of_save_false uid (contactController.with_isPrimary true next)
             st1 st2 next); try done; [by rewrite Hids1|by left].
  - unfold contactController.setPrimaryContact. fold u.
    destruct (find _ _) as [x|] eqn:Hf; [|apply Hp].
    apply find_some in Hf as [Hx Hb].
    apply andb_true_iff in Hb as [Hb _].
    apply andb_true_iff in Hb as [Hid _]. apply N.eqb_eq in Hid.
    set (st1 := contactController.with_contacts _ st).
    assert (H1 : List.NoDup (phones_of uid (contacts st1))).
    { unfold st1. cbn [contacts contactController.with_contacts].
      by apply phones_of_clear_primary. }
    destruct (contactController.save false _ st1) as [st2|] eqn:Hs; [|exact H1].
    cbn [fst].
    apply (phones_of_save_false uid (contactController.with_isPrimary true x)
             st1 st2 x); try done.
    + unfold st1. cbn [contacts contactController.with_contacts].
      by rewrite ids_clear_primary.
    + by apply In_clear_primary_self.
    + by left.
Qed.

Lemma active_phones_stay_distinct_witness :
  phones_of 1
    (contacts
       (run_contact_op
          (OpCreateContact (contactController.mkBody "Didi" "+91 99999-00000" None)
                           53 true)
          alice demo_store).1)
  = ["+91 98765-43210"; "09876543211"; "+91 99999-00000"]
  /\ List.NoDup
       (phones_of 1
          (contacts
             (run_contact_op
                (OpCreateContact (contactController.mkBody "Didi" "+91 99999-00000" None)
                                 53 true)
                alice demo_store).1)).
Proof.
  split; [reflexivity|].
  apply active_phones_stay_distinct.
  - cbn. repeat (constructor; [cbn; intros H; repeat destruct H as [H|H]; done|]).
    constructor.
  - intros u. unfold phones_of, active_contacts. cbn [contacts demo_store List.filter].
    change (EmergencyContact.user mum) with 1%N.
    change (EmergencyContact.user friend) with 1%N.
    destruct (1 =? u)%N; cbn; [|constructor].
    repeat (constructor; [cbn; intros H; repeat destruct H as [H|H]; done|]).
    constructor.
Defined.

(** ** From the request for help to the rating *)

(** X26.  The whole course of a rescue: a valid request creates an alert;
    a volunteer whom the matcher selected accepts it, then resolves it
    without a rating; the alert is then among those the owner is asked
    feedback for, and the owner's rating from 1 to 5 is accepted.  At the
    end the alert is resolved with that rating, its response time is the
    whole number of seconds between creation and acceptance, and the
    volunteer's profile counts one more response, one more successful
    assist and one more rating, the rating being the mean of the old ones
    and the new one. *)
Theorem rescue_end_to_end (env : Env) (owner c : ReqUser.t) (body : CreateBody.t)
    (t0 t1 t2 t3 : Time) (st : Store) (la lo r : Q) (ty : AlertType)
    (fb : option string) (v : Volunteer.t) :
  CreateBody.latitude body = Some la ->
  CreateBody.longitude body = Some lo ->
  truthy (Some la) = true ->
  truthy (Some lo) = true ->
  parse_AlertType (type_or_sos (CreateBody.type body)) = Some ty ->
  findOne_by_user (ReqUser.id c) (volunteers st) = Some v ->
  In v (nearbyVolunteers env (mkPoint lo la) (volunteers st)) ->
  (1 <= r)%Q -> (r <= 5)%Q ->
  let id := new_ObjectId env in
  let st1 := (createAlert env owner body t0 st).1.1 in
  let st2 := (acceptAlert c id t1 st1).1 in
  let st3 := (resolveAlert c id None None None t2 st2).1 in
  let res := submitFeedback owner id (Some r) fb t3 st3 in
  is_success (acceptAlert c id t1 st1).2
  /\ is_success (resolveAlert c id None None None t2 st2).2
  /\ (exists a3, alerts st3 !! id = Some a3 /\ pendingFeedbackQuery owner a3 = true)
  /\ is_success res.2
  /\ (exists a4,
        alerts res.1 !! id = Some a4
        /\ Resolution.rating (Alert.resolution a4) = Some r
        /\ pendingFeedbackQuery owner a4 = false)
  /\ (exists w,
        Volunteer_findById (Volunteer._id v) (volunteers res.1) = Some w
        /\ Stats.totalResponses (Volunteer.stats w)
           = (Stats.totalResponses (Volunteer.stats v) + 1)%N
        /\ Stats.successfulAssists (Volunteer.stats w)
           = (Stats.successfulAssists (Volunteer.stats v) + 1)%N
        /\ Stats.totalRatings (Volunteer.stats w)
           = (Stats.totalRatings (Volunteer.stats v) + 1)%N
        /\ Stats.avgResponseTime (Volunteer.stats w)
           = next_avgResponseTime (Stats.avgResponseTime (Volunteer.stats v))
               (Stats.totalResponses (Volunteer.stats v) + 1)
               (Some (floor_seconds (t1 - t0)))
        /\ (Stats.rating (Volunteer.stats w)
            == (Stats.rating (Volunteer.stats v)
                * N2Q (Stats.totalRatings (Volunteer.stats v)) + r)
               / N2Q (Stats.totalRatings (Volunteer.stats v) + 1))%Q).
Proof.
  intros Hla Hlo Htla Htlo Hty Hv Hin H1 H5. cbv zeta.
  (* the alert is created *)
  rewrite (createAlert_created env owner body t0 st la lo ty) by done.
  cbn [fst].
  set (id := new_ObjectId env).
  set (A0 := Alert.pre_save t0 (created_alert env owner body la lo ty t0 st)).
  set (st1 := with_alerts _ st).
  assert (Ha0 : alerts st1 !! id = Some A0) by apply lookup_insert_eq.
  (* the volunteer accepts *)
  assert (Hacc : exists i e,
             acceptAlert c id t1 st1
             = (save_alert t1 id (accept_update c v i e t1 A0) st1,
                Json 200 true "Alert accepted successfully"
                     (AcceptedData id (Alert.location
                                         (accept_update c v i e t1 A0))))).
  { unfold acceptAlert. rewrite Ha0.
    cbn [A0 Alert.status Alert.pre_save created_alert AlertStatus_eqb negb].
    cbn [st1 volunteers with_alerts]. rewrite Hv.
    cbn [Alert.notifiedVolunteers].
    destruct (find_notified _ _) as [[i e]|] eqn:Hf; [by exists i, e|].
    apply find_notified_None in Hf. destruct Hf.
    apply List.Exists_exists.
    exists (notified_entry env la lo t0 v). split; [by apply in_map|done]. }
  destruct Hacc as (i & e & Hacc). rewrite Hacc. cbn [fst snd].
  split; [by do 2 eexists|].
  set (A1 := Alert.pre_save t1 (accept_update c v i e t1 A0)).
  set (st2 := save_alert t1 id _ st1).
  assert (Ha1 : alerts st2 !! id = Some A1) by apply lookup_save_alert.
  (* and resolves *)
  destruct (resolveAlert_by_responder c id None None None t2 st2 A1 v Ha1 Hv eq_refl)
    as (Hres & (a3 & Ha3 & Hu3 & Hs3 & Hr3 & Hrat3) & (w3 & Hw3 & Hst3)).
  rewrite Hres. split; [by do 2 eexists|].
  set (st3 := (resolveAlert c id None None None t2 st2).1) in *.
  assert (Hpend : pendingFeedbackQuery owner a3 = true).
  { unfold pendingFeedbackQuery. rewrite Hu3, Hs3, Hr3, Hrat3.
    cbn. by rewrite N.eqb_refl. }
  split; [by exists a3|].
  (* the owner rates *)
  destruct (submitFeedback_rated owner id r fb t3 st3 a3 (Volunteer._id v) w3
              Ha3 Hu3 Hs3 ltac:(by rewrite Hr3) Hw3 H1 H5)
    as (Hfb & (a4 & Ha4 & Hrat4) & (w4 & Hw4 & Hst4)).
  rewrite Hfb. split; [by do 2 eexists|]. split.
  - exists a4. split; [done|]. split; [done|].
    unfold pendingFeedbackQuery. rewrite Hrat4.
    replace (Qeq_bool r 0) with false; [by rewrite andb_false_r|].
    symmetry. apply not_true_is_false. intros E. apply Qeq_bool_iff in E.
    rewrite E in H1. by apply Qle_bool_iff in H1.
  - exists w4. split; [exact Hw4|]. rewrite Hst4.
    unfold add_rating. cbn [Volunteer.stats Volunteer.pre_save Volunteer.with_stats
      Stats.totalResponses Stats.successfulAssists Stats.totalRatings
      Stats.avgResponseTime Stats.rating].
    rewrite Hst3. unfold updateStats.
    cbn [Volunteer.stats Volunteer.pre_save Volunteer.with_stats
      Stats.totalResponses Stats.successfulAssists Stats.totalRatings
      Stats.avgResponseTime Stats.rating A1 Alert.responseTime Alert.pre_save].
    repeat (split; [done|]). reflexivity.
Qed.

Lemma rescue_end_to_end_witness :
  is_success
    (submitFeedback alice (new_ObjectId demo_env) (Some 5%Q) None 95000
       (resolveAlert bob (new_ObjectId demo_env) None None None 90000
          (acceptAlert bob (new_ObjectId demo_env) 61000
             (createAlert demo_env alice sos_body 1000 demo_store).1.1).1).1).2.
Proof.
  assert (H1 : (1 <= 5)%Q) by (by apply Qle_bool_iff).
  assert (H5 : (5 <= 5)%Q) by (by apply Qle_bool_iff).
  assert (Hin : In bob_profile
                  (nearbyVolunteers demo_env
                     (mkPoint (775946 # 10000) (129716 # 10000))
                     (volunteers demo_store))) by (vm_compute; tauto).
  destruct (rescue_end_to_end demo_env alice bob sos_body 1000 61000 90000 95000
              demo_store (129716 # 10000)%Q (775946 # 10000)%Q 5 Sos None
              bob_profile eq_refl eq_refl eq_refl eq_refl eq_refl eq_refl Hin H1 H5)
    as (_ & _ & _ & H & _).
  exact H.
Defined.

(** ** Verification, suspension and the matcher *)

Lemma findByIdAndUpdate_map id f vs :
  List.NoDup (List.map Volunteer._id vs) ->
  (forall v, Volunteer._id (f v) = Volunteer._id v) ->
  adminController.findByIdAndUpdate id f vs
  = List.map (fun w => if (Volunteer._id w =? id)%N then f w else w) vs.
Proof.
  intros Hn Hf. induction vs as [|v vs IH]; [done|].
  cbn [adminController.findByIdAndUpdate List.map] in *.
  apply List.NoDup_cons_iff in Hn as [Hv Hn].
  destruct (Volunteer._id v =? id)%N eqn:E.
  - f_equal. apply N.eqb_eq in E. subst id.
    rewrite <- (List.map_id vs) at 1. apply List.map_ext_in.
    intros w Hw. destruct (Volunteer._id w =? Volunteer._id v)%N eqn:E'; [|done].
    apply N.eqb_eq in E'. destruct Hv. rewrite <- E'. by apply in_map.
  - f_equal. by apply IH.
Qed.

(** X27.  What the admin decides reaches the matcher.  With distinct
    profile ids: after updateVolunteerStatus has set a profile to
    suspended, inactive or pending, no alert created afterwards selects it,
    although its duty flag is untouched; a status outside the enum is
    answered 400 and changes nothing; and after verifyVolunteer, a
    volunteer who was off duty and goes on duty is eligible for
    matching. *)
Theorem admin_decisions_reach_the_matcher (caller : ReqUser.t) (now : Time)
    (st : Store) (v : Volunteer.t) :
  List.NoDup (List.map Volunteer._id (volunteers st)) ->
  findOne_by_user (ReqUser.id caller) (volunteers st) = Some v ->
  let id := Volunteer._id v in
  (forall status s,
     adminController.parse_status status = Some s -> s <> VActive ->
     let res := adminController.updateVolunteerStatus id status st in
     (exists w, Volunteer_findById id (volunteers res.1) = Some w
                /\ Volunteer.status w = s
                /\ Volunteer.isOnDuty w = Volunteer.isOnDuty v)
     /\ forall env center w,
          In w (nearbyVolunteers env center (volunteers res.1)) ->
          Volunteer._id w <> id)
  /\ (forall status,
        adminController.parse_status status = None ->
        adminController.updateVolunteerStatus id status st
        = (st, adminController.Json 400 false "Invalid status" None))
  /\ (Volunteer.isOnDuty v = false ->
      let st1 := (adminController.verifyVolunteer id st).1 in
      let res := volunteerController.toggleDuty caller now st1 in
      res.2 = volunteerController.Json 200 true "You are now on duty" (Some true)
      /\ exists w, Volunteer_findById id (volunteers res.1) = Some w
                   /\ eligible w = true).
Proof.
  intros Hn Hv. cbv zeta.
  pose proof Hv as Hv'. apply findOne_In in Hv' as [Hin Hu].
  assert (Hfind : Volunteer_findById (Volunteer._id v) (volunteers st) = Some v).
  { unfold Volunteer_findById. apply find_unique; [done|apply N.eqb_refl|].
    intros y Hy Hp. apply N.eqb_eq in Hp.
    by apply (NoDup_map_inj Volunteer._id (volunteers st)). }
  split; [|split].
  - intros status s Hs Hne. unfold adminController.updateVolunteerStatus.
    rewrite Hs, Hfind. cbn [fst volunteers with_volunteers].
    rewrite findByIdAndUpdate_map by done.
    set (v' := adminController.with_status s v).
    assert (Hmap : List.map (fun w => if (Volunteer._id w =? Volunteer._id v)%N
                                      then adminController.with_status s w else w)
                            (volunteers st)
                   = List.map (fun w => if (Volunteer._id w =? Volunteer._id v')%N
                                        then v' else w) (volunteers st)).
    { apply List.map_ext_in. intros w Hw. cbn [v' Volunteer._id adminController.with_status].
      destruct (_ =? _)%N eqn:E; [|done]. apply N.eqb_eq in E.
      by rewrite (NoDup_map_inj Volunteer._id (volunteers st) w v). }
    rewrite Hmap. split.
    + exists v'. split; [|done].
      apply (findById_save_list v'). by exists v.
    + intros env center w Hw E.
      apply nearbyVolunteers_eligible in Hw as [Hw He].
      apply in_map_iff in Hw as (x & <- & Hx).
      cbn [v' Volunteer._id adminController.with_status] in *.
      destruct (Volunteer._id x =? Volunteer._id v)%N eqn:Ex.
      * unfold eligible in He. cbn [Volunteer.status Volunteer.isVerified
          Volunteer.isOnDuty] in He.
        destruct s; try done; cbn in He; by rewrite ?andb_false_r in He.
      * apply N.eqb_neq in Ex. done.
  - intros status Hs. unfold adminController.updateVolunteerStatus. by rewrite Hs.
  - intros Hoff. unfold adminController.verifyVolunteer. rewrite Hfind.
    cbn [fst volunteers with_volunteers].
    rewrite findByIdAndUpdate_map by done.
    set (v' := adminController.with_verified v).
    assert (Hmap : List.map (fun w => if (Volunteer._id w =? Volunteer._id v)%N
                                      then adminController.with_verified w else w)
                            (volunteers st)
                   = List.map (fun w => if (Volunteer._id w =? Volunteer._id v')%N
                                        then v' else w) (volunteers st)).
    { apply List.map_ext_in. intros w Hw.
      cbn [v' Volunteer._id adminController.with_verified].
      destruct (_ =? _)%N eqn:E; [|done]. apply N.eqb_eq in E.
      by rewrite (NoDup_map_inj Volunteer._id (volunteers st) w v). }
    rewrite Hmap. unfold volunteerController.toggleDuty.
    cbn [volunteers with_volunteers].
    rewrite (findOne_save_list (ReqUser.id caller) v v') by done.
    cbn [v' Volunteer.isVerified adminController.with_verified negb
         Volunteer.isOnDuty]. rewrite Hoff. cbn [negb fst snd].
    cbn [Volunteer.isOnDuty Volunteer.pre_save volunteerController.with_isOnDuty].
    split; [done|]. eexists. split.
    + unfold save_volunteer. cbn [volunteers with_volunteers].
      match goal with
      | |- Volunteer_findById _ (List.map (fun w => if (_ =? Volunteer._id ?c)%N
                                                  then _ else _) ?l) = _ =>
          apply (findById_save_list c l)
      end.
      exists v'. split; [|done].
      apply in_map_iff. exists v. split; [|done].
      by rewrite N.eqb_refl.
    + done.
Qed.

Lemma admin_decisions_reach_the_matcher_witness :
  adminController.updateVolunteerStatus 20 "retired" (scenario Active)
  = (scenario Active, adminController.Json 400 false "Invalid status" None).
Proof.
  destruct (admin_decisions_reach_the_matcher bob 5000 (scenario Active) bob_profile)
    as (_ & H & _).
  - cbn. repeat (constructor; [cbn; intros H; repeat destruct H as [H|H]; done|]).
    constructor.
  - reflexivity.
  - apply H. reflexivity.
Defined.
